(** * Smartnode: client health tracking and network-state snapshots

    A shallow embedding of the sync-wait helpers of
    [shared/services/requirements.go] and of the two [NetworkStateManager]
    versions (the daemon one in [rocketpool-daemon/common/state/manager.go]
    and the older one that keeps a [latestState]), with the properties the
    specification states about them.

    Conventions.
    - Go's fixed-width integers are [Z] with the wrap-around written out
      ([GoInt]); a [float64] is a binary64 float of the kernel.
    - A Go [error] is [option string]: [None] is [nil], [Some msg] carries
      the message; [fmt.Errorf] with [%w] prepends its text to the message.
    - Everything outside the process (clients, clock, sleeping) acts on an
      abstract world [W]; a call is a function [W -> A * W].
    - A [for { ... }] loop is its body, returning [Continue] or [Break],
      iterated by [loop] under a fuel bound; [None] means the fuel ran out
      before the loop left.
    - Mutexes ([updateLock], [ethClientSyncLock], [beaconClientSyncLock])
      only serialise callers and log lines only print; neither is part of
      this sequential model. *)

From Stdlib Require Import ZArith Lia Bool List String DecimalString.
From Stdlib Require PrimFloat Uint63.
Import ListNotations.

Local Open Scope Z_scope.

(* ================================================================== *)
(** ** Go integers *)

Module GoInt.

Definition to_uint64 (z : Z) : Z := z mod 2 ^ 64.

Definition to_int64 (z : Z) : Z := (z + 2 ^ 63) mod 2 ^ 64 - 2 ^ 63.

Definition maxInt64 : Z := 2 ^ 63 - 1.
Definition minInt64 : Z := - 2 ^ 63.

(** Saturation into the int64 range. *)
Definition clamp_int64 (z : Z) : Z :=
  if z <? minInt64 then minInt64
  else if maxInt64 <? z then maxInt64 else z.

Definition uint64_add (a b : Z) : Z := to_uint64 (a + b).
Definition uint64_sub (a b : Z) : Z := to_uint64 (a - b).
Definition uint64_mul (a b : Z) : Z := to_uint64 (a * b).

(** Integer division panics on a zero divisor: [None]. *)
Definition uint64_div (a b : Z) : option Z :=
  if b =? 0 then None else Some (a / b).

Definition int64_sub (a b : Z) : Z := to_int64 (a - b).

(** [fmt.Sprint] of an unsigned integer: its decimal digits. *)
Definition fmt_Sprint (z : Z) : string :=
  NilEmpty.string_of_uint (N.to_uint (Z.to_N z)).

(** [x.Uint64()] of a [*big.Int] of value [x]: the low 64 bits of its
    magnitude. *)
Definition bigInt_Uint64 (x : Z) : Z := Z.abs x mod 2 ^ 64.

(** [x.Int64()]: the low 64 bits of the magnitude as an int64, negated
    when [x] is negative. *)
Definition bigInt_Int64 (x : Z) : Z :=
  let v := to_int64 (Z.abs x mod 2 ^ 64) in
  if x <? 0 then to_int64 (- v) else v.

(** [float64(z)] for an int64 [z]: the nearest binary64 value. *)
Definition float64_of_int64 (z : Z) : PrimFloat.float :=
  if z <? 0 then
    if z =? minInt64
    then PrimFloat.opp (PrimFloat.mul (PrimFloat.of_uint63 (Uint63.of_Z (2 ^ 62)))
                                      (PrimFloat.of_uint63 (Uint63.of_Z 2)))
    else PrimFloat.opp (PrimFloat.of_uint63 (Uint63.of_Z (- z)))
  else PrimFloat.of_uint63 (Uint63.of_Z z).

End GoInt.
Import GoInt.

(** Go's [error] interface value. *)
Definition error : Type := option string.

(** [fmt.Errorf(prefix + "%w", err)]. *)
Definition fmt_Errorf (prefix : string) (err : string) : error :=
  Some (prefix ++ err)%string.

(** How a call ends: it returns, or the runtime panics. *)
Inductive exit (A : Type) : Type :=
| Return (a : A)
| Panic (msg : string).
Arguments Return {A} a.
Arguments Panic {A} msg.

(* ================================================================== *)
(** ** Calls that act on the outside world *)

Definition M (W A : Type) : Type := W -> A * W.

Definition ret {W A : Type} (a : A) : M W A := fun w => (a, w).

Definition bind {W A B : Type} (c : M W A) (k : A -> M W B) : M W B :=
  fun w => let (a, w') := c w in k a w'.

Declare Scope go_scope.
Delimit Scope go_scope with go.
Notation "x <- c ;; k" := (bind c (fun x => k))
  (at level 61, c at next level, right associativity) : go_scope.
Notation "' p <- c ;; k" := (bind c (fun p => k))
  (at level 61, p pattern, c at next level, right associativity) : go_scope.
Local Open Scope go_scope.

(** One pass through the body of a [for { }] loop. *)
Inductive step (S A : Type) : Type :=
| Continue (s : S)
| Break (a : A).
Arguments Continue {S A} s.
Arguments Break {S A} a.

Section Loop.
Context {W S A : Type}.
Variable body : S -> M W (step S A).

Fixpoint loop (fuel : nat) (s : S) : M W (option A) :=
  match fuel with
  | O => ret None
  | Datatypes.S n =>
      r <- body s ;;
      match r with
      | Continue s' => loop n s'
      | Break a => ret (Some a)
      end
  end.

(** The loop heads met on the way: [(s, w)] leads to [(s', w')] when the
    body, started at [s] in world [w], continues with [s'] in [w']. *)
Inductive reaches : S * W -> S * W -> Prop :=
| reaches_here : forall sw, reaches sw sw
| reaches_next : forall s w s1 w1 sw',
    body s w = (Continue s1, w1) ->
    reaches (s1, w1) sw' ->
    reaches (s, w) sw'.

End Loop.

(* ================================================================== *)
(** ** Go's [time] package, as far as the code uses it *)

Module GoTime.

(** [time.Duration]: int64 nanoseconds. *)
Definition Duration : Type := Z.
Definition Second : Duration := 1000000000.
Definition Minute : Duration := 60 * Second.
Definition maxDuration : Duration := maxInt64.
Definition minDuration : Duration := minInt64.

(** Seconds between Jan 1 of year 1 and the Unix epoch. *)
Definition unixToInternal : Z := 62135596800.

(** [time.Time]: wall-clock seconds since year 1 (int64), nanoseconds
    within the second, and the monotonic reading that [time.Now] attaches
    ([None] for times built by [time.Unix]). *)
Record Time : Type := mkTime {
  wallSec : Z;
  nsec : Z;
  mono : option Z
}.

(** [time.Unix(sec, 0)]. *)
Definition time_Unix (sec : Z) : Time :=
  {| wallSec := to_int64 (sec + unixToInternal); nsec := 0; mono := None |}.

(** [t.Unix()]. *)
Definition Time_Unix (t : Time) : Z := to_int64 (wallSec t - unixToInternal).

(** The instant of [t] in nanoseconds since year 1. *)
Definition wallNanos (t : Time) : Z := wallSec t * Second + nsec t.

(** [t.Sub(u)]: the difference, saturated to the Duration range; taken
    on the monotonic readings when both times carry one. *)
Definition Time_Sub (t u : Time) : Duration :=
  match mono t, mono u with
  | Some mt, Some mu => clamp_int64 (mt - mu)
  | _, _ => clamp_int64 (wallNanos t - wallNanos u)
  end.

(** [uint64(d.Seconds())]. [Seconds] is a float64; the conversion
    truncates toward zero. For a value below zero after truncation the
    result is implementation-dependent and is given by [negative]. The
    truncation below is exact for the durations [Time_Sub] yields on
    times built by [time_Unix]: whole seconds and the two saturation
    bounds. *)
Definition uint64_of_Seconds (negative : Duration -> Z) (d : Duration) : Z :=
  if 0 <=? d then d / Second
  else if - Second <? d then 0
  else to_uint64 (negative d).

(** [d.Seconds()]: [float64(d / Second) + float64(d % Second) / 1e9]. *)
Definition Duration_Seconds (d : Duration) : PrimFloat.float :=
  let sec := Z.quot d Second in
  let nsec := Z.rem d Second in
  PrimFloat.add (float64_of_int64 sec)
                (PrimFloat.div (float64_of_int64 nsec) (float64_of_int64 1000000000)).

(** [t.addSec(d)] on the seconds of a time without monotonic reading:
    the sum, saturated when it overflows. *)
Definition addSec (ext d : Z) : Z :=
  let sum := to_int64 (ext + d) in
  if Bool.eqb (ext <? sum) (0 <? d) then sum
  else if 0 <? d then maxInt64
  else - maxInt64.

(** [t.Add(d)], on a time as [time.Unix] builds it. Go's [/] and [%]
    truncate toward zero. A monotonic reading moves along with the time
    and is dropped when it overflows. *)
Definition Time_Add (t : Time) (d : Duration) : Time :=
  let dsec := Z.quot d Second in
  let ns := nsec t + Z.rem d Second in
  let dsec' := if Second <=? ns then dsec + 1 else if ns <? 0 then dsec - 1 else dsec in
  let ns' := if Second <=? ns then ns - Second else if ns <? 0 then ns + Second else ns in
  {| wallSec := addSec (wallSec t) dsec';
     nsec := ns';
     mono := match mono t with
             | Some m =>
                 let te := to_int64 (m + d) in
                 if ((d <? 0) && (m <? te)) || ((0 <? d) && (te <? m)) then None
                 else Some te
             | None => None
             end |}.

End GoTime.
Import GoTime.

(** What the process asks of its runtime. *)
Class Runtime (W : Type) : Type := {
  time_Now : M W Time;
  time_Sleep : Duration -> M W unit
}.

(** [time.Since(t)] is [time.Now().Sub(t)]. *)
Definition time_Since {W : Type} `{Runtime W} (t : Time) : M W Duration :=
  now <- time_Now ;; ret (Time_Sub now t).

(* ================================================================== *)
(** ** The beacon and execution client interfaces *)

Module beacon.

Record Eth2Config : Type := {
  GenesisTime : Z;
  SecondsPerSlot : Z;
  SlotsPerEpoch : Z
}.

Record BeaconHead : Type := {
  FinalizedEpoch : Z
}.

Record SyncStatus : Type := {
  Syncing : bool
}.

(** The methods of the beacon client the code calls. *)
Record Client (W BeaconBlock : Type) : Type := {
  GetEth2Config : M W (Eth2Config * error);
  GetBeaconHead : M W (BeaconHead * error);
  GetBeaconBlock : string -> M W (BeaconBlock * bool * error);
  GetSyncStatus : M W (SyncStatus * error)
}.
Arguments GetEth2Config {W BeaconBlock} _.
Arguments GetBeaconHead {W BeaconBlock} _.
Arguments GetBeaconBlock {W BeaconBlock} _ _.
Arguments GetSyncStatus {W BeaconBlock} _.

End beacon.

Module eth.

(** A block header; only its timestamp is read. *)
Record Header : Type := { Time : Z }.

(** [ethereum.SyncProgress], the progress object. *)
Record ethereum_SyncProgress : Type := {
  StartingBlock : Z;
  CurrentBlock : Z;
  HighestBlock : Z
}.

(** The methods of the execution client the code calls;
    [HeaderByNumber] is always asked for the latest header. *)
Record ExecutionClient (W : Type) : Type := {
  HeaderByNumber : M W (Header * error);
  SyncProgress : M W (option ethereum_SyncProgress * error)
}.
Arguments HeaderByNumber {W} _.
Arguments SyncProgress {W} _.

End eth.

(** "Get the corresponding Beacon slot based on the timestamp": the four
    lines that [GetHeadSlot] and [UpdateStateToHead] both run on the latest
    header. [None] is the panic of the division by a zero
    [SecondsPerSlot]. *)
Definition slotOfHeader (negativeSeconds : Duration -> Z)
    (beaconConfig : beacon.Eth2Config) (latestBlockHeader : eth.Header) : option Z :=
  let latestBlockTime := time_Unix (to_int64 (eth.Time latestBlockHeader)) in
  let genesisTime := time_Unix (to_int64 (beacon.GenesisTime beaconConfig)) in
  let secondsSinceGenesis :=
    uint64_of_Seconds negativeSeconds (Time_Sub latestBlockTime genesisTime) in
  let targetSlot := uint64_div secondsSinceGenesis (beacon.SecondsPerSlot beaconConfig) in
  targetSlot.

(* ================================================================== *)
(** ** [rocketpool-daemon/common/state/manager.go] *)

Module DaemonState.
Section Manager.
Context {W BeaconBlock : Type}.
(** [beacon.BeaconBlock{}] *)
Variable zeroBlock : BeaconBlock.
(** What [uint64(f)] gives for a float below zero on this platform. *)
Variable negativeSeconds : Duration -> Z.

(** The fields the functions below read; the configuration, contract
    bindings and logger of the Go struct play no part in them. *)
Record NetworkStateManager : Type := {
  ec : eth.ExecutionClient W;
  bc : beacon.Client W BeaconBlock;
  BeaconConfig : beacon.Eth2Config
}.

(** Gets the Beacon slot for the latest execution layer block *)
Definition GetHeadSlot (m : NetworkStateManager) : M W (exit (Z * error)) :=
  '(latestBlockHeader, err) <- eth.HeaderByNumber (ec m) ;;
  match err with
  | Some e => ret (Return (0, fmt_Errorf "error getting latest EL block: " e))
  | None =>
      match slotOfHeader negativeSeconds (BeaconConfig m) latestBlockHeader with
      | None => ret (Panic "runtime error: integer divide by zero")
      | Some targetSlot => ret (Return (targetSlot, None))
      end
  end.

(** The body of the loop of [GetLatestProposedBeaconBlock]. *)
Definition probeSlot (m : NetworkStateManager) (targetSlot : Z)
  : M W (step Z (BeaconBlock * error)) :=
  '(block, exists_, err) <- beacon.GetBeaconBlock (bc m) (fmt_Sprint targetSlot) ;;
  match err with
  | Some e =>
      ret (Break (zeroBlock,
                  fmt_Errorf ("error getting Beacon block " ++ fmt_Sprint targetSlot ++ ": ") e))
  | None =>
      if negb exists_ then ret (Continue (uint64_sub targetSlot 1))
      else ret (Break (block, None))
  end.

(** Gets the target Beacon block, or if it was missing, the first one
    under it that wasn't missing *)
Definition GetLatestProposedBeaconBlock (m : NetworkStateManager)
    (fuel : nat) (targetSlot : Z) : M W (option (BeaconBlock * error)) :=
  loop (probeSlot m) fuel targetSlot.

(** Gets the latest valid block *)
Definition GetLatestBeaconBlock (m : NetworkStateManager) (fuel : nat)
  : M W (option (exit (BeaconBlock * error))) :=
  r <- GetHeadSlot m ;;
  match r with
  | Panic msg => ret (Some (Panic msg))
  | Return (targetSlot, Some e) =>
      ret (Some (Return (zeroBlock, fmt_Errorf "error getting head slot: " e)))
  | Return (targetSlot, None) =>
      o <- GetLatestProposedBeaconBlock m fuel targetSlot ;;
      ret (option_map Return o)
  end.

(** Gets the latest valid finalized block *)
Definition GetLatestFinalizedBeaconBlock (m : NetworkStateManager) (fuel : nat)
  : M W (option (BeaconBlock * error)) :=
  '(head, err) <- beacon.GetBeaconHead (bc m) ;;
  match err with
  | Some e => ret (Some (zeroBlock, fmt_Errorf "error getting Beacon chain head: " e))
  | None =>
      let slotsPerEpoch := beacon.SlotsPerEpoch (BeaconConfig m) in
      let targetSlot :=
        uint64_add (uint64_mul (beacon.FinalizedEpoch head) slotsPerEpoch)
                   (uint64_sub slotsPerEpoch 1) in
      GetLatestProposedBeaconBlock m fuel targetSlot
  end.

(** The state builders, defined elsewhere in the package:
    [CreateNetworkState(cfg, rp, ec, bc, log, slotNumber, beaconConfig, context)]
    and [CreateNetworkStateForNode(..., nodeAddress,
    calculateTotalEffectiveStake, context)], which also returns the total
    effective stake. *)
Context {NetworkState Address : Type}.
Variable CreateNetworkState :
  eth.ExecutionClient W -> beacon.Client W BeaconBlock -> Z -> beacon.Eth2Config ->
  M W (option NetworkState * error).
Variable CreateNetworkStateForNode :
  eth.ExecutionClient W -> beacon.Client W BeaconBlock -> Z -> beacon.Eth2Config ->
  Address -> bool -> M W (option NetworkState * option Z * error).

(** Create a new manager for the network state *)
Definition NewNetworkStateManager (ec0 : eth.ExecutionClient W)
    (bc0 : beacon.Client W BeaconBlock) : M W (option NetworkStateManager * error) :=
  '(config, err) <- beacon.GetEth2Config bc0 ;;
  match err with
  | Some e => ret (None, Some e)
  | None => ret (Some {| ec := ec0; bc := bc0; BeaconConfig := config |}, None)
  end.

(** Get the state of the network at the provided Beacon slot *)
Definition getState (m : NetworkStateManager) (slotNumber : Z)
  : M W (option NetworkState * error) :=
  '(state, err) <- CreateNetworkState (ec m) (bc m) slotNumber (BeaconConfig m) ;;
  match err with
  | Some e => ret (None, Some e)
  | None => ret (state, None)
  end.

(** Get the state of the network for a specific node only at the provided
    Beacon slot *)
Definition getStateForNode (m : NetworkStateManager) (nodeAddress : Address)
    (slotNumber : Z) (calculateTotalEffectiveStake : bool)
  : M W (option NetworkState * option Z * error) :=
  '(state, totalEffectiveStake, err) <-
     CreateNetworkStateForNode (ec m) (bc m) slotNumber (BeaconConfig m)
       nodeAddress calculateTotalEffectiveStake ;;
  match err with
  | Some e => ret (None, None, Some e)
  | None => ret (state, totalEffectiveStake, None)
  end.

(** Get the state of the network using the latest Execution layer block *)
Definition GetHeadState (m : NetworkStateManager)
  : M W (exit (option NetworkState * error)) :=
  r <- GetHeadSlot m ;;
  match r with
  | Panic msg => ret (Panic msg)
  | Return (targetSlot, Some e) =>
      ret (Return (None, fmt_Errorf "error getting latest Beacon slot: " e))
  | Return (targetSlot, None) =>
      r' <- getState m targetSlot ;; ret (Return r')
  end.

(** Get the state of the network for a single node using the latest
    Execution layer block, along with the total effective RPL stake for
    the network *)
Definition GetHeadStateForNode (m : NetworkStateManager) (nodeAddress : Address)
    (calculateTotalEffectiveStake : bool)
  : M W (exit (option NetworkState * option Z * error)) :=
  r <- GetHeadSlot m ;;
  match r with
  | Panic msg => ret (Panic msg)
  | Return (targetSlot, Some e) =>
      ret (Return (None, None, fmt_Errorf "error getting latest Beacon slot: " e))
  | Return (targetSlot, None) =>
      r' <- getStateForNode m nodeAddress targetSlot calculateTotalEffectiveStake ;;
      ret (Return r')
  end.

(** Get the state of the network at the provided Beacon slot *)
Definition GetStateForSlot (m : NetworkStateManager) (slotNumber : Z)
  : M W (option NetworkState * error) :=
  getState m slotNumber.

End Manager.
End DaemonState.

(* ================================================================== *)
(** ** The [NetworkStateManager] that publishes a latest state *)

Module LegacyState.
Section Manager.
Context {W BeaconBlock NetworkState : Type}.
(** What [uint64(f)] gives for a float below zero on this platform. *)
Variable negativeSeconds : Duration -> Z.
(** [CreateNetworkState(cfg, rp, ec, bc, log, slotNumber, beaconConfig)]:
    the snapshot builder, defined elsewhere in the package. It returns a
    [*NetworkState] and an error. *)
Variable CreateNetworkState :
  eth.ExecutionClient W -> beacon.Client W BeaconBlock -> Z -> beacon.Eth2Config ->
  M W (option NetworkState * error).

Record NetworkStateManager : Type := {
  ec : eth.ExecutionClient W;
  bc : beacon.Client W BeaconBlock;
  BeaconConfig : beacon.Eth2Config;
  latestState : option NetworkState
}.

Definition set_latestState (m : NetworkStateManager) (s : option NetworkState)
  : NetworkStateManager :=
  {| ec := ec m; bc := bc m; BeaconConfig := BeaconConfig m; latestState := s |}.

(** Create a new manager for the network state *)
Definition NewNetworkStateManager (ec0 : eth.ExecutionClient W)
    (bc0 : beacon.Client W BeaconBlock) : M W (option NetworkStateManager * error) :=
  '(config, err) <- beacon.GetEth2Config bc0 ;;
  match err with
  | Some e => ret (None, Some e)
  | None =>
      ret (Some {| ec := ec0; bc := bc0; BeaconConfig := config; latestState := None |},
           None)
  end.

(** Gets the latest state in a thread-safe manner *)
Definition GetLatestState (m : NetworkStateManager) : option NetworkState :=
  latestState m.

(** Get the state of the network at the provided Beacon slot *)
Definition updateState (m : NetworkStateManager) (slotNumber : Z)
  : M W (NetworkStateManager * (option NetworkState * error)) :=
  '(state, err) <- CreateNetworkState (ec m) (bc m) slotNumber (BeaconConfig m) ;;
  match err with
  | Some e => ret (m, (None, Some e))
  | None => ret (set_latestState m state, (state, None))
  end.

Definition UpdateStateToSlot (m : NetworkStateManager) (slotNumber : Z)
  : M W (NetworkStateManager * (option NetworkState * error)) :=
  updateState m slotNumber.

(** Get the state of the network using the latest Execution layer block *)
Definition UpdateStateToHead (m : NetworkStateManager)
  : M W (NetworkStateManager * exit (option NetworkState * error)) :=
  '(latestBlockHeader, err) <- eth.HeaderByNumber (ec m) ;;
  match err with
  | Some e => ret (m, Return (None, fmt_Errorf "error getting latest EL block: " e))
  | None =>
      match slotOfHeader negativeSeconds (BeaconConfig m) latestBlockHeader with
      | None => ret (m, Panic "runtime error: integer divide by zero")
      | Some targetSlot =>
          '(m', r) <- updateState m targetSlot ;;
          ret (m', Return r)
      end
  end.

(** The body of the loop of [UpdateStateToFinalized]. *)
Definition probeSlot (m : NetworkStateManager) (targetSlot : Z)
  : M W (step Z (NetworkStateManager * (option NetworkState * error))) :=
  '(_, exists_, err) <- beacon.GetBeaconBlock (bc m) (fmt_Sprint targetSlot) ;;
  match err with
  | Some e =>
      ret (Break (m, (None,
                  fmt_Errorf ("error getting Beacon block " ++ fmt_Sprint targetSlot ++ ": ") e)))
  | None =>
      if negb exists_ then ret (Continue (uint64_sub targetSlot 1))
      else (r <- updateState m targetSlot ;; ret (Break r))
  end.

(** Get the state of the network at the latest finalized Beacon slot *)
Definition UpdateStateToFinalized (m : NetworkStateManager) (fuel : nat)
  : M W (option (NetworkStateManager * (option NetworkState * error))) :=
  '(head, err) <- beacon.GetBeaconHead (bc m) ;;
  match err with
  | Some e => ret (Some (m, (None, fmt_Errorf "error getting latest finalized slot: " e)))
  | None =>
      let slotsPerEpoch := beacon.SlotsPerEpoch (BeaconConfig m) in
      let targetSlot :=
        uint64_add (uint64_mul (beacon.FinalizedEpoch head) slotsPerEpoch)
                   (uint64_sub slotsPerEpoch 1) in
      loop (probeSlot m) fuel targetSlot
  end.

End Manager.
End LegacyState.

(* ================================================================== *)
(** ** [shared/services/requirements.go] *)

Module services.

(** Settings *)
Definition EthClientSyncTimeout : Z := 16.
Definition BeaconClientSyncTimeout : Z := 16.
Definition ethClientSyncPollInterval : Duration := 5 * Second.
Definition beaconClientSyncPollInterval : Duration := 5 * Second.
Definition ethClientRecentBlockThreshold : Duration := 5 * Minute.
Definition ethClientStatusRefreshInterval : Duration := 60 * Second.

(** The status report of one client, as [checkExecutionClientStatus]
    reads it (its sync-progress figure is only printed). *)
Record ClientStatus : Type := {
  IsWorking : bool;
  Error : string
}.

Record ClientManagerStatus : Type := {
  PrimaryEcStatus : ClientStatus;
  FallbackEnabled : bool;
  FallbackEcStatus : ClientStatus
}.

(** The execution client manager: two client handles (a fallback that is
    not configured is [nil]) and the readiness flags [CheckStatus] sets. *)
Record ExecutionClientManager (W : Type) : Type := {
  primaryEc : option (eth.ExecutionClient W);
  fallbackEc : option (eth.ExecutionClient W);
  primaryReady : bool;
  fallbackReady : bool
}.
Arguments primaryEc {W} _.
Arguments fallbackEc {W} _.
Arguments primaryReady {W} _.
Arguments fallbackReady {W} _.

(** [time.Time{}] *)
Definition zeroTime : Time := {| wallSec := 0; nsec := 0; mono := None |}.

(** [d.Seconds() > float64(timeout)], the comparison of the timeout check
    of [waitEthClientSynced], on the elapsed time [d]. *)
Definition elapsedExceeds (d : Duration) (timeout : Z) : bool :=
  PrimFloat.ltb (float64_of_int64 timeout) (Duration_Seconds d).

Section Requirements.
Context {W BeaconBlock : Type} `{Runtime W}.

(** [ecMgr.CheckStatus()], defined with the manager: it probes the clients,
    sets the manager's readiness flags and returns the status report. *)
Variable CheckStatus :
  ExecutionClientManager W -> M W (ClientManagerStatus * ExecutionClientManager W).
(** [GetEthClient(c)] and [GetBeaconClient(c)], the service getters. *)
Variable GetEthClient : M W (ExecutionClientManager W * error).
Variable GetBeaconClient : M W (beacon.Client W BeaconBlock * error).
(** [GetEthClientLatestBlockTimestamp(ec)], defined elsewhere in the
    package: the timestamp (uint64 seconds) of the latest block [ec] has. *)
Variable GetEthClientLatestBlockTimestamp : eth.ExecutionClient W -> M W (Z * error).
(** [d.Seconds() > float64(timeout)], a comparison of float64 values; the
    code's is [elapsedExceeds]. *)
Variable secondsExceed : Duration -> Z -> bool.

Definition checkExecutionClientStatus (ecMgr : ExecutionClientManager W)
  : M W (ExecutionClientManager W * (bool * option (eth.ExecutionClient W) * error)) :=
  (* Check the EC status *)
  '(mgrStatus, ecMgr) <- CheckStatus ecMgr ;;
  if primaryReady ecMgr then ret (ecMgr, (true, None, None))
  (* If the primary isn't synced but there's a fallback and it is, return true *)
  else if fallbackReady ecMgr then ret (ecMgr, (true, None, None))
  (* Is the primary working and syncing? If so, wait for it *)
  else if IsWorking (PrimaryEcStatus mgrStatus)
          && (Error (PrimaryEcStatus mgrStatus) =? EmptyString)%string
  then ret (ecMgr, (false, primaryEc ecMgr, None))
  (* Is the fallback working and syncing? If so, wait for it *)
  else if FallbackEnabled mgrStatus
          && IsWorking (FallbackEcStatus mgrStatus)
          && (Error (FallbackEcStatus mgrStatus) =? EmptyString)%string
  then ret (ecMgr, (false, fallbackEc ecMgr, None))
  (* If neither client is working, report the errors *)
  else if FallbackEnabled mgrStatus
  then ret (ecMgr, (false, None,
         Some ("Primary execution client is unavailable ("
               ++ Error (PrimaryEcStatus mgrStatus)
               ++ ") and fallback execution client is unavailable ("
               ++ Error (FallbackEcStatus mgrStatus)
               ++ "), no execution clients are ready.")%string))
  else ret (ecMgr, (false, None,
         Some ("Primary execution client is unavailable ("
               ++ Error (PrimaryEcStatus mgrStatus)
               ++ ") and no fallback execution client is configured.")%string)).

(** Confirm the EC's latest block is within the threshold of the current
    system clock *)
Definition IsSyncWithinThreshold (ec : eth.ExecutionClient W)
  : M W (bool * Time * error) :=
  '(timestamp, err) <- GetEthClientLatestBlockTimestamp ec ;;
  match err with
  | Some e => ret (false, zeroTime, Some e)
  | None =>
      let blockTime := time_Unix (to_int64 timestamp) in
      sinceBlock <- time_Since blockTime ;;
      if sinceBlock <? ethClientRecentBlockThreshold
      then ret (true, blockTime, None)
      else ret (false, blockTime, None)
  end.

(** The variables the wait loop of [waitEthClientSynced] updates. *)
Record ethWait : Type := {
  ecMgr : ExecutionClientManager W;
  clientToCheck : option (eth.ExecutionClient W);
  ecRefreshTime : Time
}.

(** Check timeout: [(timeout > 0) && (time.Since(startTime).Seconds() >
    float64(timeout))]; the clock is read only when [timeout > 0]. *)
Definition ethTimedOut (timeout : Z) (startTime : Time) : M W bool :=
  if 0 <? timeout
  then (elapsed <- time_Since startTime ;; ret (secondsExceed elapsed timeout))
  else ret false.

(** Get sync progress, check it, pause before the next poll. *)
Definition pollEthClient (st : ethWait) : M W (step ethWait (exit (bool * error))) :=
  match clientToCheck st with
  | None => ret (Break (Panic "runtime error: invalid memory address or nil pointer dereference"))
  | Some client =>
      '(progress, err) <- eth.SyncProgress client ;;
      match err with
      | Some e => ret (Break (Return (false, Some e)))
      | None =>
          match progress with
          | Some _ =>
              _ <- time_Sleep ethClientSyncPollInterval ;; ret (Continue st)
          | None =>
              (* Eth 1 client is not in "syncing" state but may be behind head *)
              '(isUpToDate, _, err) <- IsSyncWithinThreshold client ;;
              match err with
              | Some e => ret (Break (Return (false, Some e)))
              | None =>
                  if isUpToDate then ret (Break (Return (true, None)))
                  else (_ <- time_Sleep ethClientSyncPollInterval ;; ret (Continue st))
              end
          end
      end
  end.

(** The head of the wait loop: check the timeout, then refresh the
    primary / fallback status when it is older than the refresh interval.
    [Continue st'] goes on to poll with the loop variables [st']. *)
Definition waitEthHead (timeout : Z) (startTime : Time) (st : ethWait)
  : M W (step ethWait (exit (bool * error))) :=
  timedOut <- ethTimedOut timeout startTime ;;
  if timedOut then ret (Break (Return (false, None)))
  else
    sinceRefresh <- time_Since (ecRefreshTime st) ;;
    (* Check if the EC status needs to be refreshed *)
    if ethClientStatusRefreshInterval <? sinceRefresh then
      now <- time_Now ;;
      '(ecMgr, (synced, client, err)) <- checkExecutionClientStatus (ecMgr st) ;;
      match err with
      | Some e => ret (Break (Return (false, Some e)))
      | None =>
          if synced then ret (Break (Return (true, None)))
          else ret (Continue
                 {| ecMgr := ecMgr; clientToCheck := client; ecRefreshTime := now |})
      end
    else ret (Continue st).

(** The body of the wait loop of [waitEthClientSynced]. *)
Definition waitEthStep (timeout : Z) (startTime : Time) (st : ethWait)
  : M W (step ethWait (exit (bool * error))) :=
  r <- waitEthHead timeout startTime st ;;
  match r with
  | Break a => ret (Break a)
  | Continue st' => pollEthClient st'
  end.

(** Wait for the eth client to sync; timeout of 0 indicates no timeout *)
Definition waitEthClientSynced (verbose : bool) (timeout : Z) (fuel : nat)
  : M W (option (exit (bool * error))) :=
  '(ecMgr, err) <- GetEthClient ;;
  match err with
  | Some e => ret (Some (Return (false, Some e)))
  | None =>
      '(ecMgr, (synced, client, err)) <- checkExecutionClientStatus ecMgr ;;
      match err with
      | Some e => ret (Some (Return (false, Some e)))
      | None =>
          if synced then ret (Some (Return (true, None)))
          else
            startTime <- time_Now ;;
            loop (waitEthStep timeout startTime) fuel
                 {| ecMgr := ecMgr; clientToCheck := client; ecRefreshTime := startTime |}
      end
  end.

(** Check timeout: [(timeout > 0) && (time.Now().Unix()-startTime >
    timeout)]; the clock is read only when [timeout > 0]. *)
Definition beaconTimedOut (timeout : Z) (startTime : Z) : M W bool :=
  if 0 <? timeout
  then (now <- time_Now ;; ret (timeout <? int64_sub (Time_Unix now) startTime))
  else ret false.

(** The body of the wait loop of [waitBeaconClientSynced]. *)
Definition waitBeaconStep (bc : beacon.Client W BeaconBlock) (timeout : Z)
    (startTime : Z) (_ : unit) : M W (step unit (bool * error)) :=
  timedOut <- beaconTimedOut timeout startTime ;;
  if timedOut then ret (Break (false, None))
  else
    '(syncStatus, err) <- beacon.GetSyncStatus bc ;;
    match err with
    | Some e => ret (Break (false, Some e))
    | None =>
        if beacon.Syncing syncStatus
        then (_ <- time_Sleep beaconClientSyncPollInterval ;; ret (Continue tt))
        else ret (Break (true, None))
    end.

(** Wait for the beacon client to sync; timeout of 0 indicates no timeout *)
Definition waitBeaconClientSynced (verbose : bool) (timeout : Z) (fuel : nat)
  : M W (option (bool * error)) :=
  '(bc, err) <- GetBeaconClient ;;
  match err with
  | Some e => ret (Some (false, Some e))
  | None =>
      now <- time_Now ;;
      let startTime := Time_Unix now in
      loop (waitBeaconStep bc timeout startTime) fuel tt
  end.

(** [RequireEthClientSynced], [RequireBeaconClientSynced]: wait with the
    16 second timeout and turn "not ready" into an error. *)
Definition RequireEthClientSynced (fuel : nat) : M W (option (exit error)) :=
  o <- waitEthClientSynced false EthClientSyncTimeout fuel ;;
  match o with
  | None => ret None
  | Some (Panic msg) => ret (Some (Panic msg))
  | Some (Return (_, Some e)) => ret (Some (Return (Some e)))
  | Some (Return (false, None)) =>
      ret (Some (Return
        (Some "The Eth 1.0 node is currently syncing. Please try again later."%string)))
  | Some (Return (true, None)) => ret (Some (Return None))
  end.

Definition RequireBeaconClientSynced (fuel : nat) : M W (option error) :=
  o <- waitBeaconClientSynced false BeaconClientSyncTimeout fuel ;;
  match o with
  | None => ret None
  | Some (_, Some e) => ret (Some (Some e))
  | Some (false, None) =>
      ret (Some
        (Some "The Eth 2.0 node is currently syncing. Please try again later."%string))
  | Some (true, None) => ret (Some None)
  end.

(** [WaitEthClientSynced], [WaitBeaconClientSynced]: wait without timeout
    and return the error only. *)
Definition WaitEthClientSynced (verbose : bool) (fuel : nat)
  : M W (option (exit error)) :=
  o <- waitEthClientSynced verbose 0 fuel ;;
  match o with
  | None => ret None
  | Some (Panic msg) => ret (Some (Panic msg))
  | Some (Return (_, err)) => ret (Some (Return err))
  end.

Definition WaitBeaconClientSynced (verbose : bool) (fuel : nat) : M W (option error) :=
  o <- waitBeaconClientSynced verbose 0 fuel ;;
  ret (option_map snd o).

(** *** The requirements on the node's own services *)

Definition checkNodePasswordInterval : Duration := 15 * Second.
Definition checkNodeWalletInterval : Duration := 15 * Second.
Definition checkRocketStorageInterval : Duration := 15 * Second.
Definition checkNodeRegisteredInterval : Duration := 15 * Second.

(** [common.Address] and the Rocket Pool contract manager are opaque. *)
Context {common_Address RocketPool : Type}.

(** The password manager, the wallet and the Smartnode configuration, by
    the methods called on them. *)
Record PasswordManager : Type := {
  IsPasswordSet : M W bool
}.

Record Account : Type := { Address : common_Address }.

Record Wallet : Type := {
  GetInitialized : M W (bool * error);
  GetNodeAccount : M W (Account * error)
}.

Record SmartnodeConfig : Type := {
  GetStorageAddress : string;
  GetOneInchOracleAddress : string;
  GetRplFaucetAddress : string
}.

(** The service getters, [common.HexToAddress], the manager's [CodeAt]
    (asked for the latest block), and the contract reads
    [node.GetNodeExists] and [trustednode.GetMemberExists]. *)
Variable GetPasswordManager : M W (PasswordManager * error).
Variable GetWallet : M W (Wallet * error).
Variable GetConfig : M W (SmartnodeConfig * error).
Variable GetRocketPool : M W (RocketPool * error).
Variable HexToAddress : string -> common_Address.
Variable CodeAt : ExecutionClientManager W -> common_Address -> M W (list Byte.byte * error).
Variable GetNodeExists : RocketPool -> common_Address -> M W (bool * error).
Variable GetMemberExists : RocketPool -> common_Address -> M W (bool * error).

(** Check if the node password is set *)
Definition getNodePasswordSet : M W (bool * error) :=
  '(pm, err) <- GetPasswordManager ;;
  match err with
  | Some e => ret (false, Some e)
  | None => isSet <- IsPasswordSet pm ;; ret (isSet, None)
  end.

(** Check if the node wallet is initialized *)
Definition getNodeWalletInitialized : M W (bool * error) :=
  '(w, err) <- GetWallet ;;
  match err with
  | Some e => ret (false, Some e)
  | None => GetInitialized w
  end.

(** The body shared by [getRocketStorageLoaded], [getOneInchOracleLoaded]
    and [getRplFaucetLoaded], which differ in the configured address they
    look at: is there code at that address? *)
Definition contractLoaded (address : SmartnodeConfig -> string) : M W (bool * error) :=
  '(cfg, err) <- GetConfig ;;
  match err with
  | Some e => ret (false, Some e)
  | None =>
      '(ec, err) <- GetEthClient ;;
      match err with
      | Some e => ret (false, Some e)
      | None =>
          '(code, err) <- CodeAt ec (HexToAddress (address cfg)) ;;
          match err with
          | Some e => ret (false, Some e)
          | None => ret (0 <? Z.of_nat (List.length code), None)
          end
      end
  end.

(** Check if the RocketStorage contract is loaded *)
Definition getRocketStorageLoaded : M W (bool * error) :=
  contractLoaded GetStorageAddress.

(** Check if the 1inch exchange oracle contract is loaded *)
Definition getOneInchOracleLoaded : M W (bool * error) :=
  contractLoaded GetOneInchOracleAddress.

(** Check if the RPL faucet contract is loaded *)
Definition getRplFaucetLoaded : M W (bool * error) :=
  contractLoaded GetRplFaucetAddress.

(** The body shared by [getNodeRegistered] and [getNodeTrusted], which
    differ in the contract read made for the node's address. *)
Definition nodeAccountHas (exists_ : RocketPool -> common_Address -> M W (bool * error))
  : M W (bool * error) :=
  '(w, err) <- GetWallet ;;
  match err with
  | Some e => ret (false, Some e)
  | None =>
      '(rp, err) <- GetRocketPool ;;
      match err with
      | Some e => ret (false, Some e)
      | None =>
          '(nodeAccount, err) <- GetNodeAccount w ;;
          match err with
          | Some e => ret (false, Some e)
          | None => exists_ rp (Address nodeAccount)
          end
      end
  end.

(** Check if the node is registered *)
Definition getNodeRegistered : M W (bool * error) := nodeAccountHas GetNodeExists.

(** Check if the node is a member of the oracle DAO *)
Definition getNodeTrusted : M W (bool * error) := nodeAccountHas GetMemberExists.

(** [if err != nil { return err }; if !ok { return errors.New(msg) };
    return nil], the end of every [Require] function. *)
Definition demand (check : M W (bool * error)) (msg : string) : M W error :=
  '(ok, err) <- check ;;
  match err with
  | Some e => ret (Some e)
  | None => if negb ok then ret (Some msg) else ret None
  end.

Definition RequireNodePassword : M W error :=
  demand getNodePasswordSet
    "The node password has not been set. Please run 'rocketpool wallet init' and try again.".

Definition RequireNodeWallet : M W error :=
  err <- RequireNodePassword ;;
  match err with
  | Some e => ret (Some e)
  | None =>
      demand getNodeWalletInitialized
        "The node wallet has not been initialized. Please run 'rocketpool wallet init' and try again."
  end.

(** [if err := RequireEthClientSynced(c); err != nil { return err }],
    followed by [rest]. *)
Definition afterEthClientSynced (fuel : nat) (rest : M W error)
  : M W (option (exit error)) :=
  r <- RequireEthClientSynced fuel ;;
  match r with
  | Some (Return None) => err <- rest ;; ret (Some (Return err))
  | other => ret other
  end.

Definition RequireRocketStorage (fuel : nat) : M W (option (exit error)) :=
  afterEthClientSynced fuel
    (demand getRocketStorageLoaded
       "The Rocket Pool storage contract was not found; the configured address may be incorrect, or the Eth 1.0 node may not be synced. Please try again later.").

Definition RequireOneInchOracle (fuel : nat) : M W (option (exit error)) :=
  afterEthClientSynced fuel
    (demand getOneInchOracleLoaded
       "The 1inch oracle contract was not found; the configured address may be incorrect, or the mainnet Eth 1.0 node may not be synced. Please try again later.").

Definition RequireRplFaucet (fuel : nat) : M W (option (exit error)) :=
  afterEthClientSynced fuel
    (demand getRplFaucetLoaded
       "The RPL faucet contract was not found; the configured address may be incorrect, or the Eth 1.0 node may not be synced. Please try again later.").

(** [RequireNodeWallet], then [RequireRocketStorage], then [last]: the
    shape of [RequireNodeRegistered] and [RequireNodeTrusted]. *)
Definition requireOfNode (fuel : nat) (last : M W error) : M W (option (exit error)) :=
  err <- RequireNodeWallet ;;
  match err with
  | Some e => ret (Some (Return (Some e)))
  | None =>
      r <- RequireRocketStorage fuel ;;
      match r with
      | Some (Return None) => err <- last ;; ret (Some (Return err))
      | other => ret other
      end
  end.

Definition RequireNodeRegistered (fuel : nat) : M W (option (exit error)) :=
  requireOfNode fuel
    (demand getNodeRegistered
       "The node is not registered with Rocket Pool. Please run 'rocketpool node register' and try again.").

Definition RequireNodeTrusted (fuel : nat) : M W (option (exit error)) :=
  requireOfNode fuel
    (demand getNodeTrusted
       "The node is not a member of the oracle DAO. Nodes can only join the oracle DAO by invite.").

(** *** Service synchronization *)

(** The body of the [for { }] loop of [WaitNodePassword], [WaitNodeWallet],
    [WaitRocketStorage] and [WaitNodeRegistered]: an error ends the wait,
    so does a positive answer, anything else sleeps for the interval. *)
Definition waitUntil (check : M W (bool * error)) (interval : Duration) (_ : unit)
  : M W (step unit error) :=
  '(ok, err) <- check ;;
  match err with
  | Some e => ret (Break (Some e))
  | None =>
      if ok then ret (Break None)
      else (_ <- time_Sleep interval ;; ret (Continue tt))
  end.

Definition WaitNodePassword (verbose : bool) (fuel : nat) : M W (option error) :=
  loop (waitUntil getNodePasswordSet checkNodePasswordInterval) fuel tt.

Definition WaitNodeWallet (verbose : bool) (fuel : nat) : M W (option error) :=
  r <- WaitNodePassword verbose fuel ;;
  match r with
  | Some None => loop (waitUntil getNodeWalletInitialized checkNodeWalletInterval) fuel tt
  | other => ret other
  end.

Definition WaitRocketStorage (verbose : bool) (fuel : nat) : M W (option (exit error)) :=
  r <- WaitEthClientSynced verbose fuel ;;
  match r with
  | Some (Return None) =>
      o <- loop (waitUntil getRocketStorageLoaded checkRocketStorageInterval) fuel tt ;;
      ret (option_map Return o)
  | other => ret other
  end.

Definition WaitNodeRegistered (verbose : bool) (fuel : nat) : M W (option (exit error)) :=
  r <- WaitNodeWallet verbose fuel ;;
  match r with
  | Some None =>
      r' <- WaitRocketStorage verbose fuel ;;
      match r' with
      | Some (Return None) =>
          o <- loop (waitUntil getNodeRegistered checkNodeRegisteredInterval) fuel tt ;;
          ret (option_map Return o)
      | other => ret other
      end
  | Some (Some e) => ret (Some (Return (Some e)))
  | None => ret None
  end.

End Requirements.
End services.

(* ================================================================== *)
(** ** The watchtower task that dissolves timed out minipools *)

Module watchtower.

(** Settings *)
Definition MinipoolStatusBatchSize : Z := 20.

Section DissolveTimedOutMinipools.
Context {W common_Address Minipool MinipoolManager Config : Type}.

(** The fields of the network state the task reads. A [*big.Int] is its
    value. *)
Record NativeMinipoolDetails : Type := {
  Status : Z;
  StatusTime : Z;
  MinipoolAddress : common_Address;
  Version : Z
}.

Record NetworkDetails : Type := {
  MinipoolLaunchTimeout : Z
}.

Record NetworkState : Type := {
  BeaconConfig : beacon.Eth2Config;
  BeaconSlotNumber : Z;
  NetworkDetails_ : NetworkDetails;
  MinipoolDetails : list NativeMinipoolDetails
}.

(** The gas limits of a transaction, the transaction info and the
    transactor options the task sets. *)
Record GasInfo : Type := {
  EstGasLimit : Z;
  SafeGasLimit : Z
}.

Record TransactionInfo : Type := {
  GasInfo_ : GasInfo
}.

Record TransactOpts : Type := {
  Opts_From : common_Address;
  GasFeeCap : option Z;
  GasTipCap : option Z;
  GasLimit : Z
}.

(** [rptypes.MinipoolStatus_Prelaunch] and [address.Hex()]. *)
Variable MinipoolStatus_Prelaunch : Z.
Variable Hex : common_Address -> string.
(** The services of the task: its configuration, and
    [eth.GweiToWei(utils.GetWatchtowerMaxFee(cfg))] and
    [eth.GweiToWei(utils.GetWatchtowerPrioFee(cfg))]. *)
Variable cfg : Config.
Variable WatchtowerMaxFee : Config -> Z.
Variable WatchtowerPrioFee : Config -> Z.
(** [minipool.NewMinipoolManager(rp)], [mpMgr.NewMinipoolFromVersion],
    [mp.Common().Address], [w.GetTransactor()], [mp.Common().Dissolve(opts)],
    [gas.PrintAndCheckGasInfo(gasInfo, false, 0, log, maxFee, 0)] and
    [tx.PrintAndWaitForTransaction(cfg, rp, log, txInfo, opts)]. *)
Variable NewMinipoolManager : M W (MinipoolManager * error).
Variable NewMinipoolFromVersion :
  MinipoolManager -> common_Address -> Z -> M W (Minipool * error).
Variable Common_Address : Minipool -> common_Address.
Variable GetTransactor : M W (TransactOpts * error).
Variable Dissolve : Minipool -> TransactOpts -> M W (TransactionInfo * error).
Variable PrintAndCheckGasInfo : GasInfo -> Z -> M W bool.
Variable PrintAndWaitForTransaction : TransactionInfo -> TransactOpts -> M W error.

(** The loop of [getTimedOutMinipools] over the minipool details:
    "Filter minipools by status". *)
Fixpoint filterByStatus (mpMgr : MinipoolManager) (blockTime : Time)
    (launchTimeout : Duration) (details : list NativeMinipoolDetails)
    (timedOutMinipools : list Minipool) : M W (list Minipool * error) :=
  match details with
  | [] => ret (timedOutMinipools, None)
  | mpd :: rest =>
      let statusTime := time_Unix (bigInt_Int64 (StatusTime mpd)) in
      if (Status mpd =? MinipoolStatus_Prelaunch)
         && (launchTimeout <=? Time_Sub blockTime statusTime)
      then
        '(mp, err) <- NewMinipoolFromVersion mpMgr (MinipoolAddress mpd) (Version mpd) ;;
        match err with
        | Some e =>
            ret ([], fmt_Errorf ("error creating binding for minipool "
                                 ++ Hex (MinipoolAddress mpd) ++ ": ") e)
        | None => filterByStatus mpMgr blockTime launchTimeout rest (timedOutMinipools ++ [mp])
        end
      else filterByStatus mpMgr blockTime launchTimeout rest timedOutMinipools
  end.

(** Get timed out minipools *)
Definition getTimedOutMinipools (mpMgr : MinipoolManager) (state : NetworkState)
  : M W (list Minipool * error) :=
  let genesisTime := time_Unix (to_int64 (beacon.GenesisTime (BeaconConfig state))) in
  let secondsSinceGenesis :=
    to_int64 (to_int64 (uint64_mul (BeaconSlotNumber state)
                                   (beacon.SecondsPerSlot (BeaconConfig state)))
              * Second) in
  let blockTime := Time_Add genesisTime secondsSinceGenesis in
  let launchTimeoutBig := MinipoolLaunchTimeout (NetworkDetails_ state) in
  let launchTimeout := to_int64 (to_int64 (bigInt_Uint64 launchTimeoutBig) * Second) in
  filterByStatus mpMgr blockTime launchTimeout (MinipoolDetails state) [].

(** Dissolve a minipool *)
Definition dissolveMinipool (mp : Minipool) : M W error :=
  (* Get transactor *)
  '(opts, err) <- GetTransactor ;;
  match err with
  | Some e => ret (Some e)
  | None =>
      (* Get the tx info *)
      '(txInfo, err) <- Dissolve mp opts ;;
      match err with
      | Some e =>
          ret (fmt_Errorf ("error getting dissolve tx for minipool "
                           ++ Hex (Common_Address mp) ++ ": ") e)
      | None =>
          (* Print the gas info *)
          let maxFee := WatchtowerMaxFee cfg in
          ok <- PrintAndCheckGasInfo (GasInfo_ txInfo) maxFee ;;
          if negb ok then ret None
          else
            (* Set the gas settings *)
            let opts' := {| Opts_From := Opts_From opts;
                            GasFeeCap := Some maxFee;
                            GasTipCap := Some (WatchtowerPrioFee cfg);
                            GasLimit := SafeGasLimit (GasInfo_ txInfo) |} in
            (* Print TX info and wait for it to be included in a block *)
            PrintAndWaitForTransaction txInfo opts'
      end
  end.

(** "Dissolve minipools": a failed dissolve is logged, and the loop goes
    on. *)
Fixpoint dissolveAll (minipools : list Minipool) : M W unit :=
  match minipools with
  | [] => ret tt
  | mp :: rest => _ <- dissolveMinipool mp ;; dissolveAll rest
  end.

(** Dissolve timed out minipools *)
Definition Run (state : NetworkState) : M W error :=
  '(mpMgr, err) <- NewMinipoolManager ;;
  match err with
  | Some e => ret (fmt_Errorf "error creating minipool manager: " e)
  | None =>
      (* Get timed out minipools *)
      '(minipools, err) <- getTimedOutMinipools mpMgr state ;;
      match err with
      | Some e => ret (Some e)
      | None =>
          if (List.length minipools =? 0)%nat then ret None
          else (_ <- dissolveAll minipools ;; ret None)
      end
  end.

End DissolveTimedOutMinipools.
End watchtower.

(* ================================================================== *)
(** ** The auction lots route *)

Module auction.
Section Lots.
(** [float64] values are only copied. *)
Context {float64 : Type}.

(** The fields of an auction lot binding after the batch query. A
    [*big.Int] is [None] when nil. *)
Record AuctionLot : Type := {
  lot_Index : Z;
  lot_Exists : bool;
  lot_StartBlock : Z;
  lot_EndBlock : Z;
  lot_StartPrice : float64;
  lot_ReservePrice : float64;
  lot_PriceAtCurrentBlock : float64;
  lot_PriceByTotalBids : float64;
  lot_CurrentPrice : float64;
  lot_TotalRplAmount : option Z;
  lot_ClaimedRplAmount : option Z;
  lot_RemainingRplAmount : option Z;
  lot_TotalBidAmount : option Z;
  lot_IsCleared : bool;
  lot_RplRecovered : bool
}.

(** [api.AuctionLotDetails] *)
Record AuctionLotDetails : Type := {
  Index : Z;
  Exists : bool;
  StartBlock : Z;
  EndBlock : Z;
  StartPrice : float64;
  ReservePrice : float64;
  PriceAtCurrentBlock : float64;
  PriceByTotalBids : float64;
  CurrentPrice : float64;
  TotalRplAmount : option Z;
  ClaimedRplAmount : option Z;
  RemainingRplAmount : option Z;
  TotalBidAmount : option Z;
  IsCleared : bool;
  RplRecovered : bool;
  ClaimAvailable : bool;
  BiddingAvailable : bool;
  RplRecoveryAvailable : bool;
  NodeBidAmount : option Z
}.

(** The body of the "Process details" loop of [PrepareData], for the lot
    [lot] and the node's bid [nodeBidAmount] the query loaded. [Cmp] on a
    nil [*big.Int] panics. *)
Definition processLot (lot : AuctionLot) (nodeBidAmount : option Z)
  : exit AuctionLotDetails :=
  match nodeBidAmount, lot_RemainingRplAmount lot with
  | Some bid, Some remaining =>
      (* Check lot conditions *)
      let addressHasBid := 0 <? bid in
      let hasRemainingRpl := 0 <? remaining in
      Return
        {| Index := lot_Index lot;
           Exists := lot_Exists lot;
           StartBlock := lot_StartBlock lot;
           EndBlock := lot_EndBlock lot;
           StartPrice := lot_StartPrice lot;
           ReservePrice := lot_ReservePrice lot;
           PriceAtCurrentBlock := lot_PriceAtCurrentBlock lot;
           PriceByTotalBids := lot_PriceByTotalBids lot;
           CurrentPrice := lot_CurrentPrice lot;
           TotalRplAmount := lot_TotalRplAmount lot;
           ClaimedRplAmount := lot_ClaimedRplAmount lot;
           RemainingRplAmount := lot_RemainingRplAmount lot;
           TotalBidAmount := lot_TotalBidAmount lot;
           IsCleared := lot_IsCleared lot;
           RplRecovered := lot_RplRecovered lot;
           ClaimAvailable := addressHasBid && lot_IsCleared lot;
           BiddingAvailable := negb (lot_IsCleared lot) && hasRemainingRpl;
           RplRecoveryAvailable :=
             lot_IsCleared lot && hasRemainingRpl && negb (lot_RplRecovered lot);
           NodeBidAmount := nodeBidAmount |}
  | _, _ => Panic "runtime error: invalid memory address or nil pointer dereference"
  end.

(** The "Process details" loop, over the lots and node bids loaded. *)
Fixpoint processDetails (loaded : list (AuctionLot * option Z))
  : exit (list AuctionLotDetails) :=
  match loaded with
  | [] => Return []
  | (lot, nodeBidAmount) :: rest =>
      match processLot lot nodeBidAmount with
      | Panic msg => Panic msg
      | Return fullDetails =>
          match processDetails rest with
          | Panic msg => Panic msg
          | Return details => Return (fullDetails :: details)
          end
      end
  end.

Section PrepareData.
Context {W : Type}.
(** "Load details": the batch query of [PrepareData] with its callback,
    for [lotCount] lots; it leaves a lot binding and the node's bid for
    each index, or fails. *)
Variable loadDetails : Z -> M W (list (AuctionLot * option Z) * error).

(** [PrepareData], given the lot count read in [GetState]: the data's
    [Lots], and the error. *)
Definition PrepareData (lotCount : Z)
  : M W (exit (list AuctionLotDetails * error)) :=
  '(loaded, err) <- loadDetails lotCount ;;
  match err with
  | Some e => ret (Return ([], fmt_Errorf "error getting lot details: " e))
  | None =>
      match processDetails loaded with
      | Panic msg => ret (Panic msg)
      | Return details => ret (Return (details, None))
      end
  end.

End PrepareData.
End Lots.
End auction.

(* ================================================================== *)
(** ** [rocketpool-daemon/api/pdao/utils.go] *)

Module pdao.
Section Pollard.
Context {W ProposalManager VotingTreeNode : Type}.

(** [proposals.NewProposalManager(nil, cfg, rp, bc)] and the two pollard
    methods of the manager; a pollard comes as pointers to its nodes. *)
Variable NewProposalManager : M W (ProposalManager * error).
Variable CreatePollardForProposal :
  ProposalManager -> M W (Z * list (option VotingTreeNode) * error).
Variable GetPollardForProposal :
  ProposalManager -> Z -> M W (list (option VotingTreeNode) * error).

(** "Make a slice of nodes from their pointers"; dereferencing a nil
    pointer panics. *)
Fixpoint nodesOf (pollardPtrs : list (option VotingTreeNode))
  : exit (list VotingTreeNode) :=
  match pollardPtrs with
  | [] => Return []
  | None :: _ => Panic "runtime error: invalid memory address or nil pointer dereference"
  | Some node :: rest =>
      match nodesOf rest with
      | Panic msg => Panic msg
      | Return pollard => Return (node :: pollard)
      end
  end.

(** Constructs a pollard for the latest finalized block and saves it to
    disk *)
Definition createPollard : M W (exit (Z * list VotingTreeNode * error)) :=
  '(propMgr, err) <- NewProposalManager ;;
  match err with
  | Some e => ret (Return (0, [], Some e))
  | None =>
      '(blockNumber, pollardPtrs, err) <- CreatePollardForProposal propMgr ;;
      match err with
      | Some e => ret (Return (0, [], Some e))
      | None =>
          match nodesOf pollardPtrs with
          | Panic msg => ret (Panic msg)
          | Return pollard => ret (Return (blockNumber, pollard, None))
          end
      end
  end.

(** Loads (or regenerates) the pollard for a proposal from a block number *)
Definition getPollard (blockNumber : Z) : M W (exit (list VotingTreeNode * error)) :=
  '(propMgr, err) <- NewProposalManager ;;
  match err with
  | Some e => ret (Return ([], Some e))
  | None =>
      '(pollardPtrs, err) <- GetPollardForProposal propMgr blockNumber ;;
      match err with
      | Some e => ret (Return ([], Some e))
      | None =>
          match nodesOf pollardPtrs with
          | Panic msg => ret (Panic msg)
          | Return pollard => ret (Return (pollard, None))
          end
      end
  end.

End Pollard.
End pdao.

(* ================================================================== *)
(** * The vocabulary of the properties *)

(** Seconds that [time.Unix] represents without overflow. *)
Definition representable (sec : Z) : Prop :=
  0 <= sec < 2 ^ 63 - unixToInternal.

(** The instant of [t] in nanoseconds since the Unix epoch. *)
Definition unixNanos (t : Time) : Z := wallNanos t - unixToInternal * Second.

(** The target slot of the finalized walk: the last slot of the finalized
    epoch, in uint64 arithmetic. *)
Definition finalizedSlot (cfg : beacon.Eth2Config) (head : beacon.BeaconHead) : Z :=
  uint64_add (uint64_mul (beacon.FinalizedEpoch head) (beacon.SlotsPerEpoch cfg))
             (uint64_sub (beacon.SlotsPerEpoch cfg) 1).

Section BeaconChain.
Context {W BeaconBlock : Type}.
Variable client : beacon.Client W BeaconBlock.

(** What the beacon client says about a slot, whenever it is asked. *)
Definition hasBlock (slot : Z) (b : BeaconBlock) : Prop :=
  forall w, fst (beacon.GetBeaconBlock client (fmt_Sprint slot) w) = (b, true, None).

Definition isMissing (slot : Z) : Prop :=
  forall w, exists b,
    fst (beacon.GetBeaconBlock client (fmt_Sprint slot) w) = (b, false, None).

Definition neverMissing (slot : Z) : Prop :=
  forall w b, fst (beacon.GetBeaconBlock client (fmt_Sprint slot) w) <> (b, false, None).

(** The requests a walk makes on its way down: asked for slot [s] in the
    world [w] and for every slot below it down to [s'], excluded, the
    client reported the slot missing, and the request for [s'] is next,
    in the world [w']. *)
Inductive walksDown : Z -> W -> Z -> W -> Prop :=
| walksDown_here : forall s w, walksDown s w s w
| walksDown_missing : forall s w b w1 s' w',
    beacon.GetBeaconBlock client (fmt_Sprint s) w = ((b, false, None), w1) ->
    walksDown (uint64_sub s 1) w1 s' w' ->
    walksDown s w s' w'.

End BeaconChain.

(** The slot the walk probes in its pass number [k], started at [s]. *)
Definition slotBelow (s : Z) (k : nat) : Z := to_uint64 (s - Z.of_nat k).

Section Answers.
Context {W BeaconBlock : Type}.

(** The beacon client answers a block request by [answer], whenever it
    is asked. *)
Definition answersBy (client : beacon.Client W BeaconBlock)
    (answer : string -> BeaconBlock * bool * error) : Prop :=
  forall id w, fst (beacon.GetBeaconBlock client id w) = answer id.

End Answers.

Section Checks.
Context {W : Type} `{Runtime W}.
Variable check : M W (bool * error).
Variable interval : Duration.

(** The world in which the next check of a [waitUntil] loop is made after
    a check that came out negative: the check, then the sleep. *)
Definition nextCheck (w : W) : W := snd (time_Sleep interval (snd (check w))).

Fixpoint checkWorld (k : nat) (w : W) : W :=
  match k with
  | O => w
  | Datatypes.S k' => checkWorld k' (nextCheck w)
  end.

(** Check [k] is the first to come out positive: the checks before it
    came out negative, all without error. *)
Definition holdsAtCheck (k : nat) (w : W) : Prop :=
  (forall j, (j < k)%nat -> fst (check (checkWorld j w)) = (false, None))
  /\ fst (check (checkWorld k w)) = (true, None).

End Checks.

Section TimedOut.
Context {common_Address : Type}.

(** A minipool is timed out at the time of the state's slot: it is in
    prelaunch, and has been for the launch timeout or longer. Times are
    in seconds. *)
Definition timedOut (MinipoolStatus_Prelaunch : Z)
    (state : @watchtower.NetworkState common_Address)
    (mpd : @watchtower.NativeMinipoolDetails common_Address) : bool :=
  (watchtower.Status mpd =? MinipoolStatus_Prelaunch)
  && (watchtower.MinipoolLaunchTimeout (watchtower.NetworkDetails_ state)
      <=? beacon.GenesisTime (watchtower.BeaconConfig state)
          + watchtower.BeaconSlotNumber state
            * beacon.SecondsPerSlot (watchtower.BeaconConfig state)
          - watchtower.StatusTime mpd).

End TimedOut.

Section LotFlags.
Context {float64 : Type}.

(** The flags of a lot's details follow from the other fields of the
    same details. *)
Definition flagsConsistent (d : @auction.AuctionLotDetails float64) : Prop :=
  (exists bid remaining,
      auction.NodeBidAmount d = Some bid
      /\ auction.RemainingRplAmount d = Some remaining
      /\ auction.ClaimAvailable d = (0 <? bid) && auction.IsCleared d
      /\ auction.BiddingAvailable d = negb (auction.IsCleared d) && (0 <? remaining)
      /\ auction.RplRecoveryAvailable d
         = auction.IsCleared d && (0 <? remaining) && negb (auction.RplRecovered d))
  /\ auction.BiddingAvailable d
     && (auction.ClaimAvailable d || auction.RplRecoveryAvailable d) = false.

End LotFlags.

Section Builds.
Context {W BeaconBlock NetworkState : Type}.
Variable negativeSeconds : Duration -> Z.
Variable CreateNetworkState :
  eth.ExecutionClient W -> beacon.Client W BeaconBlock -> Z -> beacon.Eth2Config ->
  M W (option NetworkState * error).

Let manager := @LegacyState.NetworkStateManager W BeaconBlock NetworkState.
Let result : Type := option NetworkState * error.

(** The three public builders. *)
Inductive build : Type :=
| ToSlot (slotNumber : Z)
| ToHead
| ToFinalized (fuel : nat).

(** How a build ended: out of fuel, a panic, or the pair it returned. *)
Definition runBuild (b : build) (m : manager) : M W (manager * option (exit result)) :=
  match b with
  | ToSlot n =>
      '(m', r) <- LegacyState.UpdateStateToSlot CreateNetworkState m n ;;
      ret (m', Some (Return r))
  | ToHead =>
      '(m', r) <- LegacyState.UpdateStateToHead negativeSeconds CreateNetworkState m ;;
      ret (m', Some r)
  | ToFinalized fuel =>
      o <- LegacyState.UpdateStateToFinalized CreateNetworkState m fuel ;;
      match o with
      | Some (m', r) => ret (m', Some (Return r))
      | None => ret (m, None)
      end
  end.

Fixpoint runBuilds (bs : list build) (m : manager)
  : M W (manager * list (option (exit result))) :=
  match bs with
  | [] => ret (m, [])
  | b :: bs' =>
      '(m1, r) <- runBuild b m ;;
      '(m2, rs) <- runBuilds bs' m1 ;;
      ret (m2, r :: rs)
  end.

(** The state a sequence of builds leaves published, in the words of the
    specification: that of the last build that succeeded, or what was
    there before. *)
Fixpoint lastPublished (before : option NetworkState)
    (rs : list (option (exit result))) : option NetworkState :=
  match rs with
  | [] => before
  | Some (Return (state, None)) :: rs' => lastPublished state rs'
  | _ :: rs' => lastPublished before rs'
  end.

End Builds.

Section Polls.
Context {W BeaconBlock : Type} `{Runtime W}.
Variable CheckStatus :
  services.ExecutionClientManager W ->
  M W (services.ClientManagerStatus * services.ExecutionClientManager W).

(** The world in which the next poll is made after a poll that found the
    client syncing: the status call, then the sleep. *)
Definition nextPoll (bc : beacon.Client W BeaconBlock) (w : W) : W :=
  snd (time_Sleep services.beaconClientSyncPollInterval (snd (beacon.GetSyncStatus bc w))).

Fixpoint pollWorld (bc : beacon.Client W BeaconBlock) (k : nat) (w : W) : W :=
  match k with
  | O => w
  | Datatypes.S k' => pollWorld bc k' (nextPoll bc w)
  end.

(** What the [k]-th poll of [GetSyncStatus] answers. *)
Definition pollAnswer (bc : beacon.Client W BeaconBlock) (k : nat) (w : W)
  : beacon.SyncStatus * error :=
  fst (beacon.GetSyncStatus bc (pollWorld bc k w)).

(** Poll [k] is the first to report [Syncing = false]: the polls before
    it reported [Syncing = true], all without error. *)
Definition syncedAtPoll (bc : beacon.Client W BeaconBlock) (k : nat) (w : W) : Prop :=
  (forall j, (j < k)%nat ->
     exists status, pollAnswer bc j w = (status, None) /\ beacon.Syncing status = true)
  /\ (exists status, pollAnswer bc k w = (status, None) /\ beacon.Syncing status = false).




End Polls.

Section Waits.
Context {W BeaconBlock : Type} `{Runtime W}.
Variable CheckStatus :
  services.ExecutionClientManager W ->
  M W (services.ClientManagerStatus * services.ExecutionClientManager W).
Variable GetEthClient : M W (services.ExecutionClientManager W * error).
Variable GetBeaconClient : M W (beacon.Client W BeaconBlock * error).
Variable GetEthClientLatestBlockTimestamp : eth.ExecutionClient W -> M W (Z * error).
Variable secondsExceed : Duration -> Z -> bool.

(** Where a call of [waitEthClientSynced] is: called in the world [w],
    it got the manager, found no client ready at its first status check,
    read [startTime] off the clock and entered its loop; every pass so
    far has continued, and the loop is at its head with the variables
    [st] in the world [wk]. *)
Definition ethWaitAt (timeout : Z) (w : W) (startTime : Time)
    (st : services.ethWait) (wk : W) : Prop :=
  exists ecMgr w1 ecMgr' client w2 w3,
    GetEthClient w = ((ecMgr, None), w1)
    /\ services.checkExecutionClientStatus CheckStatus ecMgr w1
       = ((ecMgr', (false, client, None)), w2)
    /\ time_Now w2 = (startTime, w3)
    /\ reaches (services.waitEthStep CheckStatus GetEthClientLatestBlockTimestamp
                  secondsExceed timeout startTime)
         ({| services.ecMgr := ecMgr';
             services.clientToCheck := client;
             services.ecRefreshTime := startTime |}, w3)
         (st, wk).

(** Where a call of [waitBeaconClientSynced] is: called in the world [w],
    it got the client [bc], read the Unix time [startTime] off the clock
    and entered its loop; every pass so far has continued, and the loop
    is at its head in the world [wk]. *)
Definition beaconWaitAt (timeout : Z) (w : W) (bc : beacon.Client W BeaconBlock)
    (startTime : Z) (wk : W) : Prop :=
  exists w1 now w2,
    GetBeaconClient w = ((bc, None), w1)
    /\ time_Now w1 = (now, w2)
    /\ startTime = Time_Unix now
    /\ reaches (services.waitBeaconStep bc timeout startTime) (tt, w2) (tt, wk).

(** What stands behind a success of the execution wait called in [w]
    with [timeout] and returning in [w']: the first status check, made on
    the manager the getter gave, has flagged a client ready; or, at a
    loop head the wait has come to, the status refresh has flagged a
    client ready, or the client polled has returned no progress object
    and a latest block under five minutes old. *)
Definition ethSyncEvidence (timeout : Z) (w w' : W) : Prop :=
  (exists ecMgr w1 mgrStatus ecMgr',
      GetEthClient w = ((ecMgr, None), w1)
      /\ CheckStatus ecMgr w1 = ((mgrStatus, ecMgr'), w')
      /\ (services.primaryReady ecMgr' || services.fallbackReady ecMgr') = true)
  \/ (exists startTime st wk,
        ethWaitAt timeout w startTime st wk
        /\ ((exists w1 now1 w2 now2 w3 mgrStatus ecMgr',
               services.ethTimedOut secondsExceed timeout startTime wk = (false, w1)
               /\ time_Now w1 = (now1, w2)
               /\ services.ethClientStatusRefreshInterval
                  < Time_Sub now1 (services.ecRefreshTime st)
               /\ time_Now w2 = (now2, w3)
               /\ CheckStatus (services.ecMgr st) w3 = ((mgrStatus, ecMgr'), w')
               /\ (services.primaryReady ecMgr' || services.fallbackReady ecMgr') = true)
            \/ (exists st' w1 c w2 timestamp w3 now,
                  services.waitEthHead CheckStatus secondsExceed timeout startTime st wk
                  = (Continue st', w1)
                  /\ services.clientToCheck st' = Some c
                  /\ eth.SyncProgress c w1 = ((None, None), w2)
                  /\ GetEthClientLatestBlockTimestamp c w2 = ((timestamp, None), w3)
                  /\ time_Now w3 = (now, w')
                  /\ Time_Sub now (time_Unix (to_int64 timestamp))
                     < services.ethClientRecentBlockThreshold))).

(** The same for the beacon wait: at a loop head the wait has come to,
    not timed out, the client the getter gave has answered the poll
    with [Syncing = false] and no error. *)
Definition beaconSyncEvidence (timeout : Z) (w w' : W) : Prop :=
  exists bc startUnix wk w0 status,
    beaconWaitAt timeout w bc startUnix wk
    /\ services.beaconTimedOut timeout startUnix wk = (false, w0)
    /\ beacon.GetSyncStatus bc w0 = ((status, None), w')
    /\ beacon.Syncing status = false.

End Waits.

(* ================================================================== *)
(** * Scenarios

    Concrete clients and a concrete world, on which the properties are
    checked by evaluation. The world is a clock: nanoseconds since the
    Unix epoch, read alike by the wall and by the monotonic clock, that
    only sleeping advances. Beacon blocks and network states are
    numbers. *)

Module Scenario.

Definition clock : Type := Z.

Definition timeAt (ns : Z) : Time :=
  {| wallSec := ns / Second + unixToInternal; nsec := ns mod Second; mono := Some ns |}.

#[global] Instance clockRuntime : Runtime clock := {|
  time_Now := fun w => (timeAt w, w);
  time_Sleep := fun d w => (tt, w + d)
|}.

(** [uint64] of a negative float: wrapped (as amd64 does) or zero (as
    arm64 does). *)
Definition wrapsNegative (d : Duration) : Z := Z.quot d Second.
Definition zeroNegative (d : Duration) : Z := 0.

(** [d.Seconds() > float64(timeout)], computed exactly. *)
Definition exceeds (d : Duration) (timeout : Z) : bool := timeout * Second <? d.

Definition mainnet : beacon.Eth2Config :=
  {| beacon.GenesisTime := 1606824023;
     beacon.SecondsPerSlot := 12;
     beacon.SlotsPerEpoch := 32 |}.

Definition lookup (id : string) (chain : list (string * Z)) : option Z :=
  option_map snd (find (fun p => String.eqb (fst p) id) chain).

(** A beacon node that has the blocks of [chain], misses every other
    slot, and answers [GetSyncStatus] by [status]. *)
Definition beaconNode (chain : list (string * Z))
    (status : clock -> beacon.SyncStatus * error) : beacon.Client clock Z :=
  {| beacon.GetEth2Config := ret (mainnet, None);
     beacon.GetBeaconHead := ret ({| beacon.FinalizedEpoch := 0 |}, None);
     beacon.GetBeaconBlock := fun id =>
       ret (match lookup id chain with
            | Some b => (b, true, None)
            | None => (0, false, None)
            end);
     beacon.GetSyncStatus := fun w => (status w, w) |}.

Definition syncing (w : clock) : beacon.SyncStatus * error :=
  ({| beacon.Syncing := true |}, None).
Definition syncedFrom (t : Z) (w : clock) : beacon.SyncStatus * error :=
  ({| beacon.Syncing := w <? t |}, None).
Definition unreachable (w : clock) : beacon.SyncStatus * error :=
  ({| beacon.Syncing := false |}, Some "connection refused"%string).

(** An execution node whose latest header has time [headTime] and that
    answers [SyncProgress] by [progress]. *)
Definition execNode (headTime : Z)
    (progress : clock -> option eth.ethereum_SyncProgress * error) : eth.ExecutionClient clock :=
  {| eth.HeaderByNumber := ret ({| eth.Time := headTime |}, None);
     eth.SyncProgress := fun w => (progress w, w) |}.

Definition halfway (w : clock) : option eth.ethereum_SyncProgress * error :=
  (Some {| eth.StartingBlock := 0; eth.CurrentBlock := 40; eth.HighestBlock := 100 |}, None).
Definition noProgress (w : clock) : option eth.ethereum_SyncProgress * error := (None, None).
Definition refused (w : clock) : option eth.ethereum_SyncProgress * error :=
  (None, Some "connection refused"%string).

Definition daemon (cfg : beacon.Eth2Config) (headTime : Z) (chain : list (string * Z))
  : @DaemonState.NetworkStateManager clock Z :=
  {| DaemonState.ec := execNode headTime halfway;
     DaemonState.bc := beaconNode chain syncing;
     DaemonState.BeaconConfig := cfg |}.

Definition legacy (cfg : beacon.Eth2Config) (headTime : Z) (chain : list (string * Z))
  : @LegacyState.NetworkStateManager clock Z Z :=
  {| LegacyState.ec := execNode headTime halfway;
     LegacyState.bc := beaconNode chain syncing;
     LegacyState.BeaconConfig := cfg;
     LegacyState.latestState := None |}.

(** A state builder that succeeds on even slots (the state is the slot
    number) and fails on odd ones. *)
Definition buildState (ec : eth.ExecutionClient clock) (bc : beacon.Client clock Z)
    (slotNumber : Z) (cfg : beacon.Eth2Config) : M clock (option Z * error) :=
  ret (if Z.even slotNumber then (Some slotNumber, None)
       else (None, Some "execution reverted"%string)).

(** Status checks: the primary is ready while the fallback is down; the
    primary is ready and so is the fallback; the primary is still
    syncing and there is no fallback. *)
Definition up : services.ClientStatus :=
  {| services.IsWorking := true; services.Error := EmptyString |}.
Definition down : services.ClientStatus :=
  {| services.IsWorking := false; services.Error := "connection refused" |}.

Definition manager (c : eth.ExecutionClient clock) (primary fallback : bool)
  : services.ExecutionClientManager clock :=
  {| services.primaryEc := Some c; services.fallbackEc := Some c;
     services.primaryReady := primary; services.fallbackReady := fallback |}.

Definition checkStatus (c : eth.ExecutionClient clock) (primary fallback : bool)
    (fallbackStatus : services.ClientStatus)
    (ecMgr : services.ExecutionClientManager clock)
  : M clock (services.ClientManagerStatus * services.ExecutionClientManager clock) :=
  ret ({| services.PrimaryEcStatus := up;
          services.FallbackEnabled := true;
          services.FallbackEcStatus := fallbackStatus |},
       manager c primary fallback).

(** The latest block of every client has time [timestamp]; or the fetch
    fails. *)
Definition latestBlockAt (timestamp : Z) (c : eth.ExecutionClient clock)
  : M clock (Z * error) := ret (timestamp, None).
Definition latestBlockFails (c : eth.ExecutionClient clock)
  : M clock (Z * error) := ret (0, Some "EOF"%string).

(** The loop variables of an execution wait started at clock [start] on
    client [c]. *)
Definition waitingOn (c : eth.ExecutionClient clock) (start : Z) : services.ethWait :=
  {| services.ecMgr := manager c false false;
     services.clientToCheck := Some c;
     services.ecRefreshTime := timeAt start |}.

(** What [beaconNode chain status] answers to a block request. *)
Definition answerOf (chain : list (string * Z)) (id : string) : Z * bool * error :=
  match lookup id chain with
  | Some b => (b, true, None)
  | None => (0, false, None)
  end.

(** A beacon node like [beaconNode chain syncing], but whose block
    request fails for the ids of [broken]. *)
Definition faultyNode (chain : list (string * Z)) (broken : list string)
  : beacon.Client clock Z :=
  {| beacon.GetEth2Config := ret (mainnet, None);
     beacon.GetBeaconHead := ret ({| beacon.FinalizedEpoch := 0 |}, None);
     beacon.GetBeaconBlock := fun id =>
       ret (if existsb (String.eqb id) broken
            then (0, false, Some "context deadline exceeded"%string)
            else answerOf chain id);
     beacon.GetSyncStatus := fun w => (syncing w, w) |}.

Definition faultyAnswer (chain : list (string * Z)) (broken : list string) (id : string)
  : Z * bool * error :=
  if existsb (String.eqb id) broken
  then (0, false, Some "context deadline exceeded"%string)
  else answerOf chain id.

(** A builder of a node's state: the state is the slot number, the total
    effective stake is asked for or nil. *)
Definition buildNodeState (ec : eth.ExecutionClient clock) (bc : beacon.Client clock Z)
    (slotNumber : Z) (cfg : beacon.Eth2Config) (nodeAddress : Z)
    (calculateTotalEffectiveStake : bool) : M clock (option Z * option Z * error) :=
  ret (Some slotNumber, if calculateTotalEffectiveStake then Some 1000 else None, None).

(** The node's own services: a password manager, a wallet with node
    account 7, a configuration, and contracts that have code and know
    the node. *)
Definition passwords (isSet : bool) : M clock (@services.PasswordManager clock * error) :=
  ret ({| services.IsPasswordSet := ret isSet |}, None).

(** The password is set from clock [t] on. *)
Definition passwordsFrom (t : Z) : M clock (@services.PasswordManager clock * error) :=
  ret ({| services.IsPasswordSet := fun w => (t <=? w, w) |}, None).

Definition wallets (initialized : bool) : M clock (@services.Wallet clock Z * error) :=
  ret ({| services.GetInitialized := ret (initialized, None);
          services.GetNodeAccount := ret ({| services.Address := 7 |}, None) |}, None).

Definition config : M clock (services.SmartnodeConfig * error) :=
  ret ({| services.GetStorageAddress := "0x1d8f"%string;
          services.GetOneInchOracleAddress := "0x07D9"%string;
          services.GetRplFaucetAddress := "0x95D6"%string |}, None).

Definition hexToAddress (hex : string) : Z := Z.of_nat (String.length hex).

Definition codeAt (ecMgr : services.ExecutionClientManager clock) (address : Z)
  : M clock (list Byte.byte * error) := ret ([Byte.x60; Byte.x80], None).

Definition rocketPool : M clock (unit * error) := ret (tt, None).

Definition nodeKnown (known : bool) (rp : unit) (address : Z) : M clock (bool * error) :=
  ret (known, None).

(** The watchtower's world: minipools at addresses 1 to 4, a binding is
    the address with its version, every dissolve costs one tick of the
    clock. Status 1 is prelaunch. *)
Definition minipoolAt (address status statusTime : Z)
  : @watchtower.NativeMinipoolDetails Z :=
  {| watchtower.Status := status;
     watchtower.StatusTime := statusTime;
     watchtower.MinipoolAddress := address;
     watchtower.Version := 3 |}.

(** The state at slot 100000 of [mainnet], 1200000 seconds after genesis,
    with a launch timeout of 259200 seconds (three days). *)
Definition networkState (details : list (@watchtower.NativeMinipoolDetails Z))
  : @watchtower.NetworkState Z :=
  {| watchtower.BeaconConfig := mainnet;
     watchtower.BeaconSlotNumber := 100000;
     watchtower.NetworkDetails_ := {| watchtower.MinipoolLaunchTimeout := 259200 |};
     watchtower.MinipoolDetails := details |}.

Definition bindingOf (address version : Z) : Z * Z := (address, version).

Definition newMinipoolFromVersion (mpMgr : unit) (address version : Z)
  : M clock (Z * Z * error) := ret (bindingOf address version, None).

Definition transactor : M clock (@watchtower.TransactOpts Z * error) :=
  ret ({| watchtower.Opts_From := 7; watchtower.GasFeeCap := None;
          watchtower.GasTipCap := None; watchtower.GasLimit := 0 |}, None).

(** The dissolve of the minipool at address 2 cannot be estimated. *)
Definition dissolve (mp : Z * Z) (opts : @watchtower.TransactOpts Z)
  : M clock (watchtower.TransactionInfo * error) :=
  fun w =>
    (({| watchtower.GasInfo_ :=
           {| watchtower.EstGasLimit := 100000; watchtower.SafeGasLimit := 150000 |} |},
      if fst mp =? 2 then Some "execution reverted"%string else None), w + 1).

Definition gasIsFine (gasInfo : watchtower.GasInfo) (maxFee : Z) : M clock bool := ret true.

Definition waitForTransaction (txInfo : watchtower.TransactionInfo)
    (opts : @watchtower.TransactOpts Z) : M clock error :=
  fun w => (None, w + 10).

(** The auction's world: prices are numbers; lot 0 is cleared with RPL
    left and a bid of the node, lot 1 is open for bids. *)
Definition lotAt (index : Z) (cleared : bool) (remaining : Z) : @auction.AuctionLot Z :=
  {| auction.lot_Index := index;
     auction.lot_Exists := true;
     auction.lot_StartBlock := 100;
     auction.lot_EndBlock := 200;
     auction.lot_StartPrice := 10;
     auction.lot_ReservePrice := 5;
     auction.lot_PriceAtCurrentBlock := 7;
     auction.lot_PriceByTotalBids := 6;
     auction.lot_CurrentPrice := 7;
     auction.lot_TotalRplAmount := Some 1000;
     auction.lot_ClaimedRplAmount := Some 0;
     auction.lot_RemainingRplAmount := Some remaining;
     auction.lot_TotalBidAmount := Some 50;
     auction.lot_IsCleared := cleared;
     auction.lot_RplRecovered := false |}.

Definition loadLots (lotCount : Z)
  : M clock (list (@auction.AuctionLot Z * option Z) * error) :=
  ret ([(lotAt 0 true 400, Some 50); (lotAt 1 false 1000, Some 0)], None).

End Scenario.

(* ================================================================== *)
(** * Properties *)

(** ** Loops *)

Section LoopFacts.
Context {W S A : Type}.
Variable body : S -> M W (step S A).

Lemma loop_break (n : nat) (s : S) (w w' : W) (a : A) :
  body s w = (Break a, w') -> loop body (Datatypes.S n) s w = (Some a, w').
Proof. intros Hb. cbn [loop]. unfold bind. rewrite Hb. reflexivity. Qed.

Lemma loop_continue (n : nat) (s s' : S) (w w' : W) :
  body s w = (Continue s', w') -> loop body (Datatypes.S n) s w = loop body n s' w'.
Proof. intros Hb. cbn [loop]. unfold bind. rewrite Hb. reflexivity. Qed.

(** More fuel does not change a result already reached. *)
Lemma loop_more_fuel (n k : nat) (s : S) (w w' : W) (a : A) :
  loop body n s w = (Some a, w') -> loop body (n + k) s w = (Some a, w').
Proof.
  revert s w. induction n as [|n IH]; intros s w Hn.
  - discriminate Hn.
  - cbn [loop Nat.add] in *. unfold bind in *.
    destruct (body s w) as [[s1|a1] w1]; [apply IH; exact Hn | exact Hn].
Qed.

(** A loop head that is reached and whose pass breaks ends the loop. *)
Lemma reaches_break (s s' : S) (w w' w'' : W) (a : A) :
  reaches body (s, w) (s', w') -> body s' w' = (Break a, w'') ->
  exists n, loop body n s w = (Some a, w'').
Proof.
  intros Hr. remember (s, w) as sw eqn:E1. remember (s', w') as sw' eqn:E2.
  revert s w E1. induction Hr as [sw0 | s0 w0 s1 w1 sw0 Hb Hr IH]; intros s w E1 Hbr.
  - subst. inversion E1; subst. exists 1%nat. apply loop_break. exact Hbr.
  - inversion E1; subst. destruct (IH eq_refl s1 w1 eq_refl Hbr) as [n Hn].
    exists (Datatypes.S n). rewrite (loop_continue _ _ _ _ _ Hb). exact Hn.
Qed.

(** From a loop head that is reached, the loop goes on as if started
    there, with the fuel that is left. *)
Lemma reaches_loop (s s' : S) (w w' : W) :
  reaches body (s, w) (s', w') ->
  exists n, forall k, loop body (n + k) s w = loop body k s' w'.
Proof.
  intros Hr. remember (s, w) as sw eqn:E1. remember (s', w') as sw' eqn:E2.
  revert s w E1. induction Hr as [sw0 | s0 w0 s1 w1 sw0 Hb Hr IH]; intros s w E1.
  - subst. inversion E1; subst. exists 0%nat. reflexivity.
  - inversion E1; subst. destruct (IH eq_refl s1 w1 eq_refl) as [n Hn].
    exists (Datatypes.S n). intros k. cbn [Nat.add].
    rewrite (loop_continue _ _ _ _ _ Hb). apply Hn.
Qed.

Lemma reaches_trans (sw1 sw2 sw3 : S * W) :
  reaches body sw1 sw2 -> reaches body sw2 sw3 -> reaches body sw1 sw3.
Proof.
  intros H12 H23. induction H12 as [sw0 | s0 w0 s1 w1 sw0 Hb Hr IH]; [exact H23|].
  eapply reaches_next; [exact Hb | apply IH; exact H23].
Qed.

(** A loop that returns has reached a head whose pass broke with the
    value returned. *)
Lemma loop_result_reaches (n : nat) (s : S) (w w' : W) (a : A) :
  loop body n s w = (Some a, w') ->
  exists s' wk, reaches body (s, w) (s', wk) /\ body s' wk = (Break a, w').
Proof.
  revert s w. induction n as [|n IH]; intros s w Hl; [discriminate Hl|].
  cbn [loop] in Hl. unfold bind in Hl.
  destruct (body s w) as [[s1|a1] w1] eqn:Hb.
  - destruct (IH s1 w1 Hl) as (s' & wk & Hr & Hbreak).
    exists s', wk. split; [|exact Hbreak].
    eapply reaches_next; [exact Hb | exact Hr].
  - inversion Hl; subst. exists s, w. split; [apply reaches_here | exact Hb].
Qed.

(** A property of every value the body can break with holds of whatever
    the loop returns. *)
Lemma loop_result_inv (P : A -> Prop) :
  (forall s w a w', body s w = (Break a, w') -> P a) ->
  forall n s w a w', loop body n s w = (Some a, w') -> P a.
Proof.
  intros HP. induction n as [|n IH]; intros s w a w' Hl.
  - discriminate Hl.
  - cbn [loop] in Hl. unfold bind in Hl.
    destruct (body s w) as [[s1|a1] w1] eqn:Hb.
    + eapply IH; exact Hl.
    + inversion Hl; subst. eapply HP; exact Hb.
Qed.

(** While an invariant of the loop variables makes every pass continue,
    the loop does not return, whatever the fuel. *)
Lemma loop_never_breaks (I : S -> Prop) :
  (forall s w, I s -> exists s' w', body s w = (Continue s', w') /\ I s') ->
  forall n s w, I s -> fst (loop body n s w) = None.
Proof.
  intros Hc. induction n as [|n IH]; intros s w Hi.
  - reflexivity.
  - destruct (Hc s w Hi) as (s' & w' & Hb & Hi').
    rewrite (loop_continue _ _ _ _ _ Hb). apply IH. exact Hi'.
Qed.

End LoopFacts.

(** ** Integer conversions and [time] *)

Lemma to_uint64_small (z : Z) : 0 <= z < 2 ^ 64 -> to_uint64 z = z.
Proof. intros Hz. unfold to_uint64. apply Z.mod_small. exact Hz. Qed.

Lemma to_int64_small (z : Z) : - 2 ^ 63 <= z < 2 ^ 63 -> to_int64 z = z.
Proof. intros Hz. unfold to_int64. rewrite Z.mod_small; lia. Qed.

Lemma uint64_sub_1 (z : Z) : 1 <= z < 2 ^ 64 -> uint64_sub z 1 = z - 1.
Proof. intros Hz. unfold uint64_sub. apply to_uint64_small. lia. Qed.

Lemma clamp_int64_id (z : Z) : minInt64 <= z <= maxInt64 -> clamp_int64 z = z.
Proof.
  intros Hz. unfold clamp_int64.
  destruct (Z.ltb_spec z minInt64); [lia|].
  destruct (Z.ltb_spec maxInt64 z); [lia|reflexivity].
Qed.

Lemma clamp_int64_lt (z bound : Z) :
  minInt64 < bound <= maxInt64 -> (clamp_int64 z < bound <-> z < bound).
Proof.
  intros Hb. unfold clamp_int64.
  destruct (Z.ltb_spec z minInt64); [lia|].
  destruct (Z.ltb_spec maxInt64 z); lia.
Qed.

Lemma wallSec_time_Unix (sec : Z) :
  representable sec -> wallSec (time_Unix (to_int64 sec)) = sec + unixToInternal.
Proof.
  unfold representable, unixToInternal. intros Hs. cbn [time_Unix wallSec].
  rewrite (to_int64_small sec) by lia. apply to_int64_small. lia.
Qed.

Lemma Time_Sub_Unix (t g : Z) :
  representable t -> representable g ->
  Time_Sub (time_Unix (to_int64 t)) (time_Unix (to_int64 g))
  = clamp_int64 ((t - g) * Second).
Proof.
  intros Ht Hg. unfold Time_Sub, wallNanos. cbn [mono time_Unix nsec].
  fold (time_Unix (to_int64 t)) (time_Unix (to_int64 g)).
  change (wallSec {| wallSec := to_int64 (to_int64 t + unixToInternal); nsec := 0; mono := None |})
    with (wallSec (time_Unix (to_int64 t))).
  change (wallSec {| wallSec := to_int64 (to_int64 g + unixToInternal); nsec := 0; mono := None |})
    with (wallSec (time_Unix (to_int64 g))).
  rewrite !wallSec_time_Unix by assumption. f_equal. lia.
Qed.

(** ** Time/slot translation *)

(** With a non-zero [SecondsPerSlot] the translation always yields a slot:
    no timestamp makes it fail. *)
Lemma slotOfHeader_total (negativeSeconds : Duration -> Z)
    (cfg : beacon.Eth2Config) (hdr : eth.Header) :
  beacon.SecondsPerSlot cfg <> 0 ->
  exists slot, slotOfHeader negativeSeconds cfg hdr = Some slot.
Proof.
  intros Hs. unfold slotOfHeader, uint64_div.
  destruct (Z.eqb_spec (beacon.SecondsPerSlot cfg) 0); [contradiction|].
  eexists. reflexivity.
Qed.

(** Within the range of a [Duration] the translation is the floor of the
    quotient. *)
Lemma slotOfHeader_floor (negativeSeconds : Duration -> Z)
    (cfg : beacon.Eth2Config) (hdr : eth.Header) :
  representable (eth.Time hdr) ->
  representable (beacon.GenesisTime cfg) ->
  beacon.GenesisTime cfg <= eth.Time hdr ->
  eth.Time hdr - beacon.GenesisTime cfg <= 9223372036 ->
  0 < beacon.SecondsPerSlot cfg ->
  slotOfHeader negativeSeconds cfg hdr
  = Some ((eth.Time hdr - beacon.GenesisTime cfg) / beacon.SecondsPerSlot cfg).
Proof.
  intros Ht Hg Hle Hmax Hs. unfold slotOfHeader.
  rewrite Time_Sub_Unix by assumption.
  rewrite clamp_int64_id by (unfold minInt64, maxInt64, Second; lia).
  unfold uint64_of_Seconds.
  destruct (Z.leb_spec 0 ((eth.Time hdr - beacon.GenesisTime cfg) * Second));
    [|unfold Second in *; lia].
  rewrite Z.div_mul by (unfold Second; lia).
  unfold uint64_div.
  destruct (Z.eqb_spec (beacon.SecondsPerSlot cfg) 0); [lia|reflexivity].
Qed.

Section HeadSlot.
Context {W BeaconBlock NetworkState : Type}.
Variable zeroBlock : BeaconBlock.
Variable negativeSeconds : Duration -> Z.
Variable CreateNetworkState :
  eth.ExecutionClient W -> beacon.Client W BeaconBlock -> Z -> beacon.Eth2Config ->
  M W (option NetworkState * error).

Let daemon := @DaemonState.NetworkStateManager W BeaconBlock.
Let legacy := @LegacyState.NetworkStateManager W BeaconBlock NetworkState.

(** C2 (amended): a head block older than genesis is not an error for the
    translation. Provided [SecondsPerSlot] is not zero, [GetHeadSlot]
    returns a slot number with a nil error and does not panic, and
    [UpdateStateToHead] goes on to build the state at such a slot. *)
Theorem head_slot_before_genesis_is_no_error
    (m : daemon) (l : legacy) (cfg : beacon.Eth2Config) (hdr : eth.Header)
    (w w1 : W) :
  DaemonState.BeaconConfig m = cfg ->
  LegacyState.BeaconConfig l = cfg ->
  eth.HeaderByNumber (DaemonState.ec m) w = ((hdr, None), w1) ->
  eth.HeaderByNumber (LegacyState.ec l) w = ((hdr, None), w1) ->
  eth.Time hdr < beacon.GenesisTime cfg ->
  beacon.SecondsPerSlot cfg <> 0 ->
  exists slot : Z,
    DaemonState.GetHeadSlot negativeSeconds m w = (Return (slot, None), w1)
    /\ LegacyState.UpdateStateToHead negativeSeconds CreateNetworkState l w
       = bind (LegacyState.updateState CreateNetworkState l slot)
              (fun '(l', r) => ret (l', Return r)) w1.
Proof.
  intros Hm Hl Hhm Hhl _ Hs.
  destruct (slotOfHeader_total negativeSeconds cfg hdr Hs) as [slot Hslot].
  exists slot. split.
  - unfold DaemonState.GetHeadSlot, bind. rewrite Hhm, Hm, Hslot. reflexivity.
  - unfold LegacyState.UpdateStateToHead, bind at 1. rewrite Hhl, Hl, Hslot.
    reflexivity.
Qed.

(** C4 (amended): for a head timestamp [t] at or after genesis, no more
    than 9223372036 seconds after it (what a [Duration] holds), with both
    timestamps representable by [time.Unix] and a positive
    [SecondsPerSlot], the translation returns exactly
    [floor ((t - genesisTime) / secondsPerSlot)]. *)
Theorem head_slot_is_floor
    (m : daemon) (l : legacy) (cfg : beacon.Eth2Config) (hdr : eth.Header)
    (w w1 : W) :
  DaemonState.BeaconConfig m = cfg ->
  LegacyState.BeaconConfig l = cfg ->
  eth.HeaderByNumber (DaemonState.ec m) w = ((hdr, None), w1) ->
  eth.HeaderByNumber (LegacyState.ec l) w = ((hdr, None), w1) ->
  representable (eth.Time hdr) ->
  representable (beacon.GenesisTime cfg) ->
  beacon.GenesisTime cfg <= eth.Time hdr ->
  eth.Time hdr - beacon.GenesisTime cfg <= 9223372036 ->
  0 < beacon.SecondsPerSlot cfg ->
  let slot := (eth.Time hdr - beacon.GenesisTime cfg) / beacon.SecondsPerSlot cfg in
  DaemonState.GetHeadSlot negativeSeconds m w = (Return (slot, None), w1)
  /\ LegacyState.UpdateStateToHead negativeSeconds CreateNetworkState l w
     = bind (LegacyState.updateState CreateNetworkState l slot)
            (fun '(l', r) => ret (l', Return r)) w1.
Proof.
  intros Hm Hl Hhm Hhl Ht Hg Hle Hmax Hs slot.
  pose proof (slotOfHeader_floor negativeSeconds cfg hdr Ht Hg Hle Hmax Hs) as Hslot.
  fold slot in Hslot. split.
  - unfold DaemonState.GetHeadSlot, bind. rewrite Hhm, Hm, Hslot. reflexivity.
  - unfold LegacyState.UpdateStateToHead, bind at 1. rewrite Hhl, Hl, Hslot.
    reflexivity.
Qed.

End HeadSlot.

Lemma uint64_sub_range (a b : Z) : 0 <= uint64_sub a b < 2 ^ 64.
Proof. unfold uint64_sub, to_uint64. apply Z.mod_pos_bound. lia. Qed.

Lemma finalizedSlot_range (cfg : beacon.Eth2Config) (head : beacon.BeaconHead) :
  0 <= finalizedSlot cfg head < 2 ^ 64.
Proof. unfold finalizedSlot, uint64_add, to_uint64. apply Z.mod_pos_bound. lia. Qed.

(** ** The backward walk over missing slots *)

Section Walk.
Context {W BeaconBlock NetworkState : Type}.
Variable zeroBlock : BeaconBlock.
Variable CreateNetworkState :
  eth.ExecutionClient W -> beacon.Client W BeaconBlock -> Z -> beacon.Eth2Config ->
  M W (option NetworkState * error).
Variable client : beacon.Client W BeaconBlock.

Let daemon := @DaemonState.NetworkStateManager W BeaconBlock.
Let legacy := @LegacyState.NetworkStateManager W BeaconBlock NetworkState.

Lemma daemon_probe_found (m : daemon) (slot : Z) (b : BeaconBlock) (w : W) :
  DaemonState.bc m = client -> hasBlock client slot b ->
  exists w', DaemonState.probeSlot zeroBlock m slot w = (Break (b, None), w').
Proof.
  intros Hc Hb. unfold DaemonState.probeSlot, bind. rewrite Hc.
  specialize (Hb w).
  destruct (beacon.GetBeaconBlock client (fmt_Sprint slot) w) as [[[blk ex] err] w1].
  cbn [fst] in Hb. inversion Hb; subst. exists w1. reflexivity.
Qed.

Lemma daemon_probe_missing (m : daemon) (slot : Z) (w : W) :
  DaemonState.bc m = client -> isMissing client slot ->
  exists w', DaemonState.probeSlot zeroBlock m slot w = (Continue (uint64_sub slot 1), w').
Proof.
  intros Hc Hb. unfold DaemonState.probeSlot, bind. rewrite Hc.
  destruct (Hb w) as [b' Hb'].
  destruct (beacon.GetBeaconBlock client (fmt_Sprint slot) w) as [[[blk ex] err] w1].
  cbn [fst] in Hb'. inversion Hb'; subst. exists w1. reflexivity.
Qed.

Lemma legacy_probe_found (l : legacy) (slot : Z) (b : BeaconBlock) (w : W) :
  LegacyState.bc l = client -> hasBlock client slot b ->
  exists w', LegacyState.probeSlot CreateNetworkState l slot w
             = bind (LegacyState.updateState CreateNetworkState l slot)
                    (fun r => ret (Break r)) w'.
Proof.
  intros Hc Hb. unfold LegacyState.probeSlot, bind at 1. rewrite Hc.
  specialize (Hb w).
  destruct (beacon.GetBeaconBlock client (fmt_Sprint slot) w) as [[[blk ex] err] w1].
  cbn [fst] in Hb. inversion Hb; subst. exists w1. reflexivity.
Qed.

Lemma legacy_probe_missing (l : legacy) (slot : Z) (w : W) :
  LegacyState.bc l = client -> isMissing client slot ->
  exists w', LegacyState.probeSlot CreateNetworkState l slot w
             = (Continue (uint64_sub slot 1), w').
Proof.
  intros Hc Hb. unfold LegacyState.probeSlot, bind. rewrite Hc.
  destruct (Hb w) as [b' Hb'].
  destruct (beacon.GetBeaconBlock client (fmt_Sprint slot) w) as [[[blk ex] err] w1].
  cbn [fst] in Hb'. inversion Hb'; subst. exists w1. reflexivity.
Qed.

Lemma daemon_walk_down (m : daemon) (r : Z) (b : BeaconBlock) :
  DaemonState.bc m = client -> 0 <= r -> hasBlock client r b ->
  forall (n : nat) (s : Z) (w : W),
    s < 2 ^ 64 -> s - r = Z.of_nat n ->
    (forall k, r < k <= s -> isMissing client k) ->
    exists w',
      DaemonState.GetLatestProposedBeaconBlock zeroBlock m (Datatypes.S n) s w
      = (Some (b, None), w').
Proof.
  intros Hc Hr Hb. unfold DaemonState.GetLatestProposedBeaconBlock.
  induction n as [|n IH]; intros s w Hs Hn Hmiss.
  - assert (s = r) by lia. subst s.
    destruct (daemon_probe_found m r b w Hc Hb) as [w' Hp].
    exists w'. apply loop_break. exact Hp.
  - destruct (daemon_probe_missing m s w Hc (Hmiss s ltac:(lia))) as [w1 Hp].
    rewrite (loop_continue _ _ _ _ _ _ Hp).
    rewrite uint64_sub_1 by lia.
    apply IH; [lia | lia | intros k Hk; apply Hmiss; lia].
Qed.

Lemma legacy_walk_down (l : legacy) (r : Z) (b : BeaconBlock) :
  LegacyState.bc l = client -> 0 <= r -> hasBlock client r b ->
  forall (n : nat) (s : Z) (w : W),
    s < 2 ^ 64 -> s - r = Z.of_nat n ->
    (forall k, r < k <= s -> isMissing client k) ->
    exists w',
      loop (LegacyState.probeSlot CreateNetworkState l) (Datatypes.S n) s w
      = bind (LegacyState.updateState CreateNetworkState l r)
             (fun res => ret (Some res)) w'.
Proof.
  intros Hc Hr Hb.
  induction n as [|n IH]; intros s w Hs Hn Hmiss.
  - assert (s = r) by lia. subst s.
    destruct (legacy_probe_found l r b w Hc Hb) as [w' Hp].
    exists w'. cbn [loop]. unfold bind at 1. rewrite Hp. unfold bind.
    destruct (LegacyState.updateState CreateNetworkState l r w') as [res w2].
    reflexivity.
  - destruct (legacy_probe_missing l s w Hc (Hmiss s ltac:(lia))) as [w1 Hp].
    rewrite (loop_continue _ _ _ _ _ _ Hp).
    rewrite uint64_sub_1 by lia.
    apply IH; [lia | lia | intros k Hk; apply Hmiss; lia].
Qed.


End Walk.

Section WalkResults.
Context {W BeaconBlock NetworkState : Type}.
Variable zeroBlock : BeaconBlock.
Variable CreateNetworkState :
  eth.ExecutionClient W -> beacon.Client W BeaconBlock -> Z -> beacon.Eth2Config ->
  M W (option NetworkState * error).

Let daemon := @DaemonState.NetworkStateManager W BeaconBlock.
Let legacy := @LegacyState.NetworkStateManager W BeaconBlock NetworkState.

(** C3: for every target slot [s] (a uint64) and every slot [r <= s] that
    has a block while every slot above it up to [s] is missing, the walk
    from [s] returns the block of [r], the greatest slot at or below [s]
    with a block: [GetLatestProposedBeaconBlock] returns that block with a
    nil error after [s - r + 1] probes. [UpdateStateToFinalized], whose
    walk starts at the last slot [s] of the finalized epoch its beacon
    head names, builds the state at slot [r]. *)
Theorem walk_returns_latest_proposed_block (m : daemon) (l : legacy) :
  (forall (s r : Z) (b : BeaconBlock) (w : W),
      0 <= r <= s -> s < 2 ^ 64 ->
      hasBlock (DaemonState.bc m) r b ->
      (forall k, r < k <= s -> isMissing (DaemonState.bc m) k) ->
      exists w',
        DaemonState.GetLatestProposedBeaconBlock zeroBlock m (Z.to_nat (s - r + 1)) s w
        = (Some (b, None), w'))
  /\ (forall (head : beacon.BeaconHead) (r : Z) (b : BeaconBlock) (w w0 : W),
        beacon.GetBeaconHead (LegacyState.bc l) w = ((head, None), w0) ->
        let s := finalizedSlot (LegacyState.BeaconConfig l) head in
        0 <= r <= s ->
        hasBlock (LegacyState.bc l) r b ->
        (forall k, r < k <= s -> isMissing (LegacyState.bc l) k) ->
        exists w',
          LegacyState.UpdateStateToFinalized CreateNetworkState l (Z.to_nat (s - r + 1)) w
          = bind (LegacyState.updateState CreateNetworkState l r)
                 (fun res => ret (Some res)) w').
Proof.
  split.
  - intros s r b w Hrs Hs Hb Hmiss.
    replace (Z.to_nat (s - r + 1)) with (Datatypes.S (Z.to_nat (s - r))) by lia.
    apply (daemon_walk_down zeroBlock (DaemonState.bc m) m r b eq_refl);
      [lia | exact Hb | exact Hs | lia | exact Hmiss].
  - intros head r b w w0 Hhead s Hrs Hb Hmiss.
    pose proof (finalizedSlot_range (LegacyState.BeaconConfig l) head) as Hs.
    fold s in Hs.
    replace (Z.to_nat (s - r + 1)) with (Datatypes.S (Z.to_nat (s - r))) by lia.
    unfold LegacyState.UpdateStateToFinalized, bind at 1.
    rewrite Hhead. cbv zeta. fold (finalizedSlot (LegacyState.BeaconConfig l) head).
    fold s.
    apply (legacy_walk_down CreateNetworkState (LegacyState.bc l) l r b eq_refl);
      [lia | exact Hb | lia | lia | exact Hmiss].
Qed.

(** The walk ends at the first slot that is not reported missing, and
    says what the client answered for it. *)
Lemma daemon_walk_ends (c : beacon.Client W BeaconBlock) (m : daemon) (r : Z) :
  DaemonState.bc m = c -> 0 <= r -> neverMissing c r ->
  forall (n : nat) (s : Z) (w : W),
    s < 2 ^ 64 -> s - r = Z.of_nat n ->
    exists (k : nat) (wk w1 : W) (block : BeaconBlock) (exists_ : bool) (err : error),
      Z.of_nat k <= s - r
      /\ walksDown c s w (s - Z.of_nat k) wk
      /\ beacon.GetBeaconBlock c (fmt_Sprint (s - Z.of_nat k)) wk
         = ((block, exists_, err), w1)
      /\ (exists_ = true \/ err <> None)
      /\ DaemonState.GetLatestProposedBeaconBlock zeroBlock m (Datatypes.S n) s w
         = (Some match err with
                 | Some e =>
                     (zeroBlock,
                      fmt_Errorf ("error getting Beacon block "
                                  ++ fmt_Sprint (s - Z.of_nat k) ++ ": ") e)
                 | None => (block, None)
                 end, w1).
Proof.
  intros Hc Hr Hnm. unfold DaemonState.GetLatestProposedBeaconBlock.
  induction n as [|n IH]; intros s w Hs Hn;
    destruct (beacon.GetBeaconBlock c (fmt_Sprint s) w) as [[[blk ex] err] w1] eqn:Hget.
  - assert (s = r) by lia. subst s.
    exists 0%nat, w, w1, blk, ex, err. rewrite Z.sub_0_r.
    split; [lia|]. split; [apply walksDown_here|]. split; [exact Hget|].
    assert (Hnot : ex = true \/ err <> None).
    { destruct err as [e|]; [right; discriminate|]. destruct ex; [left; reflexivity|].
      exfalso. apply (Hnm w blk). rewrite Hget. reflexivity. }
    split; [exact Hnot|].
    apply loop_break. unfold DaemonState.probeSlot, bind. rewrite Hc, Hget.
    destruct err as [e|]; [reflexivity|].
    destruct Hnot as [Hex | Hne]; [subst ex; reflexivity | congruence].
  - destruct err as [e|]; [|destruct ex].
    + exists 0%nat, w, w1, blk, ex, (Some e). rewrite Z.sub_0_r.
      split; [lia|]. split; [apply walksDown_here|]. split; [exact Hget|].
      split; [right; discriminate|].
      apply loop_break. unfold DaemonState.probeSlot, bind. rewrite Hc, Hget. reflexivity.
    + exists 0%nat, w, w1, blk, true, None. rewrite Z.sub_0_r.
      split; [lia|]. split; [apply walksDown_here|]. split; [exact Hget|].
      split; [left; reflexivity|].
      apply loop_break. unfold DaemonState.probeSlot, bind. rewrite Hc, Hget. reflexivity.
    + assert (Hp : DaemonState.probeSlot zeroBlock m s w = (Continue (uint64_sub s 1), w1)).
      { unfold DaemonState.probeSlot, bind. rewrite Hc, Hget. reflexivity. }
      rewrite (loop_continue _ _ _ _ _ _ Hp).
      assert (Hsub : uint64_sub s 1 = s - 1) by (apply uint64_sub_1; lia).
      rewrite Hsub.
      destruct (IH (s - 1) w1 ltac:(lia) ltac:(lia))
        as (k & wk & w2 & block & ex & err & Hk & Hwalk & Hans & Hnot & Hres).
      exists (Datatypes.S k), wk, w2, block, ex, err.
      replace (s - Z.of_nat (Datatypes.S k)) with (s - 1 - Z.of_nat k) by lia.
      split; [lia|]. split.
      { eapply walksDown_missing; [exact Hget|]. rewrite Hsub. exact Hwalk. }
      split; [exact Hans|]. split; [exact Hnot | exact Hres].
Qed.

Lemma legacy_walk_ends (c : beacon.Client W BeaconBlock) (l : legacy) (r : Z) :
  LegacyState.bc l = c -> 0 <= r -> neverMissing c r ->
  forall (n : nat) (s : Z) (w : W),
    s < 2 ^ 64 -> s - r = Z.of_nat n ->
    exists (k : nat) (wk w1 : W) (block : BeaconBlock) (exists_ : bool) (err : error),
      Z.of_nat k <= s - r
      /\ walksDown c s w (s - Z.of_nat k) wk
      /\ beacon.GetBeaconBlock c (fmt_Sprint (s - Z.of_nat k)) wk
         = ((block, exists_, err), w1)
      /\ (exists_ = true \/ err <> None)
      /\ loop (LegacyState.probeSlot CreateNetworkState l) (Datatypes.S n) s w
         = match err with
           | Some e =>
               (Some (l, (None,
                          fmt_Errorf ("error getting Beacon block "
                                      ++ fmt_Sprint (s - Z.of_nat k) ++ ": ") e)), w1)
           | None =>
               let (res, w') :=
                 LegacyState.updateState CreateNetworkState l (s - Z.of_nat k) w1 in
               (Some res, w')
           end.
Proof.
  intros Hc Hr Hnm.
  induction n as [|n IH]; intros s w Hs Hn;
    destruct (beacon.GetBeaconBlock c (fmt_Sprint s) w) as [[[blk ex] err] w1] eqn:Hget.
  - assert (s = r) by lia. subst s.
    exists 0%nat, w, w1, blk, ex, err. rewrite Z.sub_0_r.
    split; [lia|]. split; [apply walksDown_here|]. split; [exact Hget|].
    assert (Hnot : ex = true \/ err <> None).
    { destruct err as [e|]; [right; discriminate|]. destruct ex; [left; reflexivity|].
      exfalso. apply (Hnm w blk). rewrite Hget. reflexivity. }
    split; [exact Hnot|].
    cbn [loop]. unfold bind at 1. unfold LegacyState.probeSlot, bind at 1.
    rewrite Hc, Hget.
    destruct err as [e|]; [reflexivity|].
    destruct Hnot as [Hex | Hne]; [subst ex | congruence].
    cbn [negb]. unfold bind.
    destruct (LegacyState.updateState CreateNetworkState l r w1) as [res w2]. reflexivity.
  - destruct err as [e|]; [|destruct ex].
    + exists 0%nat, w, w1, blk, ex, (Some e). rewrite Z.sub_0_r.
      split; [lia|]. split; [apply walksDown_here|]. split; [exact Hget|].
      split; [right; discriminate|].
      apply loop_break. unfold LegacyState.probeSlot, bind. rewrite Hc, Hget. reflexivity.
    + exists 0%nat, w, w1, blk, true, None. rewrite Z.sub_0_r.
      split; [lia|]. split; [apply walksDown_here|]. split; [exact Hget|].
      split; [left; reflexivity|].
      cbn [loop]. unfold bind at 1. unfold LegacyState.probeSlot, bind at 1.
      rewrite Hc, Hget. cbn [negb]. unfold bind.
      destruct (LegacyState.updateState CreateNetworkState l s w1) as [res w2]. reflexivity.
    + assert (Hp : LegacyState.probeSlot CreateNetworkState l s w
                   = (Continue (uint64_sub s 1), w1)).
      { unfold LegacyState.probeSlot, bind. rewrite Hc, Hget. reflexivity. }
      rewrite (loop_continue _ _ _ _ _ _ Hp).
      assert (Hsub : uint64_sub s 1 = s - 1) by (apply uint64_sub_1; lia).
      rewrite Hsub.
      destruct (IH (s - 1) w1 ltac:(lia) ltac:(lia))
        as (k & wk & w2 & block & ex & err & Hk & Hwalk & Hans & Hnot & Hres).
      exists (Datatypes.S k), wk, w2, block, ex, err.
      replace (s - Z.of_nat (Datatypes.S k)) with (s - 1 - Z.of_nat k) by lia.
      split; [lia|]. split.
      { eapply walksDown_missing; [exact Hget|]. rewrite Hsub. exact Hwalk. }
      split; [exact Hans|]. split; [exact Hnot | exact Hres].
Qed.

(** C1 (amended): the walk has no floor and no failure of its own; it ends
    at the first probed slot that is not reported missing, with that
    slot's block or with the probe's error. For every target slot [s] (a
    uint64) and every slot [r] with [0 <= r <= s] that is never reported
    missing, [GetLatestProposedBeaconBlock] from [s] returns within
    [s - r + 1] probes: having been told that the slots [s], ..., [s - k + 1]
    are missing, for some [k <= s - r], so that its counter does not pass
    below [r], it is given a block or an error for slot [s - k], and
    returns that block with a nil error, or the zero block with the error
    wrapped under the slot's number. [UpdateStateToFinalized], whose walk
    starts at the last slot [s] of the finalized epoch its beacon head
    names, ends in the same way, with what [updateState] returns for slot
    [s - k], or with a nil state, the wrapped error and the manager as it
    was. *)
Theorem walk_terminates_above_answering_slot (m : daemon) (l : legacy) :
  (forall (s r : Z) (w : W),
      0 <= r <= s -> s < 2 ^ 64 ->
      neverMissing (DaemonState.bc m) r ->
      exists (k : nat) (wk w1 : W) (block : BeaconBlock) (exists_ : bool) (err : error),
        Z.of_nat k <= s - r
        /\ walksDown (DaemonState.bc m) s w (s - Z.of_nat k) wk
        /\ beacon.GetBeaconBlock (DaemonState.bc m) (fmt_Sprint (s - Z.of_nat k)) wk
           = ((block, exists_, err), w1)
        /\ (exists_ = true \/ err <> None)
        /\ DaemonState.GetLatestProposedBeaconBlock zeroBlock m (Z.to_nat (s - r + 1)) s w
           = (Some match err with
                   | Some e =>
                       (zeroBlock,
                        fmt_Errorf ("error getting Beacon block "
                                    ++ fmt_Sprint (s - Z.of_nat k) ++ ": ") e)
                   | None => (block, None)
                   end, w1))
  /\ (forall (head : beacon.BeaconHead) (r : Z) (w w0 : W),
        beacon.GetBeaconHead (LegacyState.bc l) w = ((head, None), w0) ->
        let s := finalizedSlot (LegacyState.BeaconConfig l) head in
        0 <= r <= s ->
        neverMissing (LegacyState.bc l) r ->
        exists (k : nat) (wk w1 : W) (block : BeaconBlock) (exists_ : bool) (err : error),
          Z.of_nat k <= s - r
          /\ walksDown (LegacyState.bc l) s w0 (s - Z.of_nat k) wk
          /\ beacon.GetBeaconBlock (LegacyState.bc l) (fmt_Sprint (s - Z.of_nat k)) wk
             = ((block, exists_, err), w1)
          /\ (exists_ = true \/ err <> None)
          /\ LegacyState.UpdateStateToFinalized CreateNetworkState l
               (Z.to_nat (s - r + 1)) w
             = match err with
               | Some e =>
                   (Some (l, (None,
                              fmt_Errorf ("error getting Beacon block "
                                          ++ fmt_Sprint (s - Z.of_nat k) ++ ": ") e)), w1)
               | None =>
                   let (res, w') :=
                     LegacyState.updateState CreateNetworkState l (s - Z.of_nat k) w1 in
                   (Some res, w')
               end).
Proof.
  split.
  - intros s r w Hrs Hs Hnm.
    replace (Z.to_nat (s - r + 1)) with (Datatypes.S (Z.to_nat (s - r))) by lia.
    apply (daemon_walk_ends (DaemonState.bc m) m r eq_refl); [lia | exact Hnm | exact Hs | lia].
  - intros head r w w0 Hhead s Hrs Hnm.
    pose proof (finalizedSlot_range (LegacyState.BeaconConfig l) head) as Hs.
    fold s in Hs.
    replace (Z.to_nat (s - r + 1)) with (Datatypes.S (Z.to_nat (s - r))) by lia.
    unfold LegacyState.UpdateStateToFinalized, bind at 1.
    rewrite Hhead. cbv zeta. fold (finalizedSlot (LegacyState.BeaconConfig l) head).
    fold s.
    apply (legacy_walk_ends (LegacyState.bc l) l r eq_refl); [lia | exact Hnm | lia | lia].
Qed.

End WalkResults.

(** ** The latest published state *)

Section LatestState.
Context {W BeaconBlock NetworkState : Type}.
Variable negativeSeconds : Duration -> Z.
Variable CreateNetworkState :
  eth.ExecutionClient W -> beacon.Client W BeaconBlock -> Z -> beacon.Eth2Config ->
  M W (option NetworkState * error).

Let manager := @LegacyState.NetworkStateManager W BeaconBlock NetworkState.
Let run := runBuild negativeSeconds CreateNetworkState.
Let runAll := runBuilds negativeSeconds CreateNetworkState.

Lemma updateState_publishes (m : manager) (slotNumber : Z) (w : W) :
  let '(m', (state, err), _) := LegacyState.updateState CreateNetworkState m slotNumber w in
  match err with
  | None => LegacyState.GetLatestState m' = state
  | Some _ => m' = m /\ state = None
  end.
Proof.
  unfold LegacyState.updateState, bind.
  destruct (CreateNetworkState _ _ _ _ w) as [[state [e|]] w1]; cbn; auto.
Qed.

Lemma probeSlot_publishes (m : manager) (slot : Z) (w : W) :
  match LegacyState.probeSlot CreateNetworkState m slot w with
  | (Break (m', (state, None)), _) => LegacyState.GetLatestState m' = state
  | (Break (m', (_, Some _)), _) => m' = m
  | (Continue _, _) => True
  end.
Proof.
  unfold LegacyState.probeSlot, bind.
  destruct (beacon.GetBeaconBlock _ _ w) as [[[blk ex] [e|]] w1]; cbn; [reflexivity|].
  destruct ex; cbn; [|exact I].
  pose proof (updateState_publishes m slot w1) as Hu.
  destruct (LegacyState.updateState CreateNetworkState m slot w1) as [[m' [state [e|]]] w2];
    cbn in *; tauto.
Qed.

(** What one build leaves published. *)
Lemma runBuild_publishes (b : build) (m : manager) (w : W) :
  let '(m', r, _) := run b m w in
  LegacyState.GetLatestState m'
  = lastPublished (LegacyState.GetLatestState m) [r].
Proof.
  destruct b as [n | | fuel]; unfold run, runBuild, bind.
  - unfold LegacyState.UpdateStateToSlot.
    pose proof (updateState_publishes m n w) as Hu.
    destruct (LegacyState.updateState CreateNetworkState m n w) as [[m' [state [e|]]] w1];
      cbn in *; [destruct Hu; subst; reflexivity | exact Hu].
  - unfold LegacyState.UpdateStateToHead, bind.
    destruct (eth.HeaderByNumber (LegacyState.ec m) w) as [[hdr [e|]] w1]; cbn; [reflexivity|].
    destruct (slotOfHeader _ _ _) as [slot|]; cbn; [|reflexivity].
    pose proof (updateState_publishes m slot w1) as Hu.
    destruct (LegacyState.updateState CreateNetworkState m slot w1) as [[m' [state [e|]]] w2];
      cbn in *; [destruct Hu; subst; reflexivity | exact Hu].
  - unfold LegacyState.UpdateStateToFinalized, bind.
    destruct (beacon.GetBeaconHead (LegacyState.bc m) w) as [[head [e|]] w1]; cbn;
      [reflexivity|].
    set (target := uint64_add _ _). clearbody target.
    revert target w1. induction fuel as [|fuel IH]; intros target w1.
    + reflexivity.
    + cbn [loop]. unfold bind.
      pose proof (probeSlot_publishes m target w1) as Hp.
      destruct (LegacyState.probeSlot CreateNetworkState m target w1)
        as [[s' | [m' [state [e|]]]] w2]; cbn in *.
      * apply IH.
      * subst. reflexivity.
      * exact Hp.
Qed.

Lemma runBuilds_publishes (bs : list build) (m : manager) (w : W) :
  let '(m', rs, _) := runAll bs m w in
  LegacyState.GetLatestState m'
  = lastPublished (LegacyState.GetLatestState m) rs.
Proof.
  revert m w. induction bs as [|b bs IH]; intros m w; [reflexivity|].
  unfold runAll. cbn [runBuilds]. unfold bind. fold run. fold runAll.
  pose proof (runBuild_publishes b m w) as Hb.
  destruct (run b m w) as [[m1 r] w1].
  pose proof (IH m1 w1) as Hbs.
  destruct (runAll bs m1 w1) as [[m2 rs] w2]. cbn [ret].
  rewrite Hbs, Hb. cbn [lastPublished].
  destruct r as [[[state [e|]] | msg] | ]; reflexivity.
Qed.

(** C9: a new manager has no latest state; after any sequence of builds
    [GetLatestState] returns exactly the state of the last build that
    returned without error, and nil if there was none. A build that fails
    (an error from [CreateNetworkState] or from a client, a panic, an
    unfinished walk) leaves the published state as it was. *)
Theorem latest_state_is_last_successful_build
    (ec0 : eth.ExecutionClient W) (bc0 : beacon.Client W BeaconBlock)
    (bs : list build) (m : manager) (w w1 : W) :
  LegacyState.NewNetworkStateManager ec0 bc0 w = ((Some m, None), w1) ->
  LegacyState.GetLatestState m = None
  /\ (let '(m', rs, _) := runAll bs m w1 in
      LegacyState.GetLatestState m' = lastPublished None rs)
  /\ (forall (b : build) (m0 : manager) (w0 : W),
        let '(m', r, _) := run b m0 w0 in
        match r with
        | Some (Return (state, None)) => LegacyState.GetLatestState m' = state
        | _ => LegacyState.GetLatestState m' = LegacyState.GetLatestState m0
        end).
Proof.
  intros Hnew.
  assert (Hnil : LegacyState.GetLatestState m = None).
  { unfold LegacyState.NewNetworkStateManager, bind in Hnew.
    destruct (beacon.GetEth2Config bc0 w) as [[config [e|]] w'];
      inversion Hnew; subst. reflexivity. }
  split; [exact Hnil|]. split.
  - pose proof (runBuilds_publishes bs m w1) as Hbs.
    destruct (runAll bs m w1) as [[m' rs] w2]. rewrite Hbs, Hnil. reflexivity.
  - intros b m0 w0. pose proof (runBuild_publishes b m0 w0) as Hb.
    destruct (run b m0 w0) as [[m' r] w2]. rewrite Hb. cbn [lastPublished].
    destruct r as [[[state [e|]] | msg] | ]; reflexivity.
Qed.

End LatestState.

(** ** Client status and sync waits *)

Lemma Time_Sub_since_block (now : Time) (timestamp : Z) :
  representable timestamp ->
  Time_Sub now (time_Unix (to_int64 timestamp))
  = clamp_int64 (unixNanos now - timestamp * Second).
Proof.
  intros Ht. unfold Time_Sub, unixNanos.
  replace (mono (time_Unix (to_int64 timestamp))) with (@None Z) by reflexivity.
  assert (Hw : wallNanos (time_Unix (to_int64 timestamp))
               = (timestamp + unixToInternal) * Second).
  { unfold wallNanos. rewrite wallSec_time_Unix by exact Ht. cbn [time_Unix nsec]. lia. }
  destruct (mono now); rewrite Hw; f_equal; lia.
Qed.

Section SyncWait.
Context {W BeaconBlock : Type} `{Runtime W}.
Variable CheckStatus :
  services.ExecutionClientManager W ->
  M W (services.ClientManagerStatus * services.ExecutionClientManager W).
Variable GetEthClient : M W (services.ExecutionClientManager W * error).
Variable GetBeaconClient : M W (beacon.Client W BeaconBlock * error).
Variable GetEthClientLatestBlockTimestamp : eth.ExecutionClient W -> M W (Z * error).
Variable secondsExceed : Duration -> Z -> bool.

Let checkExecutionClientStatus := services.checkExecutionClientStatus CheckStatus.
Let pollEthClient := services.pollEthClient GetEthClientLatestBlockTimestamp.
Let waitEthHead := services.waitEthHead CheckStatus secondsExceed.
Let waitEthStep :=
  services.waitEthStep CheckStatus GetEthClientLatestBlockTimestamp secondsExceed.
Let waitEthClientSynced :=
  services.waitEthClientSynced CheckStatus GetEthClient
    GetEthClientLatestBlockTimestamp secondsExceed.
Let waitBeaconStep := @services.waitBeaconStep W BeaconBlock _.
Let waitBeaconClientSynced := services.waitBeaconClientSynced GetBeaconClient.
Let ethAt :=
  ethWaitAt CheckStatus GetEthClient GetEthClientLatestBlockTimestamp secondsExceed.
Let beaconAt := beaconWaitAt GetBeaconClient.
Let ethEvidence :=
  ethSyncEvidence CheckStatus GetEthClient GetEthClientLatestBlockTimestamp secondsExceed.
Let beaconEvidence := beaconSyncEvidence GetBeaconClient.

(** C6: whenever [CheckStatus] leaves the primary flagged ready,
    [checkExecutionClientStatus] returns ready = true (with no client to
    wait on and no error), whatever the report says about the fallback and
    whatever the manager's fallback flag and handle are; the world it
    leaves is the one [CheckStatus] left, so nothing else was asked. *)
Theorem primary_ready_wins
    (ecMgr ecMgr' : services.ExecutionClientManager W)
    (mgrStatus : services.ClientManagerStatus) (w w1 : W) :
  CheckStatus ecMgr w = ((mgrStatus, ecMgr'), w1) ->
  services.primaryReady ecMgr' = true ->
  checkExecutionClientStatus ecMgr w = ((ecMgr', (true, None, None)), w1).
Proof.
  intros Hc Hp. unfold checkExecutionClientStatus, services.checkExecutionClientStatus, bind.
  rewrite Hc, Hp. reflexivity.
Qed.

(** A pass of the execution wait loop is its head followed by the poll. *)
Lemma waitEthStep_poll (timeout : Z) (startTime : Time)
    (st st' : services.ethWait) (w w' : W) :
  waitEthHead timeout startTime st w = (Continue st', w') ->
  waitEthStep timeout startTime st w = pollEthClient st' w'.
Proof.
  intros Hh. unfold waitEthStep, services.waitEthStep, bind.
  fold waitEthHead. rewrite Hh. reflexivity.
Qed.

Lemma poll_SyncProgress_error (st : services.ethWait) (c : eth.ExecutionClient W)
    (progress : option eth.ethereum_SyncProgress) (e : string) (w w1 : W) :
  services.clientToCheck st = Some c ->
  eth.SyncProgress c w = ((progress, Some e), w1) ->
  pollEthClient st w = (Break (Return (false, Some e)), w1).
Proof.
  intros Hc Hp. unfold pollEthClient, services.pollEthClient, bind.
  rewrite Hc, Hp. reflexivity.
Qed.

Lemma poll_timestamp_error (st : services.ethWait) (c : eth.ExecutionClient W)
    (timestamp : Z) (e : string) (w w1 w2 : W) :
  services.clientToCheck st = Some c ->
  eth.SyncProgress c w = ((None, None), w1) ->
  GetEthClientLatestBlockTimestamp c w1 = ((timestamp, Some e), w2) ->
  pollEthClient st w = (Break (Return (false, Some e)), w2).
Proof.
  intros Hc Hp Ht.
  unfold pollEthClient, services.pollEthClient, services.IsSyncWithinThreshold, bind.
  rewrite Hc, Hp, Ht. reflexivity.
Qed.

Lemma beacon_GetSyncStatus_error (bc : beacon.Client W BeaconBlock)
    (timeout startTime : Z) (status : beacon.SyncStatus) (e : string) (w w1 w2 : W) :
  services.beaconTimedOut timeout startTime w = (false, w1) ->
  beacon.GetSyncStatus bc w1 = ((status, Some e), w2) ->
  waitBeaconStep bc timeout startTime tt w = (Break (false, Some e), w2).
Proof.
  intros Ht Hs. unfold waitBeaconStep, services.waitBeaconStep, bind.
  rewrite Ht, Hs. reflexivity.
Qed.

(** *** The beacon wait *)

Lemma waitBeaconStep_no_timeout (bc : beacon.Client W BeaconBlock) (startUnix : Z) (w : W) :
  waitBeaconStep bc 0 startUnix tt w
  = match beacon.GetSyncStatus bc w with
    | ((_, Some e), w1) => (Break (false, Some e), w1)
    | ((status, None), w1) =>
        if beacon.Syncing status then (Continue tt, nextPoll bc w)
        else (Break (true, None), w1)
    end.
Proof.
  unfold waitBeaconStep, services.waitBeaconStep, services.beaconTimedOut, bind, nextPoll.
  cbn [Z.ltb Z.compare ret].
  destruct (beacon.GetSyncStatus bc w) as [[status [e|]] w1]; [reflexivity|].
  destruct (beacon.Syncing status); [|reflexivity]. cbn [snd].
  destruct (time_Sleep services.beaconClientSyncPollInterval w1). reflexivity.
Qed.

Lemma beacon_success_iff (bc : beacon.Client W BeaconBlock) (startUnix : Z) :
  forall (fuel : nat) (w : W),
    fst (loop (waitBeaconStep bc 0 startUnix) fuel tt w) = Some (true, None)
    <-> exists k, (k < fuel)%nat /\ syncedAtPoll bc k w.
Proof.
  induction fuel as [|fuel IH]; intros w.
  - cbn. split; [discriminate | intros (k & Hk & _); lia].
  - cbn [loop]. unfold bind. rewrite waitBeaconStep_no_timeout.
    destruct (beacon.GetSyncStatus bc w) as [[status [e|]] w1] eqn:Hs.
    + cbn. split; [discriminate|]. intros (k & _ & Hbefore & (st & Hk & _)).
      destruct k as [|k].
      * unfold pollAnswer in Hk. cbn [pollWorld] in Hk. rewrite Hs in Hk. discriminate.
      * destruct (Hbefore 0%nat ltac:(lia)) as (st0 & H0 & _).
        unfold pollAnswer in H0. cbn [pollWorld] in H0. rewrite Hs in H0. discriminate.
    + destruct (beacon.Syncing status) eqn:Hsync.
      * rewrite IH. split.
        -- intros (k & Hk & Hbefore & Hat). exists (Datatypes.S k).
           split; [lia|]. split; [|exact Hat].
           intros [|j] Hj.
           ++ exists status. unfold pollAnswer. cbn [pollWorld]. rewrite Hs. auto.
           ++ apply (Hbefore j). lia.
        -- intros (k & Hk & Hbefore & (st & Hat & Hdone)).
           destruct k as [|k].
           ++ unfold pollAnswer in Hat. cbn [pollWorld] in Hat. rewrite Hs in Hat.
              inversion Hat; subst. congruence.
           ++ exists k. split; [lia|]. split; [|exists st; auto].
              intros j Hj. apply (Hbefore (Datatypes.S j)). lia.
      * cbn. split; [intros _|reflexivity].
        exists 0%nat. split; [lia|]. split; [intros j Hj; lia|].
        exists status. unfold pollAnswer. cbn [pollWorld]. rewrite Hs. auto.
Qed.

(** C10: with [timeout = 0] the beacon wait returns success exactly when
    one of its polls of [GetSyncStatus] reports [Syncing = false], the
    polls before it having reported [Syncing = true]. The answer is read
    off the poll answers alone: the start time plays no part, and the
    function takes neither the execution client manager, nor its status
    check, nor a block timestamp, so it has no primary / fallback
    evaluation, no status refresh and no recency test to run. *)
Theorem beacon_wait_succeeds_iff_poll_reports_synced
    (verbose : bool) (fuel : nat) (bc : beacon.Client W BeaconBlock)
    (now : Time) (w w1 w2 : W) :
  GetBeaconClient w = ((bc, None), w1) ->
  time_Now w1 = (now, w2) ->
  fst (waitBeaconClientSynced verbose 0 fuel w) = Some (true, None)
  <-> exists k, (k < fuel)%nat /\ syncedAtPoll bc k w2.
Proof.
  intros Hg Hn.
  unfold waitBeaconClientSynced, services.waitBeaconClientSynced, bind.
  rewrite Hg, Hn. apply beacon_success_iff.
Qed.

Lemma beacon_timeout_fires (bc : beacon.Client W BeaconBlock)
    (timeout startUnix : Z) (now : Time) (w w' : W) :
  0 < timeout ->
  time_Now w = (now, w') ->
  timeout < int64_sub (Time_Unix now) startUnix ->
  waitBeaconStep bc timeout startUnix tt w = (Break (false, None), w').
Proof.
  intros Ht Hn He. unfold waitBeaconStep, services.waitBeaconStep,
    services.beaconTimedOut, bind.
  destruct (Z.ltb_spec 0 timeout); [|lia]. rewrite Hn. unfold ret.
  destruct (Z.ltb_spec timeout (int64_sub (Time_Unix now) startUnix)); [reflexivity|lia].
Qed.


Lemma poll_break (st : services.ethWait) (w w' : W) (a : exit (bool * error)) :
  pollEthClient st w = (Break a, w') -> a <> Return (false, None).
Proof.
  unfold pollEthClient, services.pollEthClient, services.IsSyncWithinThreshold,
    time_Since, bind.
  destruct (services.clientToCheck st) as [c|];
    [|intros Hb; inversion Hb; subst; discriminate].
  destruct (eth.SyncProgress c w) as [[progress [e|]] w1];
    [intros Hb; inversion Hb; subst; discriminate|].
  destruct progress as [p|].
  - destruct (time_Sleep _ w1). intros Hb; inversion Hb.
  - destruct (GetEthClientLatestBlockTimestamp c w1) as [[timestamp [e|]] w2];
      [intros Hb; inversion Hb; subst; discriminate|].
    destruct (time_Now w2) as [now w3]. unfold ret.
    destruct (_ <? _); [intros Hb; inversion Hb; subst; discriminate|].
    destruct (time_Sleep _ w3). intros Hb; inversion Hb.
Qed.



(** *** From the loop to the wait *)

(** At a loop head the wait has come to, the call goes on as the loop
    does from there. *)
Lemma eth_wait_from_head (verbose : bool) (timeout : Z) (w : W) (startTime : Time)
    (st : services.ethWait) (wk : W) :
  ethAt timeout w startTime st wk ->
  exists n, forall k,
    waitEthClientSynced verbose timeout (n + k) w
    = loop (waitEthStep timeout startTime) k st wk.
Proof.
  intros (ecMgr & w1 & ecMgr' & client & w2 & w3 & Hg & Hc & Hn & Hr).
  destruct (reaches_loop _ _ _ _ _ Hr) as [n Hloop].
  exists n. intros k. unfold waitEthClientSynced, services.waitEthClientSynced, bind.
  rewrite Hg, Hc, Hn. apply Hloop.
Qed.

(** A pass that breaks at such a head is the answer of the call, with
    any fuel that lasts up to there. *)
Lemma eth_wait_break (verbose : bool) (timeout : Z) (w : W) (startTime : Time)
    (st : services.ethWait) (wk w' : W) (a : exit (bool * error)) :
  ethAt timeout w startTime st wk ->
  waitEthStep timeout startTime st wk = (Break a, w') ->
  exists n, forall k, waitEthClientSynced verbose timeout (n + k) w = (Some a, w').
Proof.
  intros Hat Hb. destruct (eth_wait_from_head verbose _ _ _ _ _ Hat) as [n Hn].
  exists (n + 1)%nat. intros k.
  replace (n + 1 + k)%nat with (n + Datatypes.S k)%nat by lia.
  rewrite Hn. apply loop_break. exact Hb.
Qed.

(** A pass that continues brings the wait to the next loop head. *)
Lemma eth_wait_next (timeout : Z) (w : W) (startTime : Time)
    (st st' : services.ethWait) (wk wk' : W) :
  ethAt timeout w startTime st wk ->
  waitEthStep timeout startTime st wk = (Continue st', wk') ->
  ethAt timeout w startTime st' wk'.
Proof.
  intros (ecMgr & w1 & ecMgr' & client & w2 & w3 & Hg & Hc & Hn & Hr) Hstep.
  exists ecMgr, w1, ecMgr', client, w2, w3. repeat split; try assumption.
  eapply reaches_trans; [exact Hr|].
  eapply reaches_next; [exact Hstep | apply reaches_here].
Qed.

(** How a call that returns came to its answer. *)
Lemma eth_wait_result_head (verbose : bool) (timeout : Z) (fuel : nat) (w w' : W)
    (a : exit (bool * error)) :
  waitEthClientSynced verbose timeout fuel w = (Some a, w') ->
  (exists ecMgr e, GetEthClient w = ((ecMgr, Some e), w') /\ a = Return (false, Some e))
  \/ (exists ecMgr w1 ecMgr' synced client e,
        GetEthClient w = ((ecMgr, None), w1)
        /\ checkExecutionClientStatus ecMgr w1 = ((ecMgr', (synced, client, Some e)), w')
        /\ a = Return (false, Some e))
  \/ (exists ecMgr w1 ecMgr' client,
        GetEthClient w = ((ecMgr, None), w1)
        /\ checkExecutionClientStatus ecMgr w1 = ((ecMgr', (true, client, None)), w')
        /\ a = Return (true, None))
  \/ (exists startTime st wk,
        ethAt timeout w startTime st wk
        /\ waitEthStep timeout startTime st wk = (Break a, w')).
Proof.
  unfold waitEthClientSynced, services.waitEthClientSynced, bind.
  destruct (GetEthClient w) as [[ecMgr [e|]] w1] eqn:Hg.
  { intros Hx; inversion Hx; subst. left. exists ecMgr, e. auto. }
  fold checkExecutionClientStatus.
  destruct (checkExecutionClientStatus ecMgr w1)
    as [[ecMgr' [[synced client] [e|]]] w2] eqn:Hc.
  { intros Hx; inversion Hx; subst. right; left.
    exists ecMgr, w1, ecMgr', synced, client, e. auto. }
  destruct synced.
  { intros Hx; inversion Hx; subst. right; right; left.
    exists ecMgr, w1, ecMgr', client. auto. }
  destruct (time_Now w2) as [startTime w3] eqn:Hn. fold waitEthStep.
  intros Hl. destruct (loop_result_reaches _ _ _ _ _ _ Hl) as (st & wk & Hr & Hb).
  right; right; right. exists startTime, st, wk. split; [|exact Hb].
  exists ecMgr, w1, ecMgr', client, w2, w3. auto.
Qed.

Lemma beacon_wait_from_head (verbose : bool) (timeout : Z) (w : W)
    (bc : beacon.Client W BeaconBlock) (startUnix : Z) (wk : W) :
  beaconAt timeout w bc startUnix wk ->
  exists n, forall k,
    waitBeaconClientSynced verbose timeout (n + k) w
    = loop (waitBeaconStep bc timeout startUnix) k tt wk.
Proof.
  intros (w1 & now & w2 & Hg & Hn & Hs & Hr). subst startUnix.
  destruct (reaches_loop _ _ _ _ _ Hr) as [n Hloop].
  exists n. intros k. unfold waitBeaconClientSynced, services.waitBeaconClientSynced, bind.
  rewrite Hg, Hn. apply Hloop.
Qed.

Lemma beacon_wait_break (verbose : bool) (timeout : Z) (w : W)
    (bc : beacon.Client W BeaconBlock) (startUnix : Z) (wk w' : W) (a : bool * error) :
  beaconAt timeout w bc startUnix wk ->
  waitBeaconStep bc timeout startUnix tt wk = (Break a, w') ->
  exists n, forall k, waitBeaconClientSynced verbose timeout (n + k) w = (Some a, w').
Proof.
  intros Hat Hb. destruct (beacon_wait_from_head verbose _ _ _ _ _ Hat) as [n Hn].
  exists (n + 1)%nat. intros k.
  replace (n + 1 + k)%nat with (n + Datatypes.S k)%nat by lia.
  rewrite Hn. apply loop_break. exact Hb.
Qed.

Lemma beacon_wait_result_head (verbose : bool) (timeout : Z) (fuel : nat) (w w' : W)
    (a : bool * error) :
  waitBeaconClientSynced verbose timeout fuel w = (Some a, w') ->
  (exists bc e, GetBeaconClient w = ((bc, Some e), w') /\ a = (false, Some e))
  \/ (exists bc startUnix wk,
        beaconAt timeout w bc startUnix wk
        /\ waitBeaconStep bc timeout startUnix tt wk = (Break a, w')).
Proof.
  unfold waitBeaconClientSynced, services.waitBeaconClientSynced, bind.
  destruct (GetBeaconClient w) as [[bc [e|]] w1] eqn:Hg.
  { intros Hx; inversion Hx; subst. left. exists bc, e. auto. }
  destruct (time_Now w1) as [now w2] eqn:Hn.
  fold (waitBeaconStep bc timeout (Time_Unix now)).
  intros Hl. destruct (loop_result_reaches _ _ _ _ _ _ Hl) as ([] & wk & Hr & Hb).
  right. exists bc, (Time_Unix now), wk. split; [|exact Hb].
  exists w1, now, w2. auto.
Qed.

(** *** What a pass that breaks has seen *)

(** "Not ready" comes from the timeout check alone. *)
Lemma eth_step_not_ready (timeout : Z) (startTime : Time) (st : services.ethWait)
    (w w' : W) :
  waitEthStep timeout startTime st w = (Break (Return (false, None)), w') ->
  0 < timeout
  /\ exists now,
       time_Now w = (now, w') /\ secondsExceed (Time_Sub now startTime) timeout = true.
Proof.
  unfold waitEthStep, services.waitEthStep, bind. fold waitEthHead.
  destruct (waitEthHead timeout startTime st w) as [[st'|a] w1] eqn:Hh.
  { fold pollEthClient. intros Hp. exfalso. exact (poll_break _ _ _ _ Hp eq_refl). }
  unfold ret. intros Hx; inversion Hx; subst. revert Hh.
  unfold waitEthHead, services.waitEthHead, services.ethTimedOut, time_Since, bind.
  assert (Hrest : forall w0,
            (let (a, w2) := let (now, w2) := time_Now w0 in
                            ret (Time_Sub now (services.ecRefreshTime st)) w2 in
             (if services.ethClientStatusRefreshInterval <? a
              then fun w3 =>
                     let (now, w4) := time_Now w3 in
                     let (a0, w5) :=
                       services.checkExecutionClientStatus CheckStatus (services.ecMgr st) w4 in
                     (let '(ecMgr, (synced, client, err)) := a0 in
                      match err with
                      | Some e => ret (Break (Return (false, Some e)))
                      | None =>
                          if synced then ret (Break (Return (true, None)))
                          else ret (Continue
                                 {| services.ecMgr := ecMgr;
                                    services.clientToCheck := client;
                                    services.ecRefreshTime := now |})
                      end) w5
              else ret (Continue st)) w2)
            <> (Break (Return (false, None)), w')).
  { intros w0. destruct (time_Now w0) as [t w2]. unfold ret.
    destruct (_ <? _); [|discriminate].
    destruct (time_Now w2) as [now w3].
    destruct (services.checkExecutionClientStatus CheckStatus (services.ecMgr st) w3)
      as [[ecMgr [[synced client] [e|]]] w4]; [discriminate|].
    destruct synced; discriminate. }
  destruct (Z.ltb_spec 0 timeout) as [Ht|Ht].
  - destruct (time_Now w) as [now w2] eqn:Hn. unfold ret at 1.
    destruct (secondsExceed (Time_Sub now startTime) timeout) eqn:He.
    + unfold ret. intros Hx'; inversion Hx'; subst. split; [exact Ht|]. exists now. auto.
    + intros Hx'. exfalso. exact (Hrest w2 Hx').
  - unfold ret at 1. intros Hx'. exfalso. exact (Hrest w Hx').
Qed.

Lemma beaconTimedOut_true (timeout startUnix : Z) (w w' : W) :
  services.beaconTimedOut timeout startUnix w = (true, w') ->
  0 < timeout
  /\ exists now,
       time_Now w = (now, w') /\ timeout < int64_sub (Time_Unix now) startUnix.
Proof.
  unfold services.beaconTimedOut, bind, ret.
  destruct (Z.ltb_spec 0 timeout) as [Ht|Ht]; [|intros Hx; inversion Hx].
  destruct (time_Now w) as [now w1] eqn:Hn.
  destruct (Z.ltb_spec timeout (int64_sub (Time_Unix now) startUnix)) as [He|He];
    intros Hx; inversion Hx; subst.
  split; [exact Ht|]. exists now. auto.
Qed.

Lemma beacon_step_not_ready (bc : beacon.Client W BeaconBlock) (timeout startUnix : Z)
    (w w' : W) :
  waitBeaconStep bc timeout startUnix tt w = (Break (false, None), w') ->
  0 < timeout
  /\ exists now,
       time_Now w = (now, w') /\ timeout < int64_sub (Time_Unix now) startUnix.
Proof.
  unfold waitBeaconStep, services.waitBeaconStep, bind.
  destruct (services.beaconTimedOut timeout startUnix w) as [[|] w0] eqn:Hto.
  - unfold ret. intros Hx; inversion Hx; subst. exact (beaconTimedOut_true _ _ _ _ Hto).
  - destruct (beacon.GetSyncStatus bc w0) as [[status [e|]] w1];
      [intros Hx; inversion Hx|].
    destruct (beacon.Syncing status); [|intros Hx; inversion Hx].
    destruct (time_Sleep _ w1). intros Hx; inversion Hx.
Qed.

(** Success of the beacon wait comes from a poll answered with
    [Syncing = false]. *)
Lemma beacon_step_success (bc : beacon.Client W BeaconBlock) (timeout startUnix : Z)
    (w w' : W) :
  waitBeaconStep bc timeout startUnix tt w = (Break (true, None), w') ->
  exists w0 status,
    services.beaconTimedOut timeout startUnix w = (false, w0)
    /\ beacon.GetSyncStatus bc w0 = ((status, None), w')
    /\ beacon.Syncing status = false.
Proof.
  unfold waitBeaconStep, services.waitBeaconStep, bind.
  destruct (services.beaconTimedOut timeout startUnix w) as [[|] w0];
    [intros Hx; inversion Hx|].
  destruct (beacon.GetSyncStatus bc w0) as [[status [e|]] w1] eqn:Hs;
    [intros Hx; inversion Hx|].
  destruct (beacon.Syncing status) eqn:Hsync.
  - destruct (time_Sleep _ w1). intros Hx; inversion Hx.
  - intros Hx; inversion Hx; subst. exists w0, status. auto.
Qed.

(** A status check that says ready has seen a readiness flag. *)
Lemma check_ready_flagged (ecMgr ecMgr' : services.ExecutionClientManager W)
    (client : option (eth.ExecutionClient W)) (err : error) (w w1 : W) :
  checkExecutionClientStatus ecMgr w = ((ecMgr', (true, client, err)), w1) ->
  exists mgrStatus,
    CheckStatus ecMgr w = ((mgrStatus, ecMgr'), w1)
    /\ (services.primaryReady ecMgr' || services.fallbackReady ecMgr') = true.
Proof.
  unfold checkExecutionClientStatus, services.checkExecutionClientStatus, bind.
  destruct (CheckStatus ecMgr w) as [[mgrStatus ecMgr0] w0] eqn:Hc.
  destruct (services.primaryReady ecMgr0) eqn:Hp.
  { intros Hx; inversion Hx; subst. exists mgrStatus. rewrite Hp. auto. }
  destruct (services.fallbackReady ecMgr0) eqn:Hf.
  { intros Hx; inversion Hx; subst. exists mgrStatus. rewrite Hp, Hf. auto. }
  destruct (_ && _); [intros Hx; inversion Hx|].
  destruct (_ && _); [intros Hx; inversion Hx|].
  destruct (services.FallbackEnabled mgrStatus); intros Hx; inversion Hx.
Qed.

Lemma poll_success (st : services.ethWait) (w w' : W) :
  pollEthClient st w = (Break (Return (true, None)), w') ->
  exists c w2 timestamp w3 now,
    services.clientToCheck st = Some c
    /\ eth.SyncProgress c w = ((None, None), w2)
    /\ GetEthClientLatestBlockTimestamp c w2 = ((timestamp, None), w3)
    /\ time_Now w3 = (now, w')
    /\ Time_Sub now (time_Unix (to_int64 timestamp))
       < services.ethClientRecentBlockThreshold.
Proof.
  unfold pollEthClient, services.pollEthClient, services.IsSyncWithinThreshold,
    time_Since, bind.
  destruct (services.clientToCheck st) as [c|]; [|intros Hx; inversion Hx].
  destruct (eth.SyncProgress c w) as [[progress [e|]] w2] eqn:Hp;
    [intros Hx; inversion Hx|].
  destruct progress as [p|].
  { destruct (time_Sleep _ w2). intros Hx; inversion Hx. }
  destruct (GetEthClientLatestBlockTimestamp c w2) as [[timestamp [e|]] w3] eqn:Hf;
    [intros Hx; inversion Hx|].
  destruct (time_Now w3) as [now w4] eqn:Hn. unfold ret.
  destruct (Z.ltb_spec (Time_Sub now (time_Unix (to_int64 timestamp)))
              services.ethClientRecentBlockThreshold) as [Hlt|Hge].
  - intros Hx; inversion Hx; subst. exists c, w2, timestamp, w3, now. auto.
  - destruct (time_Sleep _ w4). intros Hx; inversion Hx.
Qed.

Lemma eth_step_success (timeout : Z) (startTime : Time) (st : services.ethWait)
    (w w' : W) :
  waitEthStep timeout startTime st w = (Break (Return (true, None)), w') ->
  (exists w1 now1 w2 now2 w3 mgrStatus ecMgr',
      services.ethTimedOut secondsExceed timeout startTime w = (false, w1)
      /\ time_Now w1 = (now1, w2)
      /\ services.ethClientStatusRefreshInterval
         < Time_Sub now1 (services.ecRefreshTime st)
      /\ time_Now w2 = (now2, w3)
      /\ CheckStatus (services.ecMgr st) w3 = ((mgrStatus, ecMgr'), w')
      /\ (services.primaryReady ecMgr' || services.fallbackReady ecMgr') = true)
  \/ (exists st' w1 c w2 timestamp w3 now,
        waitEthHead timeout startTime st w = (Continue st', w1)
        /\ services.clientToCheck st' = Some c
        /\ eth.SyncProgress c w1 = ((None, None), w2)
        /\ GetEthClientLatestBlockTimestamp c w2 = ((timestamp, None), w3)
        /\ time_Now w3 = (now, w')
        /\ Time_Sub now (time_Unix (to_int64 timestamp))
           < services.ethClientRecentBlockThreshold).
Proof.
  unfold waitEthStep, services.waitEthStep, bind. fold waitEthHead.
  destruct (waitEthHead timeout startTime st w) as [[st'|a] w1] eqn:Hh.
  { fold pollEthClient. intros Hp.
    destruct (poll_success _ _ _ Hp) as (c & w2 & timestamp & w3 & now & Hrest).
    right. exists st', w1, c, w2, timestamp, w3, now. split; [reflexivity | exact Hrest]. }
  unfold ret. intros Hx; inversion Hx; subst. left. revert Hh.
  unfold waitEthHead, services.waitEthHead, time_Since, bind.
  destruct (services.ethTimedOut secondsExceed timeout startTime w) as [[|] w1];
    [intros Hx'; inversion Hx'|].
  destruct (time_Now w1) as [now1 w2] eqn:Hn1. unfold ret at 1.
  destruct (Z.ltb_spec services.ethClientStatusRefreshInterval
              (Time_Sub now1 (services.ecRefreshTime st))) as [Hlt|Hge];
    [|intros Hx'; inversion Hx'].
  destruct (time_Now w2) as [now2 w3] eqn:Hn2.
  fold checkExecutionClientStatus.
  destruct (checkExecutionClientStatus (services.ecMgr st) w3)
    as [[ecMgr' [[synced client] [e|]]] w4] eqn:Hc; [intros Hx'; inversion Hx'|].
  destruct synced; intros Hx'; inversion Hx'; subst.
  destruct (check_ready_flagged _ _ _ _ _ _ Hc) as (mgrStatus & Hcs & Hflag).
  exists w1, now1, w2, now2, w3, mgrStatus, ecMgr'. auto 10.
Qed.

Lemma eth_wait_success_evidence (verbose : bool) (timeout : Z) (fuel : nat) (w w' : W) :
  waitEthClientSynced verbose timeout fuel w = (Some (Return (true, None)), w') ->
  ethEvidence timeout w w'.
Proof.
  intros Hw.
  destruct (eth_wait_result_head _ _ _ _ _ _ Hw)
    as [(ecMgr & e & _ & Ha)
       | [(ecMgr & w1 & ecMgr' & synced & client & e & _ & _ & Ha)
         | [(ecMgr & w1 & ecMgr' & client & Hg & Hc & _)
           | (startTime & st & wk & Hat & Hb)]]]; try discriminate.
  - left. destruct (check_ready_flagged _ _ _ _ _ _ Hc) as (mgrStatus & Hcs & Hflag).
    exists ecMgr, w1, mgrStatus, ecMgr'. auto.
  - right. exists startTime, st, wk. split; [exact Hat|].
    exact (eth_step_success _ _ _ _ _ Hb).
Qed.

Lemma beacon_wait_success_evidence (verbose : bool) (timeout : Z) (fuel : nat) (w w' : W) :
  waitBeaconClientSynced verbose timeout fuel w = (Some (true, None), w') ->
  beaconEvidence timeout w w'.
Proof.
  intros Hw.
  destruct (beacon_wait_result_head _ _ _ _ _ _ Hw)
    as [(bc & e & _ & Ha) | (bc & startUnix & wk & Hat & Hb)]; [discriminate|].
  destruct (beacon_step_success _ _ _ _ _ Hb) as (w0 & status & Ht & Hs & Hsync).
  exists bc, startUnix, wk, w0, status. auto.
Qed.

(** With [timeout = 0] no call returns "not ready". *)
Lemma eth_wait_timed_out (verbose : bool) (timeout : Z) (fuel : nat) (w w' : W) :
  waitEthClientSynced verbose timeout fuel w = (Some (Return (false, None)), w') ->
  0 < timeout
  /\ exists startTime st wk now,
       ethAt timeout w startTime st wk
       /\ time_Now wk = (now, w')
       /\ secondsExceed (Time_Sub now startTime) timeout = true.
Proof.
  intros Hw.
  destruct (eth_wait_result_head _ _ _ _ _ _ Hw)
    as [(ecMgr & e & _ & Ha)
       | [(ecMgr & w1 & ecMgr' & synced & client & e & _ & _ & Ha)
         | [(ecMgr & w1 & ecMgr' & client & _ & _ & Ha)
           | (startTime & st & wk & Hat & Hb)]]]; try discriminate.
  destruct (eth_step_not_ready _ _ _ _ _ Hb) as (Ht & now & Hn & He).
  split; [exact Ht|]. exists startTime, st, wk, now. auto.
Qed.

Lemma beacon_wait_timed_out (verbose : bool) (timeout : Z) (fuel : nat) (w w' : W) :
  waitBeaconClientSynced verbose timeout fuel w = (Some (false, None), w') ->
  0 < timeout
  /\ exists bc startUnix wk now,
       beaconAt timeout w bc startUnix wk
       /\ time_Now wk = (now, w')
       /\ timeout < int64_sub (Time_Unix now) startUnix.
Proof.
  intros Hw.
  destruct (beacon_wait_result_head _ _ _ _ _ _ Hw)
    as [(bc & e & _ & Ha) | (bc & startUnix & wk & Hat & Hb)]; [discriminate|].
  destruct (beacon_step_not_ready _ _ _ _ _ Hb) as (Ht & now & Hn & He).
  split; [exact Ht|]. exists bc, startUnix, wk, now. auto.
Qed.





(** C7: an error from a probe of a sync wait is what the wait returns to
    its caller. At whatever loop head the call has come to, when the
    probe of that pass fails with [e] (be it [SyncProgress], the
    latest-block-timestamp fetch, or the beacon client's [GetSyncStatus])
    the call returns [(false, e)], with any fuel that lasts up to that
    pass, and in the world the failed probe left: no sleep and no further
    poll follow, and the error is not turned into "not ready". *)
Theorem probe_error_ends_wait (verbose : bool) (timeout : Z) (w : W) (e : string) :
  (forall startTime st wk st' w1 c progress w2,
      ethAt timeout w startTime st wk ->
      waitEthHead timeout startTime st wk = (Continue st', w1) ->
      services.clientToCheck st' = Some c ->
      eth.SyncProgress c w1 = ((progress, Some e), w2) ->
      exists n, forall k,
        waitEthClientSynced verbose timeout (n + k) w
        = (Some (Return (false, Some e)), w2))
  /\ (forall startTime st wk st' w1 c w2 timestamp w3,
        ethAt timeout w startTime st wk ->
        waitEthHead timeout startTime st wk = (Continue st', w1) ->
        services.clientToCheck st' = Some c ->
        eth.SyncProgress c w1 = ((None, None), w2) ->
        GetEthClientLatestBlockTimestamp c w2 = ((timestamp, Some e), w3) ->
        exists n, forall k,
          waitEthClientSynced verbose timeout (n + k) w
          = (Some (Return (false, Some e)), w3))
  /\ (forall bc startUnix wk w1 status w2,
        beaconAt timeout w bc startUnix wk ->
        services.beaconTimedOut timeout startUnix wk = (false, w1) ->
        beacon.GetSyncStatus bc w1 = ((status, Some e), w2) ->
        exists n, forall k,
          waitBeaconClientSynced verbose timeout (n + k) w
          = (Some (false, Some e), w2)).
Proof.
  repeat split.
  - intros startTime st wk st' w1 c progress w2 Hat Hh Hc Hp.
    apply (eth_wait_break verbose _ _ _ _ _ _ _ Hat).
    rewrite (waitEthStep_poll _ _ _ _ _ _ Hh).
    exact (poll_SyncProgress_error _ _ _ _ _ _ Hc Hp).
  - intros startTime st wk st' w1 c w2 timestamp w3 Hat Hh Hc Hp Ht.
    apply (eth_wait_break verbose _ _ _ _ _ _ _ Hat).
    rewrite (waitEthStep_poll _ _ _ _ _ _ Hh).
    exact (poll_timestamp_error _ _ _ _ _ _ _ Hc Hp Ht).
  - intros bc startUnix wk w1 status w2 Hat Hb Hs.
    apply (beacon_wait_break verbose _ _ _ _ _ _ _ Hat).
    exact (beacon_GetSyncStatus_error _ _ _ _ _ _ _ _ Hb Hs).
Qed.

(** C8 (amended): the recency test, for a timestamp that [time.Unix]
    represents. At whatever loop head the call has come to, when the
    monitored client returns no sync-progress object and its latest block
    has such a timestamp, the pass returns success exactly when the
    block's age on the wall clock, the reading [now] minus the timestamp,
    is under the 5 minute threshold. When it is, the call returns
    [(true, nil)], with any fuel that lasts up to that pass; otherwise the
    pass sleeps for the poll interval and the call is at its next loop
    head, with the same variables, where it goes on. *)
Theorem recency_test_decides
    (verbose : bool) (timeout : Z) (startTime : Time) (st st' : services.ethWait)
    (c : eth.ExecutionClient W) (timestamp : Z) (now : Time)
    (w wk w1 w2 w3 w4 : W) :
  ethAt timeout w startTime st wk ->
  waitEthHead timeout startTime st wk = (Continue st', w1) ->
  services.clientToCheck st' = Some c ->
  eth.SyncProgress c w1 = ((None, None), w2) ->
  GetEthClientLatestBlockTimestamp c w2 = ((timestamp, None), w3) ->
  time_Now w3 = (now, w4) ->
  representable timestamp ->
  let age := unixNanos now - timestamp * Second in
  let w5 := snd (time_Sleep services.ethClientSyncPollInterval w4) in
  (age < 5 * Minute <->
   fst (waitEthStep timeout startTime st wk) = Break (Return (true, None)))
  /\ (age < 5 * Minute ->
      exists n, forall k,
        waitEthClientSynced verbose timeout (n + k) w = (Some (Return (true, None)), w4))
  /\ (5 * Minute <= age ->
      ethAt timeout w startTime st' w5
      /\ exists n, forall k,
           waitEthClientSynced verbose timeout (n + k) w
           = loop (waitEthStep timeout startTime) k st' w5).
Proof.
  intros Hat Hh Hc Hp Ht Hn Hr age w5.
  assert (Hstep : waitEthStep timeout startTime st wk
                  = if age <? 5 * Minute
                    then (Break (Return (true, None)), w4)
                    else (Continue st', w5)).
  { rewrite (waitEthStep_poll _ _ _ _ _ _ Hh).
    unfold pollEthClient, services.pollEthClient, services.IsSyncWithinThreshold,
      time_Since, bind.
    rewrite Hc, Hp, Ht, Hn. unfold ret.
    rewrite (Time_Sub_since_block now timestamp Hr). fold age.
    assert (Hlt : clamp_int64 age < services.ethClientRecentBlockThreshold
                  <-> age < services.ethClientRecentBlockThreshold).
    { apply clamp_int64_lt. cbv. split; congruence. }
    change (5 * Minute) with services.ethClientRecentBlockThreshold.
    destruct (Z.ltb_spec (clamp_int64 age) services.ethClientRecentBlockThreshold) as [Hl|Hl];
      destruct (Z.ltb_spec age services.ethClientRecentBlockThreshold) as [Ha|Ha].
    - reflexivity.
    - apply Hlt in Hl. lia.
    - apply Hlt in Ha. lia.
    - subst w5. destruct (time_Sleep services.ethClientSyncPollInterval w4) as [u w6].
      reflexivity. }
  split; [split|split].
  - intros Ha. rewrite Hstep.
    destruct (Z.ltb_spec age (5 * Minute)); [reflexivity|lia].
  - rewrite Hstep. destruct (Z.ltb_spec age (5 * Minute)) as [Ha|Ha]; [intros _; exact Ha|].
    cbn [fst]. discriminate.
  - intros Ha. apply (eth_wait_break verbose _ _ _ _ _ _ _ Hat). rewrite Hstep.
    destruct (Z.ltb_spec age (5 * Minute)); [reflexivity|lia].
  - intros Ha.
    assert (Hnext : waitEthStep timeout startTime st wk = (Continue st', w5)).
    { rewrite Hstep. destruct (Z.ltb_spec age (5 * Minute)); [lia|reflexivity]. }
    pose proof (eth_wait_next _ _ _ _ _ _ _ Hat Hnext) as Hat'.
    split; [exact Hat'|]. exact (eth_wait_from_head verbose _ _ _ _ _ Hat').
Qed.

(** X5: the beacon wait reports success only on the word of the client.
    Whenever [waitBeaconClientSynced] returns [(true, nil)], with any
    timeout, or [RequireBeaconClientSynced] (timeout 16 s) or
    [WaitBeaconClientSynced] (no timeout) returns nil, the call has come
    to a loop head at which, not timed out, it has polled the client the
    getter gave, and that poll was answered with [Syncing = false] and no
    error; the call returns in the world that poll left. *)
Theorem beacon_synced_only_when_client_says_so
    (verbose : bool) (timeout : Z) (fuel : nat) (w w' : W) :
  (waitBeaconClientSynced verbose timeout fuel w = (Some (true, None), w') ->
   beaconEvidence timeout w w')
  /\ (services.RequireBeaconClientSynced GetBeaconClient fuel w = (Some None, w') ->
      beaconEvidence services.BeaconClientSyncTimeout w w')
  /\ (services.WaitBeaconClientSynced GetBeaconClient verbose fuel w = (Some None, w') ->
      beaconEvidence 0 w w').
Proof.
  split; [|split].
  - apply beacon_wait_success_evidence.
  - unfold services.RequireBeaconClientSynced, bind. fold waitBeaconClientSynced.
    destruct (waitBeaconClientSynced false services.BeaconClientSyncTimeout fuel w)
      as [[[[|] [e|]]|] w1] eqn:Hw; unfold ret; intros Hx; inversion Hx; subst.
    exact (beacon_wait_success_evidence _ _ _ _ _ Hw).
  - unfold services.WaitBeaconClientSynced, bind. fold waitBeaconClientSynced.
    destruct (waitBeaconClientSynced verbose 0 fuel w)
      as [[[[|] [e|]]|] w1] eqn:Hw; unfold ret; cbn [option_map snd];
      intros Hx; inversion Hx; subst.
    + exact (beacon_wait_success_evidence _ _ _ _ _ Hw).
    + destruct (beacon_wait_timed_out _ _ _ _ _ Hw) as [Ht _]. lia.
Qed.

(** X6: the execution wait reports success only on evidence. Whenever
    [waitEthClientSynced] returns [(true, nil)], with any timeout, or
    [RequireEthClientSynced] (timeout 16 s) or [WaitEthClientSynced] (no
    timeout) returns nil, then either the first status check, made on the
    manager the getter gave, has flagged the primary or the fallback
    ready; or the call has come to a loop head at which the status
    refresh has flagged one of them ready, or at which the client polled
    has returned no progress object, no error, and a latest block under
    five minutes old. In each case the call returns in the world that
    check or that clock reading left. *)
Theorem eth_synced_only_on_evidence
    (verbose : bool) (timeout : Z) (fuel : nat) (w w' : W) :
  (waitEthClientSynced verbose timeout fuel w = (Some (Return (true, None)), w') ->
   ethEvidence timeout w w')
  /\ (services.RequireEthClientSynced CheckStatus GetEthClient
        GetEthClientLatestBlockTimestamp secondsExceed fuel w
      = (Some (Return None), w') ->
      ethEvidence services.EthClientSyncTimeout w w')
  /\ (services.WaitEthClientSynced CheckStatus GetEthClient
        GetEthClientLatestBlockTimestamp secondsExceed verbose fuel w
      = (Some (Return None), w') ->
      ethEvidence 0 w w').
Proof.
  split; [|split].
  - apply eth_wait_success_evidence.
  - unfold services.RequireEthClientSynced, bind. fold waitEthClientSynced.
    destruct (waitEthClientSynced false services.EthClientSyncTimeout fuel w)
      as [[[[[|] [e|]]|msg]|] w1] eqn:Hw; unfold ret; intros Hx; inversion Hx; subst.
    exact (eth_wait_success_evidence _ _ _ _ _ Hw).
  - unfold services.WaitEthClientSynced, bind. fold waitEthClientSynced.
    destruct (waitEthClientSynced verbose 0 fuel w)
      as [[[[[|] [e|]]|msg]|] w1] eqn:Hw; unfold ret; intros Hx; inversion Hx; subst.
    + exact (eth_wait_success_evidence _ _ _ _ _ Hw).
    + destruct (eth_wait_timed_out _ _ _ _ _ Hw) as [Ht _]. lia.
Qed.

End SyncWait.

(** *** Timeouts *)

Section SyncWaitTimeouts.
Context {W BeaconBlock : Type} `{Runtime W}.
Variable CheckStatus :
  services.ExecutionClientManager W ->
  M W (services.ClientManagerStatus * services.ExecutionClientManager W).
Variable GetEthClient : M W (services.ExecutionClientManager W * error).
Variable GetBeaconClient : M W (beacon.Client W BeaconBlock * error).
Variable GetEthClientLatestBlockTimestamp : eth.ExecutionClient W -> M W (Z * error).

(** The execution wait with the comparison the code makes,
    [time.Since(startTime).Seconds() > float64(timeout)]. *)
Let waitEthClientSynced :=
  services.waitEthClientSynced CheckStatus GetEthClient
    GetEthClientLatestBlockTimestamp services.elapsedExceeds.
Let waitBeaconClientSynced := services.waitBeaconClientSynced GetBeaconClient.
Let ethAt :=
  ethWaitAt CheckStatus GetEthClient GetEthClientLatestBlockTimestamp
    services.elapsedExceeds.
Let beaconAt := beaconWaitAt GetBeaconClient.


End SyncWaitTimeouts.

(** ** More on the client status and the sync waits *)

Section SyncWaitMore.
Context {W BeaconBlock : Type} `{Runtime W}.
Variable CheckStatus :
  services.ExecutionClientManager W ->
  M W (services.ClientManagerStatus * services.ExecutionClientManager W).
Variable GetEthClient : M W (services.ExecutionClientManager W * error).
Variable GetBeaconClient : M W (beacon.Client W BeaconBlock * error).
Variable GetEthClientLatestBlockTimestamp : eth.ExecutionClient W -> M W (Z * error).
Variable secondsExceed : Duration -> Z -> bool.

Let checkExecutionClientStatus := services.checkExecutionClientStatus CheckStatus.
Let waitEthHead := services.waitEthHead CheckStatus secondsExceed.
Let waitEthStep :=
  services.waitEthStep CheckStatus GetEthClientLatestBlockTimestamp secondsExceed.
Let waitEthClientSynced :=
  services.waitEthClientSynced CheckStatus GetEthClient
    GetEthClientLatestBlockTimestamp secondsExceed.
Let waitBeaconStep := @services.waitBeaconStep W BeaconBlock _.
Let waitBeaconClientSynced := services.waitBeaconClientSynced GetBeaconClient.

(** A client is usable to wait on: it works and reports no error. *)
Let usable (status : services.ClientStatus) : bool :=
  services.IsWorking status && (services.Error status =? EmptyString)%string.

(** X1: the decision of [checkExecutionClientStatus], from the report and
    the flags [CheckStatus] leaves. Ready exactly when the primary or the
    fallback is flagged ready, then with no client and no error.
    Otherwise it names the client to wait on: the primary when it is
    usable, whatever the fallback does; else the fallback when it is
    enabled and usable. Otherwise it fails, and only then. *)
Theorem status_check_decides
    (ecMgr ecMgr' : services.ExecutionClientManager W)
    (mgrStatus : services.ClientManagerStatus) (w w1 : W) :
  CheckStatus ecMgr w = ((mgrStatus, ecMgr'), w1) ->
  exists ready client err,
    checkExecutionClientStatus ecMgr w = ((ecMgr', (ready, client, err)), w1)
    /\ ready = (services.primaryReady ecMgr' || services.fallbackReady ecMgr')
    /\ (ready = true -> client = None /\ err = None)
    /\ (ready = false -> usable (services.PrimaryEcStatus mgrStatus) = true ->
        client = services.primaryEc ecMgr' /\ err = None)
    /\ (ready = false -> usable (services.PrimaryEcStatus mgrStatus) = false ->
        (services.FallbackEnabled mgrStatus
         && usable (services.FallbackEcStatus mgrStatus)) = true ->
        client = services.fallbackEc ecMgr' /\ err = None)
    /\ (err <> None <->
        ready = false
        /\ usable (services.PrimaryEcStatus mgrStatus) = false
        /\ (services.FallbackEnabled mgrStatus
            && usable (services.FallbackEcStatus mgrStatus)) = false).
Proof.
  intros Hc.
  unfold checkExecutionClientStatus, services.checkExecutionClientStatus, bind, usable.
  rewrite Hc.
  destruct (services.primaryReady ecMgr'); cbn [orb].
  { eexists; eexists; eexists. split; [reflexivity|].
    repeat split; try discriminate; try tauto.
    intros (Hf & _); discriminate. }
  destruct (services.fallbackReady ecMgr'); cbn [orb].
  { eexists; eexists; eexists. split; [reflexivity|].
    repeat split; try discriminate; try tauto.
    intros (Hf & _); discriminate. }
  destruct (services.IsWorking (services.PrimaryEcStatus mgrStatus)
            && (services.Error (services.PrimaryEcStatus mgrStatus) =? EmptyString)%string)
    eqn:Hp.
  { eexists; eexists; eexists. split; [reflexivity|].
    repeat split; try discriminate; try tauto.
    intros (_ & Hf & _); discriminate. }
  rewrite <- andb_assoc.
  destruct (services.FallbackEnabled mgrStatus) eqn:Hen; cbn [andb].
  - destruct (services.IsWorking (services.FallbackEcStatus mgrStatus)
              && (services.Error (services.FallbackEcStatus mgrStatus) =? EmptyString)%string)
      eqn:Hf.
    + eexists; eexists; eexists. split; [reflexivity|].
      repeat split; try discriminate; try tauto.
      intros (_ & _ & Hx); discriminate.
    + eexists; eexists; eexists. split; [reflexivity|].
      repeat split; try discriminate; try tauto.
  - eexists; eexists; eexists. split; [reflexivity|].
    repeat split; try discriminate; try tauto.
Qed.

(** X2: when the first status check of [waitEthClientSynced] finds a
    client ready, the wait returns [(true, nil)] at once, whatever the
    timeout and the fuel: the world is left as the status check left it,
    so the clock is not read, no client is polled and nothing sleeps. *)
Theorem ready_client_ends_wait_at_once
    (verbose : bool) (timeout : Z) (fuel : nat)
    (ecMgr ecMgr' : services.ExecutionClientManager W)
    (mgrStatus : services.ClientManagerStatus) (w w1 w2 : W) :
  GetEthClient w = ((ecMgr, None), w1) ->
  CheckStatus ecMgr w1 = ((mgrStatus, ecMgr'), w2) ->
  (services.primaryReady ecMgr' || services.fallbackReady ecMgr') = true ->
  waitEthClientSynced verbose timeout fuel w = (Some (Return (true, None)), w2).
Proof.
  intros Hg Hc Hr.
  unfold waitEthClientSynced, services.waitEthClientSynced, bind. rewrite Hg.
  unfold services.checkExecutionClientStatus, bind. rewrite Hc.
  destruct (services.primaryReady ecMgr'); [reflexivity|].
  cbn [orb] in Hr. rewrite Hr. reflexivity.
Qed.

(** X3: the status refresh inside the wait loop. At a loop head that is
    not timed out, when more than [ethClientStatusRefreshInterval] (60 s)
    has passed since the last refresh, the status is checked again, and a
    client found ready ends the wait with [(true, nil)] without a poll of
    the client waited on; a client found to wait on replaces the one
    polled and restarts the interval. When 60 s or less has passed, the
    head makes no status check and keeps its variables. *)
Theorem status_refresh_after_interval
    (fuel : nat) (timeout : Z) (startTime now1 : Time) (st : services.ethWait)
    (w w1 w2 : W) :
  services.ethTimedOut secondsExceed timeout startTime w = (false, w1) ->
  time_Now w1 = (now1, w2) ->
  (services.ethClientStatusRefreshInterval < Time_Sub now1 (services.ecRefreshTime st) ->
   forall now2 w3 ecMgr' client w4,
     time_Now w2 = (now2, w3) ->
     (checkExecutionClientStatus (services.ecMgr st) w3
      = ((ecMgr', (true, client, None)), w4) ->
      loop (waitEthStep timeout startTime) (Datatypes.S fuel) st w
      = (Some (Return (true, None)), w4))
     /\ (checkExecutionClientStatus (services.ecMgr st) w3
         = ((ecMgr', (false, client, None)), w4) ->
         waitEthHead timeout startTime st w
         = (Continue {| services.ecMgr := ecMgr';
                        services.clientToCheck := client;
                        services.ecRefreshTime := now2 |}, w4)))
  /\ (Time_Sub now1 (services.ecRefreshTime st) <= services.ethClientStatusRefreshInterval ->
      waitEthHead timeout startTime st w = (Continue st, w2)).
Proof.
  intros Ht Hn. split.
  - intros Hstale now2 w3 ecMgr' client w4 Hn2.
    assert (Hlt : (services.ethClientStatusRefreshInterval
                   <? Time_Sub now1 (services.ecRefreshTime st)) = true)
      by (apply Z.ltb_lt; exact Hstale).
    split; intros Hcheck.
    + apply loop_break.
      unfold waitEthStep, services.waitEthStep, services.waitEthHead, time_Since, bind.
      rewrite Ht, Hn. unfold ret. rewrite Hlt, Hn2.
      unfold checkExecutionClientStatus in Hcheck. rewrite Hcheck. reflexivity.
    + unfold waitEthHead, services.waitEthHead, time_Since, bind.
      rewrite Ht, Hn. unfold ret. rewrite Hlt, Hn2.
      unfold checkExecutionClientStatus in Hcheck. rewrite Hcheck. reflexivity.
  - intros Hfresh.
    assert (Hlt : (services.ethClientStatusRefreshInterval
                   <? Time_Sub now1 (services.ecRefreshTime st)) = false)
      by (apply Z.ltb_ge; exact Hfresh).
    unfold waitEthHead, services.waitEthHead, time_Since, bind.
    rewrite Ht, Hn. unfold ret. rewrite Hlt. reflexivity.
Qed.

(** X4: while the client polled returns a sync-progress object, the
    recency test is not made: the pass sleeps for the poll interval and
    continues, and what the latest block's timestamp is, or whether it
    can be fetched, has no influence. *)
Theorem progress_object_skips_recency_test
    (fetch fetch' : eth.ExecutionClient W -> M W (Z * error))
    (st : services.ethWait) (c : eth.ExecutionClient W)
    (progress : eth.ethereum_SyncProgress) (w w1 : W) :
  services.clientToCheck st = Some c ->
  eth.SyncProgress c w = ((Some progress, None), w1) ->
  services.pollEthClient fetch st w
  = (Continue st, snd (time_Sleep services.ethClientSyncPollInterval w1))
  /\ services.pollEthClient fetch' st w = services.pollEthClient fetch st w.
Proof.
  intros Hc Hp. unfold services.pollEthClient, bind. rewrite Hc, Hp.
  destruct (time_Sleep services.ethClientSyncPollInterval w1) as [u w2].
  split; reflexivity.
Qed.

End SyncWaitMore.

(** ** More on the backward walk and the state getters *)

Lemma slotBelow_0 (s : Z) : 0 <= s < 2 ^ 64 -> slotBelow s 0 = s.
Proof.
  intros Hs. unfold slotBelow. rewrite Z.sub_0_r. apply to_uint64_small. exact Hs.
Qed.

Lemma slotBelow_S (s : Z) (k : nat) :
  slotBelow (uint64_sub s 1) k = slotBelow s (Datatypes.S k).
Proof.
  unfold slotBelow, uint64_sub, to_uint64.
  rewrite Zminus_mod_idemp_l. f_equal. lia.
Qed.

Lemma finalizedSlot_last_of_epoch (cfg : beacon.Eth2Config) (head : beacon.BeaconHead) :
  0 < beacon.SlotsPerEpoch cfg -> 0 <= beacon.FinalizedEpoch head ->
  (beacon.FinalizedEpoch head + 1) * beacon.SlotsPerEpoch cfg <= 2 ^ 64 ->
  finalizedSlot cfg head
  = (beacon.FinalizedEpoch head + 1) * beacon.SlotsPerEpoch cfg - 1.
Proof.
  intros Hspe He Hmax. unfold finalizedSlot, uint64_add, uint64_mul, uint64_sub.
  rewrite (to_uint64_small (beacon.FinalizedEpoch head * beacon.SlotsPerEpoch cfg)) by nia.
  rewrite (to_uint64_small (beacon.SlotsPerEpoch cfg - 1)) by nia.
  rewrite to_uint64_small by nia. ring.
Qed.

Section WalkMore.
Context {W BeaconBlock NetworkState Address : Type}.
Variable zeroBlock : BeaconBlock.
Variable negativeSeconds : Duration -> Z.
Variable CreateNetworkState :
  eth.ExecutionClient W -> beacon.Client W BeaconBlock -> Z -> beacon.Eth2Config ->
  M W (option NetworkState * error).
Variable CreateNetworkStateForNode :
  eth.ExecutionClient W -> beacon.Client W BeaconBlock -> Z -> beacon.Eth2Config ->
  Address -> bool -> M W (option NetworkState * option Z * error).

Let daemon := @DaemonState.NetworkStateManager W BeaconBlock.
Let legacy := @LegacyState.NetworkStateManager W BeaconBlock NetworkState.

(** What one probe of the daemon's walk does, read off the client's
    answer for the slot. *)
Lemma daemon_probe_answer (m : daemon)
    (answer : string -> BeaconBlock * bool * error) (slot : Z) (w : W) :
  answersBy (DaemonState.bc m) answer ->
  fst (DaemonState.probeSlot zeroBlock m slot w)
  = let '(block, exists_, err) := answer (fmt_Sprint slot) in
    match err with
    | Some e =>
        Break (zeroBlock,
               fmt_Errorf ("error getting Beacon block " ++ fmt_Sprint slot ++ ": ") e)
    | None => if exists_ then Break (block, None) else Continue (uint64_sub slot 1)
    end.
Proof.
  intros Ha. unfold DaemonState.probeSlot, bind.
  specialize (Ha (fmt_Sprint slot) w).
  destruct (beacon.GetBeaconBlock (DaemonState.bc m) (fmt_Sprint slot) w)
    as [[[blk ex] err] w1].
  cbn [fst] in Ha. rewrite <- Ha.
  destruct err as [e|]; [reflexivity|]. destruct ex; reflexivity.
Qed.

(** X7: the daemon's walk is sound. Against a beacon client that answers
    block requests by [answer], whatever [GetLatestProposedBeaconBlock]
    returns, with whatever fuel, comes from the first slot counting down
    from the target (wrapping below zero) that is not answered as
    missing: either that slot's block with a nil error, or the zero block
    with that probe's error wrapped under the slot's number. *)
Theorem walk_answer_comes_from_first_slot_not_missing
    (m : daemon) (answer : string -> BeaconBlock * bool * error)
    (fuel : nat) (s : Z) (w w' : W) (b : BeaconBlock) (err : error) :
  answersBy (DaemonState.bc m) answer ->
  0 <= s < 2 ^ 64 ->
  DaemonState.GetLatestProposedBeaconBlock zeroBlock m fuel s w = (Some (b, err), w') ->
  exists k : nat,
    (k < fuel)%nat
    /\ (forall j, (j < k)%nat ->
          exists b', answer (fmt_Sprint (slotBelow s j)) = (b', false, None))
    /\ ((err = None /\ answer (fmt_Sprint (slotBelow s k)) = (b, true, None))
        \/ (exists b' ex e,
              answer (fmt_Sprint (slotBelow s k)) = (b', ex, Some e)
              /\ b = zeroBlock
              /\ err = fmt_Errorf ("error getting Beacon block "
                                   ++ fmt_Sprint (slotBelow s k) ++ ": ") e)).
Proof.
  intros Ha. unfold DaemonState.GetLatestProposedBeaconBlock.
  revert s w. induction fuel as [|n IH]; intros s w Hs Hl; [discriminate Hl|].
  pose proof (daemon_probe_answer m answer s w Ha) as Hp.
  destruct (DaemonState.probeSlot zeroBlock m s w) as [[s1|a] w1] eqn:Hprobe;
    cbn [fst] in Hp.
  - rewrite (loop_continue _ _ _ _ _ _ Hprobe) in Hl.
    destruct (answer (fmt_Sprint s)) as [[b0 ex] [e|]] eqn:Hans; [discriminate Hp|].
    destruct ex; [discriminate Hp|]. inversion Hp; subst s1.
    destruct (IH _ _ (uint64_sub_range s 1) Hl) as (k & Hk & Hbefore & Hat).
    exists (Datatypes.S k). split; [lia|]. split.
    + intros [|j] Hj.
      * rewrite slotBelow_0 by exact Hs. exists b0. exact Hans.
      * rewrite <- slotBelow_S. apply Hbefore. lia.
    + rewrite <- slotBelow_S. exact Hat.
  - rewrite (loop_break _ _ _ _ _ _ Hprobe) in Hl. inversion Hl; subst a w1.
    exists 0%nat. split; [lia|]. split; [intros j Hj; lia|].
    rewrite slotBelow_0 by exact Hs.
    destruct (answer (fmt_Sprint s)) as [[b0 ex] [e|]] eqn:Hans.
    + right. inversion Hp; subst. exists b0, ex, e. auto.
    + destruct ex; [|discriminate Hp]. inversion Hp; subst. left. auto.
Qed.

(** What one probe of [UpdateStateToFinalized] does. *)
Lemma legacy_probe_answer (l : legacy)
    (answer : string -> BeaconBlock * bool * error) (slot : Z) (w : W) :
  answersBy (LegacyState.bc l) answer ->
  let '(_, exists_, err) := answer (fmt_Sprint slot) in
  match err with
  | Some e =>
      fst (LegacyState.probeSlot CreateNetworkState l slot w)
      = Break (l, (None,
                   fmt_Errorf ("error getting Beacon block " ++ fmt_Sprint slot ++ ": ") e))
  | None =>
      if exists_
      then exists w1,
             LegacyState.probeSlot CreateNetworkState l slot w
             = bind (LegacyState.updateState CreateNetworkState l slot)
                    (fun r => ret (Break r)) w1
      else fst (LegacyState.probeSlot CreateNetworkState l slot w)
           = Continue (uint64_sub slot 1)
  end.
Proof.
  intros Ha. specialize (Ha (fmt_Sprint slot) w).
  destruct (answer (fmt_Sprint slot)) as [[b0 ex] [e|]]; [|destruct ex].
  - unfold LegacyState.probeSlot, bind.
    destruct (beacon.GetBeaconBlock (LegacyState.bc l) (fmt_Sprint slot) w)
      as [[[blk ex'] err] w1].
    cbn [fst] in Ha. inversion Ha; subst. reflexivity.
  - unfold LegacyState.probeSlot. unfold bind at 1.
    destruct (beacon.GetBeaconBlock (LegacyState.bc l) (fmt_Sprint slot) w)
      as [[[blk ex'] err] w1].
    cbn [fst] in Ha. inversion Ha; subst. exists w1. reflexivity.
  - unfold LegacyState.probeSlot, bind.
    destruct (beacon.GetBeaconBlock (LegacyState.bc l) (fmt_Sprint slot) w)
      as [[[blk ex'] err] w1].
    cbn [fst] in Ha. inversion Ha; subst. reflexivity.
Qed.

(** X8: [UpdateStateToFinalized] is sound. With a beacon head that names
    the finalized epoch, and a client that answers block requests by
    [answer], whatever the function returns comes from the first slot
    counting down from the last slot of that epoch that is not answered
    as missing: it is the result of one [updateState] at that slot, or,
    when the probe of that slot failed, a nil state with the probe's
    error, and then the manager is left as it was. *)
Theorem finalized_build_is_at_first_slot_not_missing
    (l l' : legacy) (answer : string -> BeaconBlock * bool * error)
    (head : beacon.BeaconHead) (fuel : nat) (w w0 w' : W)
    (state : option NetworkState) (err : error) :
  answersBy (LegacyState.bc l) answer ->
  beacon.GetBeaconHead (LegacyState.bc l) w = ((head, None), w0) ->
  LegacyState.UpdateStateToFinalized CreateNetworkState l fuel w
  = (Some (l', (state, err)), w') ->
  let s := finalizedSlot (LegacyState.BeaconConfig l) head in
  exists k : nat,
    (k < fuel)%nat
    /\ (forall j, (j < k)%nat ->
          exists b', answer (fmt_Sprint (slotBelow s j)) = (b', false, None))
    /\ ((exists b w1,
           answer (fmt_Sprint (slotBelow s k)) = (b, true, None)
           /\ LegacyState.updateState CreateNetworkState l (slotBelow s k) w1
              = ((l', (state, err)), w'))
        \/ (exists b' ex e,
              answer (fmt_Sprint (slotBelow s k)) = (b', ex, Some e)
              /\ l' = l /\ state = None
              /\ err = fmt_Errorf ("error getting Beacon block "
                                   ++ fmt_Sprint (slotBelow s k) ++ ": ") e)).
Proof.
  intros Ha Hhead. unfold LegacyState.UpdateStateToFinalized, bind at 1.
  rewrite Hhead. cbv zeta. fold (finalizedSlot (LegacyState.BeaconConfig l) head).
  pose proof (finalizedSlot_range (LegacyState.BeaconConfig l) head) as Hs.
  clear Hhead.
  generalize dependent (finalizedSlot (LegacyState.BeaconConfig l) head).
  intros s. revert s w0.
  induction fuel as [|n IH]; intros s w0 Hs Hl; [discriminate Hl|].
  pose proof (legacy_probe_answer l answer s w0 Ha) as Hp.
  destruct (answer (fmt_Sprint s)) as [[b0 ex] [e|]] eqn:Hans.
  - destruct (LegacyState.probeSlot CreateNetworkState l s w0) as [r w1] eqn:Hprobe.
    cbn [fst] in Hp. subst r.
    rewrite (loop_break _ _ _ _ _ _ Hprobe) in Hl. inversion Hl; subst.
    exists 0%nat. split; [lia|]. split; [intros j Hj; lia|].
    rewrite slotBelow_0 by exact Hs. right. exists b0, ex, e. auto.
  - destruct ex.
    + destruct Hp as [w1 Hprobe].
      exists 0%nat. split; [lia|]. split; [intros j Hj; lia|].
      rewrite slotBelow_0 by exact Hs. left. exists b0, w1. split; [exact Hans|].
      cbn [loop] in Hl. unfold bind at 1 in Hl. rewrite Hprobe in Hl.
      unfold bind in Hl.
      destruct (LegacyState.updateState CreateNetworkState l s w1) as [r w2].
      cbn in Hl. inversion Hl; subst. reflexivity.
    + destruct (LegacyState.probeSlot CreateNetworkState l s w0) as [r w1] eqn:Hprobe.
      cbn [fst] in Hp. subst r.
      rewrite (loop_continue _ _ _ _ _ _ Hprobe) in Hl.
      destruct (IH _ _ (uint64_sub_range s 1) Hl) as (k & Hk & Hbefore & Hat).
      exists (Datatypes.S k). split; [lia|]. split.
      * intros [|j] Hj.
        -- rewrite slotBelow_0 by exact Hs. exists b0. exact Hans.
        -- rewrite <- slotBelow_S. apply Hbefore. lia.
      * rewrite <- slotBelow_S. exact Hat.
Qed.

(** X9: the walk has no floor at slot zero. When every slot from the
    target [s] down to 0 is missing, the counter wraps and the walk goes
    on at slot [2^64 - 1]; if that slot has a block, the walk returns it,
    after [s + 2] probes. *)
Theorem walk_wraps_below_slot_zero
    (m : daemon) (s : Z) (b : BeaconBlock) (w : W) :
  0 <= s < 2 ^ 64 ->
  (forall k, 0 <= k <= s -> isMissing (DaemonState.bc m) k) ->
  hasBlock (DaemonState.bc m) (2 ^ 64 - 1) b ->
  exists w',
    DaemonState.GetLatestProposedBeaconBlock zeroBlock m (Z.to_nat (s + 2)) s w
    = (Some (b, None), w').
Proof.
  intros Hs Hmiss Hb. unfold DaemonState.GetLatestProposedBeaconBlock.
  replace (Z.to_nat (s + 2)) with (Datatypes.S (Datatypes.S (Z.to_nat s))) by lia.
  remember (Z.to_nat s) as n eqn:Hn.
  assert (Hsn : s = Z.of_nat n) by lia. clear Hn.
  revert s w Hs Hmiss Hsn. induction n as [|n IH]; intros s w Hs Hmiss Hsn.
  - assert (s = 0) by lia. subst s.
    destruct (daemon_probe_missing zeroBlock (DaemonState.bc m) m 0 w eq_refl
                (Hmiss 0 ltac:(lia))) as [w1 Hp].
    rewrite (loop_continue _ _ _ _ _ _ Hp).
    change (uint64_sub 0 1) with (2 ^ 64 - 1).
    destruct (daemon_probe_found zeroBlock (DaemonState.bc m) m (2 ^ 64 - 1) b w1
                eq_refl Hb) as [w2 Hf].
    exists w2. apply loop_break. exact Hf.
  - destruct (daemon_probe_missing zeroBlock (DaemonState.bc m) m s w eq_refl
                (Hmiss s ltac:(lia))) as [w1 Hp].
    rewrite (loop_continue _ _ _ _ _ _ Hp).
    rewrite uint64_sub_1 by lia.
    apply IH; [lia | intros k Hk; apply Hmiss; lia | lia].
Qed.

(** X10: [GetLatestFinalizedBeaconBlock] returns the latest proposed block
    at or below the last slot of the finalized epoch. With finalized
    epoch [e] and [spe] slots per epoch (positive, the product within
    uint64) the walk starts at slot [(e + 1) * spe - 1]; when slot [r] at
    or below it has a block and the slots between are missing, the block
    of [r] is returned with a nil error. *)
Theorem latest_finalized_block_is_last_proposed_of_epoch
    (m : daemon) (head : beacon.BeaconHead) (r : Z) (b : BeaconBlock) (w w0 : W) :
  beacon.GetBeaconHead (DaemonState.bc m) w = ((head, None), w0) ->
  0 < beacon.SlotsPerEpoch (DaemonState.BeaconConfig m) ->
  0 <= beacon.FinalizedEpoch head ->
  (beacon.FinalizedEpoch head + 1) * beacon.SlotsPerEpoch (DaemonState.BeaconConfig m)
  <= 2 ^ 64 ->
  let s := (beacon.FinalizedEpoch head + 1)
           * beacon.SlotsPerEpoch (DaemonState.BeaconConfig m) - 1 in
  0 <= r <= s ->
  hasBlock (DaemonState.bc m) r b ->
  (forall k, r < k <= s -> isMissing (DaemonState.bc m) k) ->
  exists w',
    DaemonState.GetLatestFinalizedBeaconBlock zeroBlock m (Z.to_nat (s - r + 1)) w
    = (Some (b, None), w').
Proof.
  intros Hhead Hspe He Hmax s Hr Hb Hmiss.
  unfold DaemonState.GetLatestFinalizedBeaconBlock, bind. rewrite Hhead. cbv zeta.
  fold (finalizedSlot (DaemonState.BeaconConfig m) head).
  rewrite (finalizedSlot_last_of_epoch _ _ Hspe He Hmax). fold s.
  replace (Z.to_nat (s - r + 1)) with (Datatypes.S (Z.to_nat (s - r))) by lia.
  apply (daemon_walk_down zeroBlock (DaemonState.bc m) m r b eq_refl);
    [lia | exact Hb | unfold s; lia | lia | exact Hmiss].
Qed.

(** X11: [GetLatestBeaconBlock] end to end. For a latest execution header
    of time [t], at or after genesis and within the range of a
    [Duration], the head slot is [s = floor ((t - genesis) /
    secondsPerSlot)]; when slot [r <= s] has a block and the slots
    between are missing, the function returns the block of [r] with a
    nil error and does not panic. *)
Theorem latest_beacon_block_is_last_proposed_at_head
    (m : daemon) (hdr : eth.Header) (r : Z) (b : BeaconBlock) (w w1 : W) :
  eth.HeaderByNumber (DaemonState.ec m) w = ((hdr, None), w1) ->
  representable (eth.Time hdr) ->
  representable (beacon.GenesisTime (DaemonState.BeaconConfig m)) ->
  beacon.GenesisTime (DaemonState.BeaconConfig m) <= eth.Time hdr ->
  eth.Time hdr - beacon.GenesisTime (DaemonState.BeaconConfig m) <= 9223372036 ->
  0 < beacon.SecondsPerSlot (DaemonState.BeaconConfig m) ->
  let s := (eth.Time hdr - beacon.GenesisTime (DaemonState.BeaconConfig m))
           / beacon.SecondsPerSlot (DaemonState.BeaconConfig m) in
  0 <= r <= s ->
  hasBlock (DaemonState.bc m) r b ->
  (forall k, r < k <= s -> isMissing (DaemonState.bc m) k) ->
  exists w',
    DaemonState.GetLatestBeaconBlock zeroBlock negativeSeconds m (Z.to_nat (s - r + 1)) w
    = (Some (Return (b, None)), w').
Proof.
  intros Hhdr Ht Hg Hle Hmax Hsps s Hr Hb Hmiss.
  pose proof (slotOfHeader_floor negativeSeconds _ hdr Ht Hg Hle Hmax Hsps) as Hslot.
  fold s in Hslot.
  assert (Hs : s < 2 ^ 64).
  { unfold s. apply Z.le_lt_trans with (eth.Time hdr
                 - beacon.GenesisTime (DaemonState.BeaconConfig m)); [|lia].
    apply Z.div_le_upper_bound; [exact Hsps|]. nia. }
  unfold DaemonState.GetLatestBeaconBlock, DaemonState.GetHeadSlot, bind.
  rewrite Hhdr, Hslot. unfold ret at 1.
  replace (Z.to_nat (s - r + 1)) with (Datatypes.S (Z.to_nat (s - r))) by lia.
  destruct (daemon_walk_down zeroBlock (DaemonState.bc m) m r b eq_refl
              ltac:(lia) Hb (Z.to_nat (s - r)) s w1 Hs ltac:(lia) Hmiss) as [w' Hw].
  exists w'. rewrite Hw. reflexivity.
Qed.

Lemma updateState_error (l l' : legacy) (slot : Z) (w w' : W)
    (state : option NetworkState) (e : string) :
  LegacyState.updateState CreateNetworkState l slot w = ((l', (state, Some e)), w') ->
  state = None /\ l' = l.
Proof.
  unfold LegacyState.updateState, bind.
  destruct (CreateNetworkState _ _ _ _ w) as [[st [e0|]] w1]; unfold ret;
    intros Hx; inversion Hx; subst; auto.
Qed.

Lemma legacy_probe_error (l : legacy) (slot : Z) (w w' : W)
    (a : legacy * (option NetworkState * error)) :
  LegacyState.probeSlot CreateNetworkState l slot w = (Break a, w') ->
  forall e, snd (snd a) = Some e -> fst (snd a) = None /\ fst a = l.
Proof.
  unfold LegacyState.probeSlot, bind.
  destruct (beacon.GetBeaconBlock (LegacyState.bc l) (fmt_Sprint slot) w)
    as [[[blk ex] [e0|]] w1]; unfold ret.
  - intros Hx; inversion Hx; subst. cbn. auto.
  - destruct ex; cbn [negb]; [|intros Hx; inversion Hx].
    destruct (LegacyState.updateState CreateNetworkState l slot w1)
      as [[l1 [st1 e1]] w2] eqn:Hu.
    intros Hx; inversion Hx; subst. cbn. intros e He. subst e1.
    exact (updateState_error _ _ _ _ _ _ _ Hu).
Qed.

Lemma getState_error (m : daemon) (slot : Z) (w w' : W)
    (state : option NetworkState) (e : string) :
  DaemonState.getState CreateNetworkState m slot w = ((state, Some e), w') ->
  state = None.
Proof.
  unfold DaemonState.getState, bind.
  destruct (CreateNetworkState _ _ _ _ w) as [[st [e0|]] w2]; unfold ret;
    intros Hx; inversion Hx; reflexivity.
Qed.

Lemma getStateForNode_error (m : daemon) (node : Address) (slot : Z) (total : bool)
    (w w' : W) (state : option NetworkState) (stake : option Z) (e : string) :
  DaemonState.getStateForNode CreateNetworkStateForNode m node slot total w
  = ((state, stake, Some e), w') ->
  state = None /\ stake = None.
Proof.
  unfold DaemonState.getStateForNode, bind.
  destruct (CreateNetworkStateForNode _ _ _ _ _ _ w) as [[[st sk] [e0|]] w2]; unfold ret;
    intros Hx; inversion Hx; auto.
Qed.

(** X12: no getter returns a state together with an error. Whenever
    [GetHeadState], [GetStateForSlot] or [GetHeadStateForNode] returns a
    non-nil error the state (and the stake) returned is nil, whatever the
    builder returned beside its error; and whenever a build of the
    publishing manager ([UpdateStateToSlot], [UpdateStateToHead],
    [UpdateStateToFinalized]) returns a non-nil error, the state returned
    is nil and the manager, with its latest state, is left as it was. *)
Theorem failed_build_returns_no_state :
  (forall (m : daemon) (w w' : W) (state : option NetworkState) (e : string),
      DaemonState.GetHeadState negativeSeconds CreateNetworkState m w
      = (Return (state, Some e), w') -> state = None)
  /\ (forall (m : daemon) (slot : Z) (w w' : W) (state : option NetworkState) (e : string),
        DaemonState.GetStateForSlot CreateNetworkState m slot w
        = ((state, Some e), w') -> state = None)
  /\ (forall (m : daemon) (node : Address) (total : bool) (w w' : W)
             (state : option NetworkState) (stake : option Z) (e : string),
        DaemonState.GetHeadStateForNode negativeSeconds CreateNetworkStateForNode
          m node total w
        = (Return (state, stake, Some e), w') -> state = None /\ stake = None)
  /\ (forall (b : build) (l l' : legacy) (w w' : W)
             (state : option NetworkState) (e : string),
        runBuild negativeSeconds CreateNetworkState b l w
        = ((l', Some (Return (state, Some e))), w') -> state = None /\ l' = l).
Proof.
  split; [|split; [|split]].
  - intros m w w' state e.
    unfold DaemonState.GetHeadState, DaemonState.GetHeadSlot, bind.
    destruct (eth.HeaderByNumber (DaemonState.ec m) w) as [[hdr [e0|]] w1]; unfold ret.
    + intros Hx; inversion Hx; reflexivity.
    + destruct (slotOfHeader _ _ _) as [slot|]; [|intros Hx; inversion Hx].
      destruct (DaemonState.getState CreateNetworkState m slot w1)
        as [[st1 e1] w2] eqn:Hg.
      intros Hx; inversion Hx; subst. exact (getState_error _ _ _ _ _ _ Hg).
  - intros m slot w w' state e. unfold DaemonState.GetStateForSlot.
    apply getState_error.
  - intros m node total w w' state stake e.
    unfold DaemonState.GetHeadStateForNode, DaemonState.GetHeadSlot, bind.
    destruct (eth.HeaderByNumber (DaemonState.ec m) w) as [[hdr [e0|]] w1]; unfold ret.
    + intros Hx; inversion Hx; auto.
    + destruct (slotOfHeader _ _ _) as [slot|]; [|intros Hx; inversion Hx].
      destruct (DaemonState.getStateForNode CreateNetworkStateForNode m node slot total w1)
        as [[[st1 sk1] e1] w2] eqn:Hg.
      intros Hx; inversion Hx; subst. exact (getStateForNode_error _ _ _ _ _ _ _ _ _ Hg).
  - intros b l l' w w' state e.
    destruct b as [slot| |fuel]; cbn [runBuild]; unfold bind at 1.
    + unfold LegacyState.UpdateStateToSlot.
      destruct (LegacyState.updateState CreateNetworkState l slot w)
        as [[l1 [st1 e1]] w1] eqn:Hu. unfold ret. intros Hx; inversion Hx; subst.
      exact (updateState_error _ _ _ _ _ _ _ Hu).
    + unfold LegacyState.UpdateStateToHead, bind.
      destruct (eth.HeaderByNumber (LegacyState.ec l) w) as [[hdr [e0|]] w1]; unfold ret.
      * intros Hx; inversion Hx; auto.
      * destruct (slotOfHeader _ _ _) as [slot|]; [|intros Hx; inversion Hx].
        destruct (LegacyState.updateState CreateNetworkState l slot w1)
          as [[l1 [st1 e1]] w2] eqn:Hu. intros Hx; inversion Hx; subst.
        exact (updateState_error _ _ _ _ _ _ _ Hu).
    + unfold LegacyState.UpdateStateToFinalized, bind.
      destruct (beacon.GetBeaconHead (LegacyState.bc l) w) as [[head [e0|]] w1];
        unfold ret.
      * intros Hx; inversion Hx; auto.
      * cbv zeta.
        destruct (loop (LegacyState.probeSlot CreateNetworkState l) fuel _ w1)
          as [[[l1 [st1 e1]]|] w2] eqn:Hl; intros Hx; inversion Hx; subst.
        exact (loop_result_inv (LegacyState.probeSlot CreateNetworkState l)
                 (fun a => forall e, snd (snd a) = Some e -> fst (snd a) = None /\ fst a = l)
                 (fun s0 w0 a0 w0' => legacy_probe_error l s0 w0 w0' a0)
                 _ _ _ _ _ Hl e eq_refl).
Qed.

(** X13: [GetHeadState] builds at the head slot. For a latest execution
    header of time [t], at or after genesis and within the range of a
    [Duration], a state the builder returns without error for slot
    [floor ((t - genesis) / secondsPerSlot)] is what [GetHeadState]
    returns, with a nil error; [GetHeadStateForNode] returns the node's
    state and the stake built for that same slot. *)
Theorem head_state_is_built_at_head_slot
    (m : daemon) (hdr : eth.Header) (node : Address) (total : bool)
    (state nodeState : option NetworkState) (stake : option Z) (w w1 w2 w3 : W) :
  eth.HeaderByNumber (DaemonState.ec m) w = ((hdr, None), w1) ->
  representable (eth.Time hdr) ->
  representable (beacon.GenesisTime (DaemonState.BeaconConfig m)) ->
  beacon.GenesisTime (DaemonState.BeaconConfig m) <= eth.Time hdr ->
  eth.Time hdr - beacon.GenesisTime (DaemonState.BeaconConfig m) <= 9223372036 ->
  0 < beacon.SecondsPerSlot (DaemonState.BeaconConfig m) ->
  let s := (eth.Time hdr - beacon.GenesisTime (DaemonState.BeaconConfig m))
           / beacon.SecondsPerSlot (DaemonState.BeaconConfig m) in
  CreateNetworkState (DaemonState.ec m) (DaemonState.bc m) s
    (DaemonState.BeaconConfig m) w1 = ((state, None), w2) ->
  CreateNetworkStateForNode (DaemonState.ec m) (DaemonState.bc m) s
    (DaemonState.BeaconConfig m) node total w1 = ((nodeState, stake, None), w3) ->
  DaemonState.GetHeadState negativeSeconds CreateNetworkState m w
  = (Return (state, None), w2)
  /\ DaemonState.GetHeadStateForNode negativeSeconds CreateNetworkStateForNode
       m node total w
     = (Return (nodeState, stake, None), w3).
Proof.
  intros Hhdr Ht Hg Hle Hmax Hsps s Hbuild Hnode.
  pose proof (slotOfHeader_floor negativeSeconds _ hdr Ht Hg Hle Hmax Hsps) as Hslot.
  fold s in Hslot. split.
  - unfold DaemonState.GetHeadState, DaemonState.GetHeadSlot, DaemonState.getState, bind.
    rewrite Hhdr, Hslot. unfold ret at 1. rewrite Hbuild. reflexivity.
  - unfold DaemonState.GetHeadStateForNode, DaemonState.GetHeadSlot,
      DaemonState.getStateForNode, bind.
    rewrite Hhdr, Hslot. unfold ret at 1. rewrite Hnode. reflexivity.
Qed.

End WalkMore.

(** ** The requirements on the node's own services *)

Section RequirementChain.
Context {W : Type} `{Runtime W} {common_Address RocketPool : Type}.
Variable CheckStatus :
  services.ExecutionClientManager W ->
  M W (services.ClientManagerStatus * services.ExecutionClientManager W).
Variable GetEthClient : M W (services.ExecutionClientManager W * error).
Variable GetEthClientLatestBlockTimestamp : eth.ExecutionClient W -> M W (Z * error).
Variable secondsExceed : Duration -> Z -> bool.
Variable GetPasswordManager : M W (@services.PasswordManager W * error).
Variable GetWallet : M W (@services.Wallet W common_Address * error).
Variable GetConfig : M W (services.SmartnodeConfig * error).
Variable GetRocketPool : M W (RocketPool * error).
Variable HexToAddress : string -> common_Address.
Variable CodeAt :
  services.ExecutionClientManager W -> common_Address -> M W (list Byte.byte * error).
Variable GetNodeExists : RocketPool -> common_Address -> M W (bool * error).
Variable GetMemberExists : RocketPool -> common_Address -> M W (bool * error).

Let passwordSet := services.getNodePasswordSet GetPasswordManager.
Let walletInitialized := services.getNodeWalletInitialized GetWallet.
Let ethSynced :=
  services.RequireEthClientSynced CheckStatus GetEthClient
    GetEthClientLatestBlockTimestamp secondsExceed.
Let storageLoaded := services.getRocketStorageLoaded GetEthClient GetConfig HexToAddress CodeAt.
Let nodeRegistered := services.getNodeRegistered GetWallet GetRocketPool GetNodeExists.
Let nodeTrusted := services.getNodeTrusted GetWallet GetRocketPool GetMemberExists.
Let RequireNodePassword := services.RequireNodePassword GetPasswordManager.
Let RequireNodeWallet := services.RequireNodeWallet GetPasswordManager GetWallet.
Let RequireNodeRegistered :=
  services.RequireNodeRegistered CheckStatus GetEthClient GetEthClientLatestBlockTimestamp
    secondsExceed GetPasswordManager GetWallet GetConfig GetRocketPool HexToAddress CodeAt
    GetNodeExists.
Let RequireNodeTrusted :=
  services.RequireNodeTrusted CheckStatus GetEthClient GetEthClientLatestBlockTimestamp
    secondsExceed GetPasswordManager GetWallet GetConfig GetRocketPool HexToAddress CodeAt
    GetMemberExists.

(** [RequireNodeWallet], then [RequireRocketStorage], then a last check
    pass exactly when the five checks pass, each made in the world the
    one before left. *)
Lemma requireOfNode_passes_iff (last : M W (bool * error)) (msg : string)
    (fuel : nat) (w : W) :
  let w1 := snd (passwordSet w) in
  let w2 := snd (walletInitialized w1) in
  let w3 := snd (ethSynced fuel w2) in
  let w4 := snd (storageLoaded w3) in
  fst (services.requireOfNode CheckStatus GetEthClient GetEthClientLatestBlockTimestamp
         secondsExceed GetPasswordManager GetWallet GetConfig HexToAddress CodeAt
         fuel (services.demand last msg) w) = Some (Return None)
  <-> fst (passwordSet w) = (true, None)
      /\ fst (walletInitialized w1) = (true, None)
      /\ fst (ethSynced fuel w2) = Some (Return None)
      /\ fst (storageLoaded w3) = (true, None)
      /\ fst (last w4) = (true, None).
Proof.
  unfold services.requireOfNode, services.RequireNodeWallet, services.RequireNodePassword,
    services.RequireRocketStorage, services.afterEthClientSynced, services.demand, bind.
  subst passwordSet walletInitialized ethSynced storageLoaded. cbv zeta.
  destruct (services.getNodePasswordSet GetPasswordManager w) as [[ok1 err1] w1].
  cbn [fst snd].
  destruct err1 as [e|];
    [cbn; split; [discriminate | intros Hx; decompose [and] Hx; discriminate]|].
  destruct ok1; cbn [negb];
    [|cbn; split; [discriminate | intros Hx; decompose [and] Hx; discriminate]].
  unfold ret at 1.
  destruct (services.getNodeWalletInitialized GetWallet w1) as [[ok2 err2] w2].
  cbn [fst snd].
  destruct err2 as [e|];
    [cbn; split; [discriminate | intros Hx; decompose [and] Hx; discriminate]|].
  destruct ok2; cbn [negb];
    [|cbn; split; [discriminate | intros Hx; decompose [and] Hx; discriminate]].
  unfold ret at 1.
  destruct (services.RequireEthClientSynced CheckStatus GetEthClient
              GetEthClientLatestBlockTimestamp secondsExceed fuel w2) as [r3 w3].
  cbn [fst snd].
  destruct r3 as [[[e|]|m]|];
    try (cbn; split; [discriminate | intros Hx; decompose [and] Hx; discriminate]).
  destruct (services.getRocketStorageLoaded GetEthClient GetConfig HexToAddress CodeAt w3)
    as [[ok4 err4] w4].
  cbn [fst snd].
  destruct err4 as [e|];
    [cbn; split; [discriminate | intros Hx; decompose [and] Hx; discriminate]|].
  destruct ok4; cbn [negb];
    [|cbn; split; [discriminate | intros Hx; decompose [and] Hx; discriminate]].
  unfold ret at 1 2.
  destruct (last w4) as [[ok5 err5] w5]. cbn [fst snd].
  destruct err5 as [e|];
    [cbn; split; [discriminate | intros Hx; decompose [and] Hx; discriminate]|].
  destruct ok5; cbn;
    [|split; [discriminate | intros Hx; decompose [and] Hx; discriminate]].
  split; auto.
Qed.

(** X14: [RequireNodeRegistered] returns nil exactly when its five checks
    pass, made in this order, each in the world the one before left: the
    password is set, the wallet is initialized, the execution client is
    synced, the storage contract is loaded, the node is registered.
    [RequireNodeTrusted] is alike, with membership of the oracle DAO as
    the last check. *)
Theorem node_requirement_passes_iff_all_checks_pass (fuel : nat) (w : W) :
  let w1 := snd (passwordSet w) in
  let w2 := snd (walletInitialized w1) in
  let w3 := snd (ethSynced fuel w2) in
  let w4 := snd (storageLoaded w3) in
  (fst (RequireNodeRegistered fuel w) = Some (Return None)
   <-> fst (passwordSet w) = (true, None)
       /\ fst (walletInitialized w1) = (true, None)
       /\ fst (ethSynced fuel w2) = Some (Return None)
       /\ fst (storageLoaded w3) = (true, None)
       /\ fst (nodeRegistered w4) = (true, None))
  /\ (fst (RequireNodeTrusted fuel w) = Some (Return None)
      <-> fst (passwordSet w) = (true, None)
          /\ fst (walletInitialized w1) = (true, None)
          /\ fst (ethSynced fuel w2) = Some (Return None)
          /\ fst (storageLoaded w3) = (true, None)
          /\ fst (nodeTrusted w4) = (true, None)).
Proof.
  intros w1 w2 w3 w4. split.
  - exact (requireOfNode_passes_iff nodeRegistered _ fuel w).
  - exact (requireOfNode_passes_iff nodeTrusted _ fuel w).
Qed.

(** X15: a failed password requirement stops every requirement built on
    it. When [RequireNodePassword] returns an error (the password
    manager is not available, or no password is set), then
    [RequireNodeWallet], [RequireNodeRegistered] and [RequireNodeTrusted]
    return that same error, whatever the fuel, and leave the world as
    the password check left it: the wallet, the clients and the
    contracts are not asked. *)
Theorem failed_password_requirement_stops_the_chain (fuel : nat) (w : W) (e : string) :
  fst (RequireNodePassword w) = Some e ->
  RequireNodeWallet w = (Some e, snd (RequireNodePassword w))
  /\ RequireNodeRegistered fuel w = (Some (Return (Some e)), snd (RequireNodePassword w))
  /\ RequireNodeTrusted fuel w = (Some (Return (Some e)), snd (RequireNodePassword w)).
Proof.
  subst RequireNodePassword RequireNodeWallet RequireNodeRegistered RequireNodeTrusted.
  unfold services.RequireNodeRegistered, services.RequireNodeTrusted,
    services.requireOfNode, services.RequireNodeWallet, bind.
  destruct (services.RequireNodePassword GetPasswordManager w) as [[e0|] w1];
    cbn [fst snd]; intros He; inversion He; subst.
  repeat split.
Qed.

(** A [waitUntil] loop succeeds exactly when some check within the fuel
    is the first to come out positive. *)
Lemma waitUntil_success_iff (check : M W (bool * error)) (interval : Duration) :
  forall (fuel : nat) (w : W),
    fst (loop (services.waitUntil check interval) fuel tt w) = Some None
    <-> exists k, (k < fuel)%nat /\ holdsAtCheck check interval k w.
Proof.
  induction fuel as [|n IH]; intros w.
  - cbn. split; [discriminate | intros (k & Hk & _); lia].
  - cbn [loop]. unfold bind at 1. unfold services.waitUntil at 1. unfold bind at 1.
    destruct (check w) as [[ok err] w1] eqn:Hc.
    destruct err as [e|].
    + cbn. split; [discriminate|]. intros (k & Hk & Hbefore & Hat).
      destruct k as [|k].
      * cbn in Hat. rewrite Hc in Hat. discriminate.
      * specialize (Hbefore 0%nat ltac:(lia)). cbn in Hbefore. rewrite Hc in Hbefore.
        discriminate.
    + destruct ok.
      * cbn. split; [intros _|reflexivity]. exists 0%nat. split; [lia|]. split.
        -- intros j Hj; lia.
        -- cbn. rewrite Hc. reflexivity.
      * unfold bind at 1.
        destruct (time_Sleep interval w1) as [u w2] eqn:Hs. unfold ret at 1.
        assert (Hnext : nextCheck check interval w = w2).
        { unfold nextCheck. rewrite Hc. cbn [snd]. rewrite Hs. reflexivity. }
        rewrite IH. split.
        -- intros (k & Hk & Hbefore & Hat). exists (Datatypes.S k). split; [lia|]. split.
           ++ intros [|j] Hj.
              ** cbn. rewrite Hc. reflexivity.
              ** cbn [checkWorld]. rewrite Hnext. apply Hbefore. lia.
           ++ cbn [checkWorld]. rewrite Hnext. exact Hat.
        -- intros (k & Hk & Hbefore & Hat). destruct k as [|k].
           ++ cbn in Hat. rewrite Hc in Hat. discriminate.
           ++ exists k. split; [lia|]. split.
              ** intros j Hj. specialize (Hbefore (Datatypes.S j) ltac:(lia)).
                 cbn [checkWorld] in Hbefore. rewrite Hnext in Hbefore. exact Hbefore.
              ** cbn [checkWorld] in Hat. rewrite Hnext in Hat. exact Hat.
Qed.

(** A [waitUntil] loop fails with [e] exactly when some check within the
    fuel fails with [e] after negative checks only. *)
Lemma waitUntil_error_iff (check : M W (bool * error)) (interval : Duration) (e : string) :
  forall (fuel : nat) (w : W),
    fst (loop (services.waitUntil check interval) fuel tt w) = Some (Some e)
    <-> exists k, (k < fuel)%nat
          /\ (forall j, (j < k)%nat ->
                fst (check (checkWorld check interval j w)) = (false, None))
          /\ exists ok, fst (check (checkWorld check interval k w)) = (ok, Some e).
Proof.
  induction fuel as [|n IH]; intros w.
  - cbn. split; [discriminate | intros (k & Hk & _); lia].
  - cbn [loop]. unfold bind at 1. unfold services.waitUntil at 1. unfold bind at 1.
    destruct (check w) as [[ok err] w1] eqn:Hc.
    destruct err as [e0|].
    + cbn. split.
      * intros Hx; inversion Hx; subst. exists 0%nat. split; [lia|]. split.
        -- intros j Hj; lia.
        -- exists ok. cbn. rewrite Hc. reflexivity.
      * intros (k & Hk & Hbefore & ok' & Hat). destruct k as [|k].
        -- cbn in Hat. rewrite Hc in Hat. inversion Hat; reflexivity.
        -- specialize (Hbefore 0%nat ltac:(lia)). cbn in Hbefore. rewrite Hc in Hbefore.
           discriminate.
    + destruct ok.
      * cbn. split; [discriminate|]. intros (k & Hk & Hbefore & ok' & Hat).
        destruct k as [|k].
        -- cbn in Hat. rewrite Hc in Hat. discriminate.
        -- specialize (Hbefore 0%nat ltac:(lia)). cbn in Hbefore. rewrite Hc in Hbefore.
           discriminate.
      * unfold bind at 1.
        destruct (time_Sleep interval w1) as [u w2] eqn:Hs. unfold ret at 1.
        assert (Hnext : nextCheck check interval w = w2).
        { unfold nextCheck. rewrite Hc. cbn [snd]. rewrite Hs. reflexivity. }
        rewrite IH. split.
        -- intros (k & Hk & Hbefore & Hat). exists (Datatypes.S k). split; [lia|]. split.
           ++ intros [|j] Hj.
              ** cbn. rewrite Hc. reflexivity.
              ** cbn [checkWorld]. rewrite Hnext. apply Hbefore. lia.
           ++ cbn [checkWorld]. rewrite Hnext. exact Hat.
        -- intros (k & Hk & Hbefore & ok' & Hat). destruct k as [|k].
           ++ cbn in Hat. rewrite Hc in Hat. discriminate.
           ++ exists k. split; [lia|]. split.
              ** intros j Hj. specialize (Hbefore (Datatypes.S j) ltac:(lia)).
                 cbn [checkWorld] in Hbefore. rewrite Hnext in Hbefore. exact Hbefore.
              ** exists ok'. cbn [checkWorld] in Hat. rewrite Hnext in Hat. exact Hat.
Qed.

(** X16: [WaitNodePassword] checks every 15 seconds until the password is
    set. It returns nil exactly when one of its checks (within the fuel)
    finds the password set, the checks before it having found it unset
    without error; and it returns an error exactly when one of its checks
    fails with that error, after checks that found the password unset.
    There is no timeout: nothing else ends the wait. *)
Theorem password_wait_ends_at_first_decisive_check (verbose : bool) (fuel : nat) (w : W) :
  (fst (services.WaitNodePassword GetPasswordManager verbose fuel w) = Some None
   <-> exists k, (k < fuel)%nat
         /\ holdsAtCheck passwordSet services.checkNodePasswordInterval k w)
  /\ (forall e,
        fst (services.WaitNodePassword GetPasswordManager verbose fuel w) = Some (Some e)
        <-> exists k, (k < fuel)%nat
              /\ (forall j, (j < k)%nat ->
                    fst (passwordSet
                           (checkWorld passwordSet services.checkNodePasswordInterval j w))
                    = (false, None))
              /\ exists ok,
                   fst (passwordSet
                          (checkWorld passwordSet services.checkNodePasswordInterval k w))
                   = (ok, Some e)).
Proof.
  unfold services.WaitNodePassword. split.
  - apply waitUntil_success_iff.
  - intros e. apply waitUntil_error_iff.
Qed.

(** X22: [WaitNodeRegistered] returns nil exactly when its five waits
    succeed one after the other, each started in the world the one
    before left: some check finds the password set, then some check
    finds the wallet initialized, then the execution client wait
    returns nil, then some check finds the storage contract loaded, then
    some check finds the node registered; within each wait the checks
    before the successful one came out negative without error. *)
Theorem node_wait_passes_iff_all_waits_pass (verbose : bool) (fuel : nat) (w : W) :
  let ethWait :=
    services.WaitEthClientSynced CheckStatus GetEthClient
      GetEthClientLatestBlockTimestamp secondsExceed verbose fuel in
  let w1 :=
    snd (loop (services.waitUntil passwordSet services.checkNodePasswordInterval) fuel tt w) in
  let w2 :=
    snd (loop (services.waitUntil walletInitialized services.checkNodeWalletInterval)
           fuel tt w1) in
  let w3 := snd (ethWait w2) in
  let w4 :=
    snd (loop (services.waitUntil storageLoaded services.checkRocketStorageInterval)
           fuel tt w3) in
  fst (services.WaitNodeRegistered CheckStatus GetEthClient GetEthClientLatestBlockTimestamp
         secondsExceed GetPasswordManager GetWallet GetConfig GetRocketPool HexToAddress
         CodeAt GetNodeExists verbose fuel w) = Some (Return None)
  <-> (exists k, (k < fuel)%nat
         /\ holdsAtCheck passwordSet services.checkNodePasswordInterval k w)
      /\ (exists k, (k < fuel)%nat
            /\ holdsAtCheck walletInitialized services.checkNodeWalletInterval k w1)
      /\ fst (ethWait w2) = Some (Return None)
      /\ (exists k, (k < fuel)%nat
            /\ holdsAtCheck storageLoaded services.checkRocketStorageInterval k w3)
      /\ (exists k, (k < fuel)%nat
            /\ holdsAtCheck nodeRegistered services.checkNodeRegisteredInterval k w4).
Proof.
  intros ethWait w1 w2 w3 w4.
  rewrite <- !waitUntil_success_iff.
  subst ethWait w1 w2 w3 w4.
  unfold services.WaitNodeRegistered, services.WaitNodeWallet, services.WaitNodePassword,
    services.WaitRocketStorage, bind.
  subst passwordSet walletInitialized storageLoaded nodeRegistered.
  destruct (loop (services.waitUntil (services.getNodePasswordSet GetPasswordManager)
                    services.checkNodePasswordInterval) fuel tt w) as [r1 w1].
  cbn [fst snd].
  destruct r1 as [[e|]|];
    try (cbn; split; [discriminate | intros Hx; decompose [and] Hx; discriminate]).
  destruct (loop (services.waitUntil (services.getNodeWalletInitialized GetWallet)
                    services.checkNodeWalletInterval) fuel tt w1) as [r2 w2].
  cbn [fst snd].
  destruct r2 as [[e|]|];
    try (cbn; split; [discriminate | intros Hx; decompose [and] Hx; discriminate]).
  destruct (services.WaitEthClientSynced CheckStatus GetEthClient
              GetEthClientLatestBlockTimestamp secondsExceed verbose fuel w2) as [r3 w3].
  cbn [fst snd].
  destruct r3 as [[[e|]|m]|];
    try (cbn; split; [discriminate | intros Hx; decompose [and] Hx; discriminate]).
  destruct (loop (services.waitUntil
                    (services.getRocketStorageLoaded GetEthClient GetConfig HexToAddress CodeAt)
                    services.checkRocketStorageInterval) fuel tt w3) as [r4 w4].
  cbn [fst snd option_map].
  destruct r4 as [[e|]|];
    try (cbn; split; [discriminate | intros Hx; decompose [and] Hx; discriminate]).
  unfold ret at 1. cbn [option_map]. cbv beta iota.
  destruct (loop (services.waitUntil
                    (services.getNodeRegistered GetWallet GetRocketPool GetNodeExists)
                    services.checkNodeRegisteredInterval) fuel tt w4) as [r5 w5].
  cbn [fst snd option_map].
  destruct r5 as [[e|]|]; cbn;
    try (split; [discriminate | intros Hx; decompose [and] Hx; discriminate]).
  split; auto.
Qed.

End RequirementChain.

(** ** The watchtower task that dissolves timed out minipools *)

Lemma bigInt_Int64_small (x : Z) : 0 <= x < 2 ^ 63 -> bigInt_Int64 x = x.
Proof.
  intros Hx. unfold bigInt_Int64. rewrite Z.abs_eq by lia.
  rewrite Z.mod_small by lia. cbv zeta. rewrite (to_int64_small x) by lia.
  destruct (Z.ltb_spec x 0); [lia|reflexivity].
Qed.

Lemma bigInt_Uint64_small (x : Z) : 0 <= x < 2 ^ 64 -> bigInt_Uint64 x = x.
Proof.
  intros Hx. unfold bigInt_Uint64. rewrite Z.abs_eq by lia. apply Z.mod_small. lia.
Qed.

(** A whole number of seconds, as a [Duration] and back. *)
Lemma seconds_as_Duration (n : Z) :
  0 <= n <= 9223372036 -> to_int64 (to_int64 n * Second) = n * Second.
Proof.
  intros Hn. rewrite (to_int64_small n) by lia.
  apply to_int64_small. unfold Second. lia.
Qed.

(** [time.Unix(g, 0).Add(n * time.Second)] is [time.Unix(g + n, 0)]. *)
Lemma Time_Add_seconds (g n : Z) :
  representable g -> 0 <= n -> representable (g + n) ->
  Time_Add (time_Unix (to_int64 g)) (n * Second)
  = {| wallSec := g + n + unixToInternal; nsec := 0; mono := None |}.
Proof.
  intros Hg Hn Hgn. unfold Time_Add.
  change (mono (time_Unix (to_int64 g))) with (@None Z).
  change (nsec (time_Unix (to_int64 g))) with 0.
  rewrite wallSec_time_Unix by exact Hg.
  rewrite Z.quot_mul by (unfold Second; lia).
  rewrite Z.rem_mul by (unfold Second; lia).
  cbn [Z.add].
  destruct (Z.leb_spec Second 0) as [Hx|_]; [unfold Second in Hx; lia|].
  cbn [Z.ltb Z.compare].
  f_equal. unfold addSec, representable, unixToInternal in *.
  rewrite to_int64_small by lia.
  destruct (Z.ltb_spec (g + 62135596800) (g + 62135596800 + n));
    destruct (Z.ltb_spec 0 n); cbn [Bool.eqb]; lia.
Qed.

(** The comparison of two whole numbers of seconds as saturated
    [Duration]s. *)
Lemma seconds_leb_clamped (timeout elapsed : Z) :
  0 <= timeout <= 9223372036 ->
  (timeout * Second <=? clamp_int64 (elapsed * Second)) = (timeout <=? elapsed).
Proof.
  intros Ht. apply Bool.eq_true_iff_eq. rewrite !Z.leb_le.
  unfold clamp_int64, minInt64, maxInt64, Second.
  destruct (Z.ltb_spec (elapsed * 1000000000) (- 2 ^ 63));
    [|destruct (Z.ltb_spec (2 ^ 63 - 1) (elapsed * 1000000000))]; lia.
Qed.

Section Watchtower.
Context {W common_Address Minipool MinipoolManager Config : Type}.
Variable MinipoolStatus_Prelaunch : Z.
Variable Hex : common_Address -> string.
Variable cfg : Config.
Variable WatchtowerMaxFee : Config -> Z.
Variable WatchtowerPrioFee : Config -> Z.
Variable NewMinipoolManager : M W (MinipoolManager * error).
Variable NewMinipoolFromVersion :
  MinipoolManager -> common_Address -> Z -> M W (Minipool * error).
Variable Common_Address : Minipool -> common_Address.
Variable GetTransactor : M W (@watchtower.TransactOpts common_Address * error).
Variable Dissolve :
  Minipool -> @watchtower.TransactOpts common_Address -> M W (watchtower.TransactionInfo * error).
Variable PrintAndCheckGasInfo : watchtower.GasInfo -> Z -> M W bool.
Variable PrintAndWaitForTransaction :
  watchtower.TransactionInfo -> @watchtower.TransactOpts common_Address -> M W error.

Let getTimedOutMinipools :=
  watchtower.getTimedOutMinipools MinipoolStatus_Prelaunch Hex NewMinipoolFromVersion.
Let dissolveMinipool :=
  watchtower.dissolveMinipool Hex cfg WatchtowerMaxFee WatchtowerPrioFee Common_Address
    GetTransactor Dissolve PrintAndCheckGasInfo PrintAndWaitForTransaction.
Let Run :=
  watchtower.Run MinipoolStatus_Prelaunch Hex cfg WatchtowerMaxFee WatchtowerPrioFee
    NewMinipoolManager NewMinipoolFromVersion Common_Address GetTransactor Dissolve
    PrintAndCheckGasInfo PrintAndWaitForTransaction.

(** With bindings that are made without failure and without effect, the
    filter loop appends the bindings of the details that pass its test,
    in order. *)
Lemma filterByStatus_pure (mpMgr : MinipoolManager)
    (binding : common_Address -> Z -> Minipool) (blockTime : Time) (launchTimeout : Duration) :
  (forall addr ver w, NewMinipoolFromVersion mpMgr addr ver w = ((binding addr ver, None), w)) ->
  forall (details : list (@watchtower.NativeMinipoolDetails common_Address))
         (acc : list Minipool) (w : W),
    watchtower.filterByStatus MinipoolStatus_Prelaunch Hex NewMinipoolFromVersion
      mpMgr blockTime launchTimeout details acc w
    = ((acc ++ map (fun mpd => binding (watchtower.MinipoolAddress mpd) (watchtower.Version mpd))
                (filter (fun mpd =>
                           (watchtower.Status mpd =? MinipoolStatus_Prelaunch)
                           && (launchTimeout
                               <=? Time_Sub blockTime
                                     (time_Unix (bigInt_Int64 (watchtower.StatusTime mpd)))))
                        details),
        None), w).
Proof.
  intros Hpure. induction details as [|mpd rest IH]; intros acc w.
  - cbn. rewrite app_nil_r. reflexivity.
  - cbn [watchtower.filterByStatus filter map].
    destruct ((watchtower.Status mpd =? MinipoolStatus_Prelaunch)
              && (launchTimeout
                  <=? Time_Sub blockTime
                        (time_Unix (bigInt_Int64 (watchtower.StatusTime mpd))))).
    + unfold bind. rewrite Hpure. rewrite IH. cbn [map]. rewrite <- app_assoc.
      reflexivity.
    + apply IH.
Qed.

(** X17: which minipools the task dissolves. With a genesis time, a slot
    time and status times that [time.Unix] represents, a launch timeout
    and a time since genesis that a [Duration] holds, and bindings made
    without failure, [getTimedOutMinipools] returns the bindings of
    exactly the minipools that are in prelaunch and whose status time
    lies the launch timeout or more before the time of the state's slot
    ([genesis + slot * secondsPerSlot]), in the order of the state's
    list. *)
Theorem timed_out_minipools_are_the_overdue_prelaunch_ones
    (mpMgr : MinipoolManager) (binding : common_Address -> Z -> Minipool)
    (state : @watchtower.NetworkState common_Address) (w : W) :
  (forall addr ver w, NewMinipoolFromVersion mpMgr addr ver w = ((binding addr ver, None), w)) ->
  let genesis := beacon.GenesisTime (watchtower.BeaconConfig state) in
  let sinceGenesis :=
    watchtower.BeaconSlotNumber state
    * beacon.SecondsPerSlot (watchtower.BeaconConfig state) in
  representable genesis ->
  0 <= sinceGenesis <= 9223372036 ->
  representable (genesis + sinceGenesis) ->
  0 <= watchtower.MinipoolLaunchTimeout (watchtower.NetworkDetails_ state) <= 9223372036 ->
  Forall (fun mpd => representable (watchtower.StatusTime mpd))
         (watchtower.MinipoolDetails state) ->
  getTimedOutMinipools mpMgr state w
  = ((map (fun mpd => binding (watchtower.MinipoolAddress mpd) (watchtower.Version mpd))
          (filter (timedOut MinipoolStatus_Prelaunch state)
                  (watchtower.MinipoolDetails state)),
      None), w).
Proof.
  intros Hpure genesis sinceGenesis Hg Hsince Hslot Htimeout Htimes.
  subst getTimedOutMinipools. unfold watchtower.getTimedOutMinipools. cbv zeta.
  rewrite (filterByStatus_pure mpMgr binding _ _ Hpure). cbn [app].
  f_equal. f_equal. f_equal.
  fold genesis. unfold uint64_mul. fold sinceGenesis.
  rewrite (to_uint64_small sinceGenesis) by lia.
  rewrite (seconds_as_Duration sinceGenesis) by exact Hsince.
  rewrite bigInt_Uint64_small by lia.
  rewrite (seconds_as_Duration
             (watchtower.MinipoolLaunchTimeout (watchtower.NetworkDetails_ state)))
    by exact Htimeout.
  rewrite Time_Add_seconds by (try assumption; lia).
  apply filter_ext_in. intros mpd Hin.
  rewrite Forall_forall in Htimes. specialize (Htimes mpd Hin).
  unfold timedOut. fold genesis sinceGenesis. f_equal.
  assert (Hst : 0 <= watchtower.StatusTime mpd < 2 ^ 63)
    by (unfold representable, unixToInternal in Htimes; lia).
  rewrite bigInt_Int64_small by exact Hst.
  unfold Time_Sub, wallNanos. cbn [mono nsec time_Unix wallSec].
  unfold representable, unixToInternal in *.
  rewrite (to_int64_small (watchtower.StatusTime mpd + 62135596800)) by lia.
  replace ((genesis + sinceGenesis + 62135596800) * Second + 0
           - ((watchtower.StatusTime mpd + 62135596800) * Second + 0))
    with ((genesis + sinceGenesis - watchtower.StatusTime mpd) * Second) by ring.
  apply seconds_leb_clamped. exact Htimeout.
Qed.

Lemma dissolveAll_world (minipools : list Minipool) (w : W) :
  watchtower.dissolveAll Hex cfg WatchtowerMaxFee WatchtowerPrioFee Common_Address
    GetTransactor Dissolve PrintAndCheckGasInfo PrintAndWaitForTransaction minipools w
  = (tt, fold_left (fun w0 mp => snd (dissolveMinipool mp w0)) minipools w).
Proof.
  revert w. induction minipools as [|mp rest IH]; intros w; [reflexivity|].
  cbn [watchtower.dissolveAll fold_left]. unfold bind.
  fold dissolveMinipool. destruct (dissolveMinipool mp w) as [err w1].
  cbn [snd]. apply IH.
Qed.

(** X18: a failed dissolve does not stop the task. Once the manager
    binding is made and the timed out minipools are found, [Run] returns
    nil whatever the single dissolves return, and it runs
    [dissolveMinipool] on every one of them, in order: the world it
    leaves is the one the dissolves lead to, one after the other. *)
Theorem run_attempts_every_timed_out_minipool
    (state : @watchtower.NetworkState common_Address) (mpMgr : MinipoolManager)
    (minipools : list Minipool) (w w1 w2 : W) :
  NewMinipoolManager w = ((mpMgr, None), w1) ->
  getTimedOutMinipools mpMgr state w1 = ((minipools, None), w2) ->
  Run state w
  = (None, fold_left (fun w0 mp => snd (dissolveMinipool mp w0)) minipools w2).
Proof.
  intros Hmgr Hfound. subst Run getTimedOutMinipools. unfold watchtower.Run, bind.
  rewrite Hmgr, Hfound.
  destruct minipools as [|mp rest]; [reflexivity|].
  cbn [List.length Nat.eqb]. rewrite dissolveAll_world. reflexivity.
Qed.

End Watchtower.

(** ** The auction lots route *)

Section AuctionLots.
Context {float64 W : Type}.
Variable loadDetails : Z -> M W (list (@auction.AuctionLot float64 * option Z) * error).

Lemma processLot_flags (lot : @auction.AuctionLot float64) (nodeBidAmount : option Z)
    (d : auction.AuctionLotDetails) :
  auction.processLot lot nodeBidAmount = Return d -> flagsConsistent d.
Proof.
  unfold auction.processLot.
  destruct nodeBidAmount as [bid|]; [|discriminate].
  destruct (auction.lot_RemainingRplAmount lot) as [remaining|] eqn:Hr; [|discriminate].
  intros Hx; inversion Hx; subst d. unfold flagsConsistent. cbn. split.
  - exists bid, remaining. auto.
  - destruct (auction.lot_IsCleared lot); cbn; [reflexivity|].
    rewrite andb_false_r. destruct (0 <? remaining); reflexivity.
Qed.

Lemma processDetails_flags (loaded : list (@auction.AuctionLot float64 * option Z)) :
  forall details, auction.processDetails loaded = Return details ->
    Forall flagsConsistent details
    /\ map auction.Index details = map (fun p => auction.lot_Index (fst p)) loaded.
Proof.
  induction loaded as [|[lot bid] rest IH]; intros details.
  - cbn. intros Hx; inversion Hx. split; [constructor|reflexivity].
  - cbn [auction.processDetails].
    destruct (auction.processLot lot bid) as [d|msg] eqn:Hlot; [|discriminate].
    destruct (auction.processDetails rest) as [ds|msg]; [|discriminate].
    intros Hx; inversion Hx; subst details.
    destruct (IH ds eq_refl) as [Hall Hidx]. split.
    + constructor; [exact (processLot_flags _ _ _ Hlot) | exact Hall].
    + cbn [map fst]. f_equal; [|exact Hidx].
      unfold auction.processLot in Hlot.
      destruct bid; [|discriminate].
      destruct (auction.lot_RemainingRplAmount lot); [|discriminate].
      inversion Hlot. reflexivity.
Qed.

(** X19: the lot flags [PrepareData] returns are consistent. Every lot
    in the data has a node bid and a remaining amount that are not nil,
    its three flags are what these and the [IsCleared] and
    [RplRecovered] fields of the same lot say, and bidding is never
    available together with a claim or an RPL recovery; the lots come in
    the order they were loaded. *)
Theorem lot_details_flags_are_consistent (lotCount : Z) (w w' : W)
    (details : list (@auction.AuctionLotDetails float64)) :
  auction.PrepareData loadDetails lotCount w = (Return (details, None), w') ->
  Forall flagsConsistent details
  /\ exists loaded,
       fst (loadDetails lotCount w) = (loaded, None)
       /\ map auction.Index details = map (fun p => auction.lot_Index (fst p)) loaded.
Proof.
  unfold auction.PrepareData, bind.
  destruct (loadDetails lotCount w) as [[loaded [e|]] w1]; unfold ret;
    [intros Hx; inversion Hx|].
  destruct (auction.processDetails loaded) as [ds|msg] eqn:Hp;
    intros Hx; inversion Hx; subst.
  destruct (processDetails_flags loaded details Hp) as [Hall Hidx].
  split; [exact Hall|]. exists loaded. split; [reflexivity | exact Hidx].
Qed.

End AuctionLots.

(** ** Pollards *)

Section PollardNodes.
Context {W ProposalManager VotingTreeNode : Type}.
Variable NewProposalManager : M W (ProposalManager * error).
Variable CreatePollardForProposal :
  ProposalManager -> M W (Z * list (option VotingTreeNode) * error).
Variable GetPollardForProposal :
  ProposalManager -> Z -> M W (list (option VotingTreeNode) * error).

Lemma nodesOf_Return (pollardPtrs : list (option VotingTreeNode))
    (pollard : list VotingTreeNode) :
  pdao.nodesOf pollardPtrs = Return pollard <-> pollardPtrs = map Some pollard.
Proof.
  revert pollard. induction pollardPtrs as [|[node|] rest IH]; intros pollard.
  - cbn. split.
    + intros Hx; inversion Hx; reflexivity.
    + destruct pollard; [reflexivity|discriminate].
  - cbn [pdao.nodesOf]. destruct (pdao.nodesOf rest) as [ns|msg] eqn:Hr.
    + split.
      * intros Hx; inversion Hx; subst. cbn [map]. f_equal. apply IH. reflexivity.
      * destruct pollard as [|n0 ns0]; [discriminate|]. cbn [map].
        intros Hx; inversion Hx; subst. f_equal. f_equal.
        assert (Hn : Return ns = Return ns0) by (apply IH; reflexivity).
        inversion Hn; reflexivity.
    + split; [discriminate|].
      destruct pollard as [|n0 ns0]; [discriminate|]. cbn [map].
      intros Hx; inversion Hx; subst.
      assert (Hn : @Panic (list VotingTreeNode) msg = Return ns0) by (apply IH; reflexivity).
      discriminate Hn.
  - cbn. split; [discriminate|]. destruct pollard; discriminate.
Qed.

(** X20: a pollard is returned whole and in order. When [getPollard]
    returns nodes with a nil error, the proposal manager was made
    without error and its [GetPollardForProposal], asked for the same
    block number, returned pointers to exactly these nodes, in this
    order; and likewise [createPollard] returns the block number and the
    nodes [CreatePollardForProposal] returned. *)
Theorem pollard_is_returned_whole_and_in_order :
  (forall (blockNumber : Z) (w w' : W) (pollard : list VotingTreeNode),
      pdao.getPollard NewProposalManager GetPollardForProposal blockNumber w
      = (Return (pollard, None), w') ->
      exists propMgr w1,
        NewProposalManager w = ((propMgr, None), w1)
        /\ GetPollardForProposal propMgr blockNumber w1 = ((map Some pollard, None), w'))
  /\ (forall (w w' : W) (blockNumber : Z) (pollard : list VotingTreeNode),
        pdao.createPollard NewProposalManager CreatePollardForProposal w
        = (Return (blockNumber, pollard, None), w') ->
        exists propMgr w1,
          NewProposalManager w = ((propMgr, None), w1)
          /\ CreatePollardForProposal propMgr w1
             = ((blockNumber, map Some pollard, None), w')).
Proof.
  split.
  - intros blockNumber w w' pollard. unfold pdao.getPollard, bind.
    destruct (NewProposalManager w) as [[propMgr [e|]] w1]; unfold ret;
      [intros Hx; inversion Hx|].
    destruct (GetPollardForProposal propMgr blockNumber w1) as [[ptrs [e|]] w2] eqn:Hg;
      [intros Hx; inversion Hx|].
    destruct (pdao.nodesOf ptrs) as [ns|msg] eqn:Hn; intros Hx; inversion Hx; subst.
    exists propMgr, w1. split; [reflexivity|].
    apply nodesOf_Return in Hn. subst ptrs. exact Hg.
  - intros w w' blockNumber pollard. unfold pdao.createPollard, bind.
    destruct (NewProposalManager w) as [[propMgr [e|]] w1]; unfold ret;
      [intros Hx; inversion Hx|].
    destruct (CreatePollardForProposal propMgr w1) as [[[bn ptrs] [e|]] w2] eqn:Hg;
      [intros Hx; inversion Hx|].
    destruct (pdao.nodesOf ptrs) as [ns|msg] eqn:Hn; intros Hx; inversion Hx; subst.
    exists propMgr, w1. split; [reflexivity|].
    apply nodesOf_Return in Hn. subst ptrs. exact Hg.
Qed.

End PollardNodes.

(* ================================================================== *)
(** * The properties on the scenarios *)

Section OnScenarios.
Import Scenario.
Local Open Scope string_scope.

(** The end-to-end scenario of the specification: genesis at T0, 12
    seconds per slot, head block at T0 + 123, slot 10 missing and slot 9
    present: the latest block is that of slot 9. *)
Example head_state_resolves_to_slot_9 :
  DaemonState.GetHeadSlot wrapsNegative (daemon mainnet 1606824146 [("9", 900)]) 0
  = (Return (10, None), 0)
  /\ DaemonState.GetLatestBeaconBlock 0 wrapsNegative
       (daemon mainnet 1606824146 [("9", 900)]) 2 0
     = (Some (Return (900, None)), 0).
Proof. split; vm_compute; reflexivity. Qed.

(** No failure ends the walk on a beacon node without blocks: started at
    slot 0 the walk finds the slot missing, its counter wraps to 2^64 - 1, and
    no amount of fuel makes it return; there is no failure to return.
    [UpdateStateToFinalized], started at slot 31, does not return either. *)
Lemma walk_on_empty_chain_never_returns :
  DaemonState.probeSlot 0 (daemon mainnet 0 []) 0 0
  = (Continue 18446744073709551615, 0)
  /\ (forall fuel,
        fst (DaemonState.GetLatestProposedBeaconBlock 0 (daemon mainnet 0 []) fuel 0 0)
        = None)
  /\ (forall fuel,
        fst (LegacyState.UpdateStateToFinalized buildState (legacy mainnet 0 []) fuel 0)
        = None).
Proof.
  split; [reflexivity|]. split; intros fuel.
  - unfold DaemonState.GetLatestProposedBeaconBlock.
    apply (loop_never_breaks _ (fun _ => True)); [|exact I].
    intros s w _. exists (uint64_sub s 1), w. split; [reflexivity | exact I].
  - change (LegacyState.UpdateStateToFinalized buildState (legacy mainnet 0 []) fuel 0)
      with (loop (LegacyState.probeSlot buildState (legacy mainnet 0 [])) fuel 31 0).
    apply (loop_never_breaks _ (fun _ => True)); [|exact I].
    intros s w _. exists (uint64_sub s 1), w. split; [reflexivity | exact I].
Qed.

(** A chain whose only block is at slot 28: the walks from slot 31, the
    last slot of finalized epoch 0, end within 4 probes, at a slot that
    is not below 28. *)
Lemma walk_terminates_above_answering_slot_witness :
  (exists (k : nat) (wk w1 : clock) (block : Z) (exists_ : bool) (err : error),
      Z.of_nat k <= 31 - 28
      /\ walksDown (beaconNode [("28", 2800)] syncing) 31 0 (31 - Z.of_nat k) wk
      /\ beacon.GetBeaconBlock (beaconNode [("28", 2800)] syncing)
           (fmt_Sprint (31 - Z.of_nat k)) wk
         = ((block, exists_, err), w1)
      /\ (exists_ = true \/ err <> None)
      /\ DaemonState.GetLatestProposedBeaconBlock 0 (daemon mainnet 0 [("28", 2800)]) 4 31 0
         = (Some match err with
                 | Some e =>
                     (0, fmt_Errorf ("error getting Beacon block "
                                     ++ fmt_Sprint (31 - Z.of_nat k) ++ ": ") e)
                 | None => (block, None)
                 end, w1))
  /\ (exists (k : nat) (wk w1 : clock) (block : Z) (exists_ : bool) (err : error),
        Z.of_nat k <= 31 - 28
        /\ walksDown (beaconNode [("28", 2800)] syncing) 31 0 (31 - Z.of_nat k) wk
        /\ beacon.GetBeaconBlock (beaconNode [("28", 2800)] syncing)
             (fmt_Sprint (31 - Z.of_nat k)) wk
           = ((block, exists_, err), w1)
        /\ (exists_ = true \/ err <> None)
        /\ LegacyState.UpdateStateToFinalized buildState
             (legacy mainnet 0 [("28", 2800)]) 4 0
           = match err with
             | Some e =>
                 (Some (legacy mainnet 0 [("28", 2800)],
                        (None, fmt_Errorf ("error getting Beacon block "
                                           ++ fmt_Sprint (31 - Z.of_nat k) ++ ": ") e)), w1)
             | None =>
                 let (res, w') :=
                   LegacyState.updateState buildState (legacy mainnet 0 [("28", 2800)])
                     (31 - Z.of_nat k) w1 in
                 (Some res, w')
             end).
Proof.
  split.
  - refine (proj1 (walk_terminates_above_answering_slot 0 buildState
                     (daemon mainnet 0 [("28", 2800)]) (legacy mainnet 0 [("28", 2800)]))
              31 28 0 _ _ _).
    + lia.
    + lia.
    + intros w b. cbn. discriminate.
  - refine (proj2 (walk_terminates_above_answering_slot 0 buildState
                     (daemon mainnet 0 [("28", 2800)]) (legacy mainnet 0 [("28", 2800)]))
              {| beacon.FinalizedEpoch := 0 |} 28 0 0 eq_refl _ _).
    + cbn. lia.
    + intros w b. cbn. discriminate.
Defined.

(** One second before genesis there is no error: [GetHeadSlot] returns
    a slot number and a nil error (which slot depends on the platform's
    conversion of a negative float), and [UpdateStateToHead] builds and
    publishes the state at that slot. *)
Lemma head_before_genesis_returns_a_slot :
  DaemonState.GetHeadSlot wrapsNegative (daemon mainnet 1606824022 []) 0
  = (Return (1537228672809129301, None), 0)
  /\ DaemonState.GetHeadSlot zeroNegative (daemon mainnet 1606824022 []) 0
     = (Return (0, None), 0)
  /\ snd (fst (LegacyState.UpdateStateToHead zeroNegative buildState
                 (legacy mainnet 1606824022 []) 0))
     = Return (Some 0, None).
Proof. repeat split; vm_compute; reflexivity. Qed.

(** The same head block, one second before genesis. *)
Lemma head_slot_before_genesis_is_no_error_witness :
  exists slot : Z,
    DaemonState.GetHeadSlot wrapsNegative (daemon mainnet 1606824022 []) 0
    = (Return (slot, None), 0)
    /\ LegacyState.UpdateStateToHead wrapsNegative buildState
         (legacy mainnet 1606824022 []) 0
       = bind (LegacyState.updateState buildState (legacy mainnet 1606824022 []) slot)
              (fun '(l', r) => ret (l', Return r)) 0.
Proof.
  refine (head_slot_before_genesis_is_no_error wrapsNegative buildState
            (daemon mainnet 1606824022 []) (legacy mainnet 1606824022 [])
            mainnet {| eth.Time := 1606824022 |} 0 0
            eq_refl eq_refl eq_refl eq_refl _ _).
  - cbn. lia.
  - cbn. lia.
Defined.

(** A chain with blocks at slots 28 and 3 only: slots 31, 30 and
    29 are missing, and the walk from slot 31, the last slot of finalized
    epoch 0, returns the block of slot 28; so does the walk from slot 30,
    which no finalized epoch of 32 slots ends at. *)
Lemma walk_returns_latest_proposed_block_witness :
  (exists w',
     DaemonState.GetLatestProposedBeaconBlock 0
       (daemon mainnet 0 [("28", 2800); ("3", 300)]) 4 31 0
     = (Some (2800, None), w'))
  /\ (exists w',
        DaemonState.GetLatestProposedBeaconBlock 0
          (daemon mainnet 0 [("28", 2800); ("3", 300)]) 3 30 0
        = (Some (2800, None), w'))
  /\ (exists w',
        LegacyState.UpdateStateToFinalized buildState
          (legacy mainnet 0 [("28", 2800); ("3", 300)]) 4 0
        = bind (LegacyState.updateState buildState
                  (legacy mainnet 0 [("28", 2800); ("3", 300)]) 28)
               (fun res => ret (Some res)) w').
Proof.
  assert (Hmissing : forall k, 28 < k <= 31 ->
            isMissing (beaconNode [("28", 2800); ("3", 300)] syncing) k).
  { intros k Hk w. exists 0.
    assert (Hcases : k = 29 \/ k = 30 \/ k = 31) by lia.
    destruct Hcases as [-> | [-> | ->]]; reflexivity. }
  split; [|split].
  - refine (proj1 (walk_returns_latest_proposed_block 0 buildState
                     (daemon mainnet 0 [("28", 2800); ("3", 300)])
                     (legacy mainnet 0 [("28", 2800); ("3", 300)]))
              31 28 2800 0 _ _ _ _).
    + lia.
    + lia.
    + intros w. reflexivity.
    + exact Hmissing.
  - refine (proj1 (walk_returns_latest_proposed_block 0 buildState
                     (daemon mainnet 0 [("28", 2800); ("3", 300)])
                     (legacy mainnet 0 [("28", 2800); ("3", 300)]))
              30 28 2800 0 _ _ _ _).
    + lia.
    + lia.
    + intros w. reflexivity.
    + intros k Hk. apply Hmissing. lia.
  - refine (proj2 (walk_returns_latest_proposed_block 0 buildState
                     (daemon mainnet 0 [("28", 2800); ("3", 300)])
                     (legacy mainnet 0 [("28", 2800); ("3", 300)]))
              {| beacon.FinalizedEpoch := 0 |} 28 2800 0 0 eq_refl _ _ _).
    + cbn. lia.
    + intros w. reflexivity.
    + exact Hmissing.
Defined.

(** The floor is not what comes out for a head block more than 9223372036
    seconds (some 292 years) after genesis: the [Duration] saturates, and with one
    second per slot the slot returned is 9223372036, not 9223372037. *)
Lemma head_slot_saturates :
  DaemonState.GetHeadSlot wrapsNegative
    (daemon {| beacon.GenesisTime := 1606824023;
               beacon.SecondsPerSlot := 1;
               beacon.SlotsPerEpoch := 32 |}
            (1606824023 + 9223372037) []) 0
  = (Return (9223372036, None), 0)
  /\ (1606824023 + 9223372037 - 1606824023) / 1 = 9223372037.
Proof. split; vm_compute; reflexivity. Qed.

(** The scenario of the specification: 123 seconds after genesis
    with 12 seconds per slot is slot 10. *)
Lemma head_slot_is_floor_witness :
  DaemonState.GetHeadSlot wrapsNegative (daemon mainnet 1606824146 []) 0
  = (Return (10, None), 0)
  /\ LegacyState.UpdateStateToHead wrapsNegative buildState
       (legacy mainnet 1606824146 []) 0
     = bind (LegacyState.updateState buildState (legacy mainnet 1606824146 []) 10)
            (fun '(l', r) => ret (l', Return r)) 0.
Proof.
  refine (head_slot_is_floor wrapsNegative buildState
            (daemon mainnet 1606824146 []) (legacy mainnet 1606824146 [])
            mainnet {| eth.Time := 1606824146 |} 0 0
            eq_refl eq_refl eq_refl eq_refl _ _ _ _ _).
  - unfold representable, unixToInternal. cbn. lia.
  - unfold representable, unixToInternal. cbn. lia.
  - cbn. lia.
  - cbn. lia.
  - cbn. lia.
Defined.

(** Three builds of which only the second succeeds: its state is the
    latest. *)
Lemma latest_state_is_last_successful_build_witness :
  LegacyState.GetLatestState (legacy mainnet 1606824146 []) = None
  /\ LegacyState.GetLatestState
       (fst (fst (runBuilds wrapsNegative buildState [ToSlot 3; ToSlot 4; ToSlot 5]
                    (legacy mainnet 1606824146 []) 0)))
     = Some 4.
Proof.
  pose proof (latest_state_is_last_successful_build wrapsNegative buildState
                (execNode 1606824146 halfway) (beaconNode [] syncing)
                [ToSlot 3; ToSlot 4; ToSlot 5]
                (legacy mainnet 1606824146 []) 0 0 eq_refl) as (Hnew & Hlast & _).
  split; [exact Hnew | exact Hlast].
Defined.

(** The primary ready, with the fallback down and with the fallback up
    and ready. *)
Lemma primary_ready_wins_witness :
  services.checkExecutionClientStatus
    (checkStatus (execNode 0 halfway) true false down)
    (manager (execNode 0 halfway) false false) 0
  = ((manager (execNode 0 halfway) true false, (true, None, None)), 0)
  /\ services.checkExecutionClientStatus
       (checkStatus (execNode 0 halfway) true true up)
       (manager (execNode 0 halfway) false false) 0
     = ((manager (execNode 0 halfway) true true, (true, None, None)), 0).
Proof.
  split.
  - exact (primary_ready_wins (checkStatus (execNode 0 halfway) true false down)
             (manager (execNode 0 halfway) false false) _ _ 0 0 eq_refl eq_refl).
  - exact (primary_ready_wins (checkStatus (execNode 0 halfway) true true up)
             (manager (execNode 0 halfway) false false) _ _ 0 0 eq_refl eq_refl).
Defined.

(** Where the waits of the scenarios start: on a manager with neither
    client ready, the loop is entered with the primary to wait on. *)
Lemma eth_wait_starts (c : eth.ExecutionClient clock)
    (fetch : eth.ExecutionClient clock -> M clock (Z * error))
    (exc : Duration -> Z -> bool) (timeout start : Z) :
  ethWaitAt (checkStatus c false false down) (ret (manager c false false, None))
    fetch exc timeout start (timeAt start) (waitingOn c start) start.
Proof.
  exists (manager c false false), start, (manager c false false), (Some c), start, start.
  split; [reflexivity|]. split; [reflexivity|]. split; [reflexivity|].
  apply reaches_here.
Qed.

Lemma beacon_wait_starts (bc : beacon.Client clock Z) (timeout start : Z) :
  beaconWaitAt (ret (bc, None)) timeout start bc (Time_Unix (timeAt start)) start.
Proof.
  exists start, (timeAt start), start.
  split; [reflexivity|]. split; [reflexivity|]. split; [reflexivity|].
  apply reaches_here.
Qed.

(** A client that refuses [SyncProgress], one whose timestamp fetch
    fails, and a beacon node that cannot be reached: each wait, called
    with the 16 second timeout, returns the error from its first pass. *)
Lemma probe_error_ends_wait_witness :
  (exists n, forall k,
      services.waitEthClientSynced (checkStatus (execNode 0 refused) false false down)
        (ret (manager (execNode 0 refused) false false, None))
        (latestBlockAt 0) services.elapsedExceeds false 16 (n + k) 0
      = (Some (Return (false, Some "connection refused")), 0))
  /\ (exists n, forall k,
        services.waitEthClientSynced (checkStatus (execNode 0 noProgress) false false down)
          (ret (manager (execNode 0 noProgress) false false, None))
          latestBlockFails services.elapsedExceeds false 16 (n + k) 0
        = (Some (Return (false, Some "EOF")), 0))
  /\ (exists n, forall k,
        services.waitBeaconClientSynced (ret (beaconNode [] unreachable, None))
          false 16 (n + k) 0
        = (Some (false, Some "connection refused"), 0)).
Proof.
  split; [|split].
  - refine (proj1
              (probe_error_ends_wait
                 (checkStatus (execNode 0 refused) false false down)
                 (ret (manager (execNode 0 refused) false false, None))
                 (ret (beaconNode [] unreachable, None))
                 (latestBlockAt 0) services.elapsedExceeds false 16 0 "connection refused")
              (timeAt 0) (waitingOn (execNode 0 refused) 0) 0
              (waitingOn (execNode 0 refused) 0) 0 (execNode 0 refused) None 0
              _ _ eq_refl eq_refl).
    + apply eth_wait_starts.
    + vm_compute. reflexivity.
  - refine (proj1 (proj2
              (probe_error_ends_wait
                 (checkStatus (execNode 0 noProgress) false false down)
                 (ret (manager (execNode 0 noProgress) false false, None))
                 (ret (beaconNode [] unreachable, None))
                 latestBlockFails services.elapsedExceeds false 16 0 "EOF"))
              (timeAt 0) (waitingOn (execNode 0 noProgress) 0) 0
              (waitingOn (execNode 0 noProgress) 0) 0 (execNode 0 noProgress) 0 0 0
              _ _ eq_refl eq_refl eq_refl).
    + apply eth_wait_starts.
    + vm_compute. reflexivity.
  - refine (proj2 (proj2
              (probe_error_ends_wait
                 (checkStatus (execNode 0 refused) false false down)
                 (ret (manager (execNode 0 refused) false false, None))
                 (ret (beaconNode [] unreachable, None))
                 (latestBlockAt 0) services.elapsedExceeds false 16 0 "connection refused"))
              (beaconNode [] unreachable) (Time_Unix (timeAt 0)) 0 0
              {| beacon.Syncing := false |} 0 _ _ eq_refl).
    + apply beacon_wait_starts.
    + vm_compute. reflexivity.
Defined.

(** A wait called at clock 1700000060 s: a latest block of 60 seconds
    ago makes the call return success from its first pass; one of 1060
    seconds ago makes that pass sleep 5 seconds, and the call goes on from
    its next loop head. *)
Lemma recency_test_decides_witness :
  (exists n, forall k,
      services.waitEthClientSynced (checkStatus (execNode 0 noProgress) false false down)
        (ret (manager (execNode 0 noProgress) false false, None))
        (latestBlockAt 1700000000) services.elapsedExceeds false 0 (n + k)
        1700000060000000000
      = (Some (Return (true, None)), 1700000060000000000))
  /\ (exists n, forall k,
        services.waitEthClientSynced (checkStatus (execNode 0 noProgress) false false down)
          (ret (manager (execNode 0 noProgress) false false, None))
          (latestBlockAt 1699999000) services.elapsedExceeds false 0 (n + k)
          1700000060000000000
        = loop (services.waitEthStep (checkStatus (execNode 0 noProgress) false false down)
                  (latestBlockAt 1699999000) services.elapsedExceeds 0
                  (timeAt 1700000060000000000))
               k (waitingOn (execNode 0 noProgress) 1700000060000000000)
               1700000065000000000).
Proof.
  split.
  - refine (proj1 (proj2
              (recency_test_decides
                 (checkStatus (execNode 0 noProgress) false false down)
                 (ret (manager (execNode 0 noProgress) false false, None))
                 (latestBlockAt 1700000000) services.elapsedExceeds false 0
                 (timeAt 1700000060000000000)
                 (waitingOn (execNode 0 noProgress) 1700000060000000000)
                 (waitingOn (execNode 0 noProgress) 1700000060000000000)
                 (execNode 0 noProgress) 1700000000 (timeAt 1700000060000000000)
                 1700000060000000000 1700000060000000000 1700000060000000000
                 1700000060000000000 1700000060000000000 1700000060000000000
                 _ _ eq_refl eq_refl eq_refl eq_refl _)) _).
    + apply eth_wait_starts.
    + vm_compute. reflexivity.
    + unfold representable, unixToInternal. lia.
    + vm_compute. reflexivity.
  - refine (proj2 (proj2 (proj2
              (recency_test_decides
                 (checkStatus (execNode 0 noProgress) false false down)
                 (ret (manager (execNode 0 noProgress) false false, None))
                 (latestBlockAt 1699999000) services.elapsedExceeds false 0
                 (timeAt 1700000060000000000)
                 (waitingOn (execNode 0 noProgress) 1700000060000000000)
                 (waitingOn (execNode 0 noProgress) 1700000060000000000)
                 (execNode 0 noProgress) 1699999000 (timeAt 1700000060000000000)
                 1700000060000000000 1700000060000000000 1700000060000000000
                 1700000060000000000 1700000060000000000 1700000060000000000
                 _ _ eq_refl eq_refl eq_refl eq_refl _)) _)).
    + apply eth_wait_starts.
    + vm_compute. reflexivity.
    + unfold representable, unixToInternal. lia.
    + vm_compute. discriminate.
Defined.

(** A client whose latest block carries the timestamp
    [2^63 - 62135596800], which [time.Unix] wraps to the earliest instant
    there is: on the clock at 1700000060 s the difference of clock and
    timestamp is far below five minutes, yet the elapsed time saturates
    at the greatest duration, the pass sleeps and continues, and the call
    with the 16 second timeout returns [(false, nil)] at 1700000080 s. *)
Lemma recency_test_wraps_far_timestamp :
  unixNanos (timeAt 1700000060000000000) - (2 ^ 63 - 62135596800) * Second < 5 * Minute
  /\ Time_Sub (timeAt 1700000060000000000) (time_Unix (to_int64 (2 ^ 63 - 62135596800)))
     = maxDuration
  /\ services.waitEthStep (checkStatus (execNode 0 noProgress) false false down)
       (latestBlockAt (2 ^ 63 - 62135596800)) services.elapsedExceeds 16
       (timeAt 1700000060000000000)
       (waitingOn (execNode 0 noProgress) 1700000060000000000) 1700000060000000000
     = (Continue (waitingOn (execNode 0 noProgress) 1700000060000000000),
        1700000065000000000)
  /\ services.waitEthClientSynced (checkStatus (execNode 0 noProgress) false false down)
       (ret (manager (execNode 0 noProgress) false false, None))
       (latestBlockAt (2 ^ 63 - 62135596800)) services.elapsedExceeds false 16 10
       1700000060000000000
     = (Some (Return (false, None)), 1700000080000000000).
Proof.
  split; [vm_compute; reflexivity|].
  split; [vm_compute; reflexivity|].
  split; vm_compute; reflexivity.
Qed.

(** A beacon node that is synced from second 12 on. *)
Lemma beacon_wait_succeeds_iff_poll_reports_synced_witness :
  fst (services.waitBeaconClientSynced
         (ret (beaconNode [] (syncedFrom 12000000000), None)) false 0 10 0)
  = Some (true, None)
  <-> exists k, (k < 10)%nat /\ syncedAtPoll (beaconNode [] (syncedFrom 12000000000)) k 0.
Proof.
  exact (beacon_wait_succeeds_iff_poll_reports_synced
           (ret (beaconNode [] (syncedFrom 12000000000), None)) false 10
           (beaconNode [] (syncedFrom 12000000000)) (timeAt 0) 0 0 0 eq_refl eq_refl).
Defined.

(** The comparison of the timeout check at the 16 second timeout: 16
    seconds sharp do not exceed it, a nanosecond more does. *)
Example elapsed_time_against_timeout :
  services.elapsedExceeds (16 * Second) 16 = false
  /\ services.elapsedExceeds (16 * Second + 1) 16 = true
  /\ services.elapsedExceeds (- Second) 16 = false.
Proof.
  repeat split; vm_compute; reflexivity.
Qed.


(** What the clock of the scenarios shows, in Unix seconds. *)
Lemma Time_Unix_timeAt (w : Z) :
  0 <= w < 2 ^ 62 -> Time_Unix (timeAt w) = w / Second.
Proof.
  intros Hw. unfold Time_Unix, timeAt. cbn [wallSec].
  replace (w / Second + unixToInternal - unixToInternal) with (w / Second) by lia.
  apply to_int64_small. unfold Second.
  assert (0 <= w / 1000000000 <= w) by (split; [apply Z.div_pos; lia | apply Z.div_le_upper_bound; lia]).
  lia.
Qed.

Lemma seconds_after_sleeps (w0 k : Z) :
  (w0 + k * services.beaconClientSyncPollInterval) / Second = w0 / Second + 5 * k.
Proof.
  unfold services.beaconClientSyncPollInterval.
  replace (w0 + k * (5 * Second)) with (w0 + (5 * k) * Second) by lia.
  apply Z.div_add. unfold Second. lia.
Qed.

(** X21: on the clock of the scenarios, which only sleeping advances,
    the beacon wait with a timeout does end: polling a node that never
    finishes syncing, whatever its chain, it returns
    [(false, nil)] in its pass number [timeout / 5 + 1], at the first loop
    head more than [timeout] seconds after the start. *)
Theorem beacon_wait_ends_after_timeout (chain : list (string * Z)) (timeout w0 : Z) :
  0 < timeout -> 0 <= w0 -> w0 + (timeout + 5) * Second < 2 ^ 62 ->
  services.waitBeaconClientSynced (ret (beaconNode chain syncing, None)) false timeout
    (Z.to_nat (timeout / 5 + 2)) w0
  = (Some (false, None),
     w0 + (timeout / 5 + 1) * services.beaconClientSyncPollInterval).
Proof.
  intros Ht Hw0 Hmax.
  assert (Hq : 0 <= timeout / 5 /\ 5 * (timeout / 5) <= timeout < 5 * (timeout / 5) + 5).
  { pose proof (Z.div_mod timeout 5 ltac:(lia)) as Hdm.
    pose proof (Z.mod_pos_bound timeout 5 ltac:(lia)) as Hmb.
    split; [apply Z.div_pos; lia | lia]. }
  remember (timeout / 5 + 1) as N eqn:HN.
  unfold services.waitBeaconClientSynced, bind. cbn [ret time_Now clockRuntime].
  rewrite Time_Unix_timeAt by (unfold Second in *; lia).
  replace (Z.to_nat (timeout / 5 + 2)) with (Datatypes.S (Z.to_nat N)) by lia.
  assert (Hloop : forall (j : nat), Z.of_nat j <= N ->
            loop (services.waitBeaconStep (beaconNode chain syncing) timeout (w0 / Second))
                 (Datatypes.S j) tt
                 (w0 + (N - Z.of_nat j) * services.beaconClientSyncPollInterval)
            = (Some (false, None), w0 + N * services.beaconClientSyncPollInterval)).
  { induction j as [|j IH]; intros Hj.
    - replace (N - Z.of_nat 0) with N by lia.
      apply loop_break.
      apply (beacon_timeout_fires _ _ _
               (timeAt (w0 + N * services.beaconClientSyncPollInterval)));
        [exact Ht | reflexivity |].
      rewrite Time_Unix_timeAt
        by (unfold services.beaconClientSyncPollInterval, Second in *; lia).
      rewrite seconds_after_sleeps. unfold int64_sub.
      rewrite to_int64_small; unfold Second in *; lia.
    - rewrite (loop_continue _ (Datatypes.S j) tt tt
                 (w0 + (N - Z.of_nat (Datatypes.S j)) * services.beaconClientSyncPollInterval)
                 (w0 + (N - Z.of_nat j) * services.beaconClientSyncPollInterval)).
      + apply IH. lia.
      + unfold services.waitBeaconStep, services.beaconTimedOut, bind.
        destruct (Z.ltb_spec 0 timeout); [|lia].
        cbn [ret time_Now time_Sleep clockRuntime beaconNode beacon.GetSyncStatus
               syncing beacon.Syncing].
        rewrite Time_Unix_timeAt
          by (unfold services.beaconClientSyncPollInterval, Second in *; lia).
        rewrite seconds_after_sleeps. unfold int64_sub.
        rewrite to_int64_small by (unfold Second in *; lia).
        destruct (Z.ltb_spec timeout
                    (w0 / Second + 5 * (N - Z.of_nat (Datatypes.S j)) - w0 / Second));
          [lia|].
        unfold ret. apply f_equal. rewrite Nat2Z.inj_succ.
        change (@eq clock) with (@eq Z). ring. }
  specialize (Hloop (Z.to_nat N) ltac:(lia)).
  replace (N - Z.of_nat (Z.to_nat N)) with 0 in Hloop by lia.
  replace (w0 + 0 * services.beaconClientSyncPollInterval) with w0 in Hloop by lia.
  exact Hloop.
Qed.

(** On the clock of the scenarios: a status check that finds neither
    client ready, the primary usable and the fallback down, names the
    primary as the client to wait on. *)
Lemma status_check_decides_witness :
  services.checkExecutionClientStatus
    (checkStatus (execNode 0 halfway) false false down)
    (manager (execNode 0 halfway) false false) 0
  = ((manager (execNode 0 halfway) false false, (false, Some (execNode 0 halfway), None)), 0).
Proof.
  destruct (status_check_decides (checkStatus (execNode 0 halfway) false false down)
              (manager (execNode 0 halfway) false false) _ _ 0 0 eq_refl)
    as (ready & client & err & Heq & Hready & _ & Hprimary & _).
  cbn in Hready. subst ready.
  destruct (Hprimary eq_refl eq_refl) as [Hclient Herr].
  rewrite Heq, Hclient, Herr. reflexivity.
Defined.

(** A fallback found ready by the first status check ends the wait, even
    without fuel for a single pass of the loop. *)
Lemma ready_client_ends_wait_at_once_witness :
  services.waitEthClientSynced (checkStatus (execNode 0 halfway) false true up)
    (ret (manager (execNode 0 halfway) false false, None)) (latestBlockAt 0) exceeds
    true 16 0 0
  = (Some (Return (true, None)), 0).
Proof.
  exact (ready_client_ends_wait_at_once (checkStatus (execNode 0 halfway) false true up)
           (ret (manager (execNode 0 halfway) false false, None)) (latestBlockAt 0) exceeds
           true 16 0 _ _ _ 0 0 0 eq_refl eq_refl eq_refl).
Defined.

(** 61 seconds after the last refresh the status is checked again, and a
    primary found ready ends the wait; 30 seconds after it the head
    keeps its variables. *)
Lemma status_refresh_after_interval_witness :
  loop (services.waitEthStep (checkStatus (execNode 0 halfway) true false down)
          (latestBlockAt 0) exceeds 0 (timeAt 0))
       1 (waitingOn (execNode 0 halfway) 0) 61000000000
  = (Some (Return (true, None)), 61000000000)
  /\ services.waitEthHead (checkStatus (execNode 0 halfway) true false down) exceeds
       0 (timeAt 0) (waitingOn (execNode 0 halfway) 0) 30000000000
     = (Continue (waitingOn (execNode 0 halfway) 0), 30000000000).
Proof.
  split.
  - refine (proj1 (proj1 (status_refresh_after_interval
                            (checkStatus (execNode 0 halfway) true false down)
                            (latestBlockAt 0) exceeds 0 0 (timeAt 0) (timeAt 61000000000)
                            (waitingOn (execNode 0 halfway) 0)
                            61000000000 61000000000 61000000000 eq_refl eq_refl)
                     _ (timeAt 61000000000) 61000000000
                     (manager (execNode 0 halfway) true false)
                     (@None (eth.ExecutionClient clock)) 61000000000 eq_refl)
              eq_refl).
    vm_compute. reflexivity.
  - refine (proj2 (status_refresh_after_interval
                     (checkStatus (execNode 0 halfway) true false down)
                     (latestBlockAt 0) exceeds 0 0 (timeAt 0) (timeAt 30000000000)
                     (waitingOn (execNode 0 halfway) 0)
                     30000000000 30000000000 30000000000 eq_refl eq_refl) _).
    vm_compute. discriminate.
Defined.

(** While the node reports progress, a failing timestamp fetch does not
    show. *)
Lemma progress_object_skips_recency_test_witness :
  services.pollEthClient (latestBlockAt 0) (waitingOn (execNode 0 halfway) 0) 0
  = (Continue (waitingOn (execNode 0 halfway) 0),
     snd (time_Sleep services.ethClientSyncPollInterval 0))
  /\ services.pollEthClient latestBlockFails (waitingOn (execNode 0 halfway) 0) 0
     = services.pollEthClient (latestBlockAt 0) (waitingOn (execNode 0 halfway) 0) 0.
Proof.
  exact (progress_object_skips_recency_test (latestBlockAt 0) latestBlockFails
           (waitingOn (execNode 0 halfway) 0) (execNode 0 halfway) _ 0 0 eq_refl eq_refl).
Defined.

(** The beacon node that is synced from second 12 on: the wait called at
    second 0 returns success at second 15, on the answer of the poll of
    that second. *)
Lemma beacon_synced_only_when_client_says_so_witness :
  beaconSyncEvidence (ret (beaconNode [] (syncedFrom 12000000000), None))
    0 0 15000000000.
Proof.
  refine (proj1 (beacon_synced_only_when_client_says_so
                   (ret (beaconNode [] (syncedFrom 12000000000), None)) false 0 10 0
                   15000000000) _).
  vm_compute. reflexivity.
Defined.

(** The execution wait that succeeds on a latest block of 60 seconds
    ago. *)
Lemma eth_synced_only_on_evidence_witness :
  ethSyncEvidence (checkStatus (execNode 0 noProgress) false false down)
    (ret (manager (execNode 0 noProgress) false false, None))
    (latestBlockAt 1700000000) services.elapsedExceeds
    0 1700000060000000000 1700000060000000000.
Proof.
  refine (proj1 (eth_synced_only_on_evidence
                   (checkStatus (execNode 0 noProgress) false false down)
                   (ret (manager (execNode 0 noProgress) false false, None))
                   (latestBlockAt 1700000000) services.elapsedExceeds false 0 3
                   1700000060000000000 1700000060000000000) _).
  vm_compute. reflexivity.
Defined.

(** The walk from slot 11 over a chain whose last block is in slot 9. *)
Lemma walk_answer_comes_from_first_slot_not_missing_witness :
  exists k : nat,
    (k < 5)%nat
    /\ (forall j, (j < k)%nat ->
          exists b', answerOf [("9", 900)] (fmt_Sprint (slotBelow 11 j)) = (b', false, None))
    /\ ((@None string = None
         /\ answerOf [("9", 900)] (fmt_Sprint (slotBelow 11 k)) = (900, true, None))
        \/ (exists b' ex e,
              answerOf [("9", 900)] (fmt_Sprint (slotBelow 11 k)) = (b', ex, Some e)
              /\ 900 = 0
              /\ None = fmt_Errorf ("error getting Beacon block "
                                    ++ fmt_Sprint (slotBelow 11 k) ++ ": ") e)).
Proof.
  refine (walk_answer_comes_from_first_slot_not_missing 0
            (daemon mainnet 0 [("9", 900)]) (answerOf [("9", 900)]) 5 11 0 0 900 None
            (fun id w => eq_refl) _ _).
  - lia.
  - vm_compute. reflexivity.
Defined.

(** The finalized build over a chain whose last block is in slot 30: slot
    31 is missing, the state is built at slot 30. *)
Lemma finalized_build_is_at_first_slot_not_missing_witness :
  exists k : nat,
    (k < 3)%nat
    /\ (forall j, (j < k)%nat ->
          exists b', answerOf [("30", 3000)] (fmt_Sprint (slotBelow 31 j)) = (b', false, None))
    /\ ((exists b w1,
           answerOf [("30", 3000)] (fmt_Sprint (slotBelow 31 k)) = (b, true, None)
           /\ LegacyState.updateState buildState (legacy mainnet 0 [("30", 3000)])
                (slotBelow 31 k) w1
              = ((LegacyState.set_latestState (legacy mainnet 0 [("30", 3000)]) (Some 30),
                  (Some 30, None)), 0))
        \/ (exists b' ex e,
              answerOf [("30", 3000)] (fmt_Sprint (slotBelow 31 k)) = (b', ex, Some e)
              /\ LegacyState.set_latestState (legacy mainnet 0 [("30", 3000)]) (Some 30)
                 = legacy mainnet 0 [("30", 3000)]
              /\ Some 30 = None
              /\ None = fmt_Errorf ("error getting Beacon block "
                                    ++ fmt_Sprint (slotBelow 31 k) ++ ": ") e)).
Proof.
  refine (finalized_build_is_at_first_slot_not_missing buildState
            (legacy mainnet 0 [("30", 3000)])
            (LegacyState.set_latestState (legacy mainnet 0 [("30", 3000)]) (Some 30))
            (answerOf [("30", 3000)]) {| beacon.FinalizedEpoch := 0 |} 3 0 0 0
            (Some 30) None (fun id w => eq_refl) eq_refl _).
  vm_compute. reflexivity.
Defined.

(** Slots 1 and 0 are missing and the only block is in slot 2^64 - 1: the
    walk from slot 1 returns it. *)
Lemma walk_wraps_below_slot_zero_witness :
  exists w',
    DaemonState.GetLatestProposedBeaconBlock 0
      (daemon mainnet 0 [("18446744073709551615", 77)]) (Z.to_nat (1 + 2)) 1 0
    = (Some (77, None), w').
Proof.
  refine (walk_wraps_below_slot_zero 0 (daemon mainnet 0 [("18446744073709551615", 77)])
            1 77 0 _ _ _).
  - lia.
  - intros k Hk w. assert (Hcases : k = 0 \/ k = 1) by lia.
    destruct Hcases; subst k; exists 0; reflexivity.
  - intros w. reflexivity.
Defined.

(** Finalized epoch 0 of [mainnet] ends at slot 31; the chain's last
    block is in slot 30. *)
Lemma latest_finalized_block_is_last_proposed_of_epoch_witness :
  exists w',
    DaemonState.GetLatestFinalizedBeaconBlock 0 (daemon mainnet 0 [("30", 3000)])
      (Z.to_nat ((0 + 1) * 32 - 1 - 30 + 1)) 0
    = (Some (3000, None), w').
Proof.
  refine (latest_finalized_block_is_last_proposed_of_epoch 0
            (daemon mainnet 0 [("30", 3000)]) {| beacon.FinalizedEpoch := 0 |}
            30 3000 0 0 eq_refl _ _ _ _ _ _).
  - reflexivity.
  - cbn. lia.
  - cbn. lia.
  - cbn. lia.
  - intros w. reflexivity.
  - cbn. intros k Hk w. assert (k = 31) by lia. subst k. exists 0. reflexivity.
Defined.

(** The head block is 123 seconds after genesis, in slot 10; the chain's
    last block is in slot 9. *)
Lemma latest_beacon_block_is_last_proposed_at_head_witness :
  exists w',
    DaemonState.GetLatestBeaconBlock 0 wrapsNegative
      (daemon mainnet 1606824146 [("9", 900)])
      (Z.to_nat ((1606824146 - 1606824023) / 12 - 9 + 1)) 0
    = (Some (Return (900, None)), w').
Proof.
  refine (latest_beacon_block_is_last_proposed_at_head 0 wrapsNegative
            (daemon mainnet 1606824146 [("9", 900)]) {| eth.Time := 1606824146 |}
            9 900 0 0 eq_refl _ _ _ _ _ _ _ _).
  - unfold representable, unixToInternal. cbn. lia.
  - unfold representable, unixToInternal. cbn. lia.
  - cbn. lia.
  - cbn. lia.
  - reflexivity.
  - cbn. lia.
  - intros w. reflexivity.
  - cbn. intros k Hk w. assert (k = 10) by lia. subst k. exists 0. reflexivity.
Defined.

(** The head block is 120 seconds after genesis: the states are built at
    slot 10. *)
Lemma head_state_is_built_at_head_slot_witness :
  DaemonState.GetHeadState wrapsNegative buildState (daemon mainnet 1606824143 []) 0
  = (Return (Some 10, None), 0)
  /\ DaemonState.GetHeadStateForNode wrapsNegative buildNodeState
       (daemon mainnet 1606824143 []) 7 true 0
     = (Return (Some 10, Some 1000, None), 0).
Proof.
  refine (head_state_is_built_at_head_slot wrapsNegative buildState buildNodeState
            (daemon mainnet 1606824143 []) {| eth.Time := 1606824143 |} 7 true
            (Some 10) (Some 10) (Some 1000) 0 0 0 0 eq_refl _ _ _ _ _ eq_refl eq_refl).
  - unfold representable, unixToInternal. cbn. lia.
  - unfold representable, unixToInternal. cbn. lia.
  - cbn. lia.
  - cbn. lia.
  - reflexivity.
Defined.

(** No password is set: every requirement returns the password
    requirement's error, even with no fuel for the execution wait. *)
Lemma failed_password_requirement_stops_the_chain_witness :
  services.RequireNodeWallet (passwords false) (wallets true) 0
  = (Some "The node password has not been set. Please run 'rocketpool wallet init' and try again.",
     0)
  /\ services.RequireNodeRegistered (checkStatus (execNode 0 halfway) true false down)
       (ret (manager (execNode 0 halfway) false false, None)) (latestBlockAt 0) exceeds
       (passwords false) (wallets true) config rocketPool hexToAddress codeAt
       (nodeKnown true) 0 0
     = (Some (Return (Some "The node password has not been set. Please run 'rocketpool wallet init' and try again.")),
        0)
  /\ services.RequireNodeTrusted (checkStatus (execNode 0 halfway) true false down)
       (ret (manager (execNode 0 halfway) false false, None)) (latestBlockAt 0) exceeds
       (passwords false) (wallets true) config rocketPool hexToAddress codeAt
       (nodeKnown true) 0 0
     = (Some (Return (Some "The node password has not been set. Please run 'rocketpool wallet init' and try again.")),
        0).
Proof.
  exact (failed_password_requirement_stops_the_chain
           (checkStatus (execNode 0 halfway) true false down)
           (ret (manager (execNode 0 halfway) false false, None)) (latestBlockAt 0) exceeds
           (passwords false) (wallets true) config rocketPool hexToAddress codeAt
           (nodeKnown true) (nodeKnown true) 0 0 _ eq_refl).
Defined.

(** At slot 100000 of [mainnet] with a launch timeout of three days, a
    prelaunch minipool is overdue when its status time is 1607764823 or
    earlier: of four minipools, the first two are; the third is not in
    prelaunch and the fourth is one second short. *)
Lemma timed_out_minipools_are_the_overdue_prelaunch_ones_witness :
  watchtower.getTimedOutMinipools 1 fmt_Sprint newMinipoolFromVersion tt
    (networkState [minipoolAt 1 1 1607000000; minipoolAt 2 1 1607764823;
                   minipoolAt 3 2 1607000000; minipoolAt 4 1 1607764824]) 0
  = (([bindingOf 1 3; bindingOf 2 3], None), 0).
Proof.
  refine (timed_out_minipools_are_the_overdue_prelaunch_ones 1 fmt_Sprint
            newMinipoolFromVersion tt bindingOf
            (networkState [minipoolAt 1 1 1607000000; minipoolAt 2 1 1607764823;
                           minipoolAt 3 2 1607000000; minipoolAt 4 1 1607764824]) 0
            (fun addr ver w => eq_refl) _ _ _ _ _).
  - unfold representable, unixToInternal. cbn. lia.
  - cbn. lia.
  - unfold representable, unixToInternal. cbn. lia.
  - cbn. lia.
  - cbn. repeat constructor; unfold representable, unixToInternal; cbn; lia.
Defined.

(** Two minipools are overdue; the dissolve of the second cannot be
    estimated. [Run] returns nil all the same, after both attempts: one
    tick and a wait of ten for the first, one tick for the second. *)
Lemma run_attempts_every_timed_out_minipool_witness :
  watchtower.Run 1 fmt_Sprint tt (fun _ => 100) (fun _ => 2) (ret (tt, None))
    newMinipoolFromVersion fst transactor dissolve gasIsFine waitForTransaction
    (networkState [minipoolAt 1 1 1607000000; minipoolAt 2 1 1607764823]) 0
  = (None, 12).
Proof.
  exact (run_attempts_every_timed_out_minipool 1 fmt_Sprint tt (fun _ => 100) (fun _ => 2)
           (ret (tt, None)) newMinipoolFromVersion fst transactor dissolve gasIsFine
           waitForTransaction
           (networkState [minipoolAt 1 1 1607000000; minipoolAt 2 1 1607764823])
           tt [bindingOf 1 3; bindingOf 2 3] 0 0 0 eq_refl eq_refl).
Defined.

(** Two lots: one cleared with RPL left and a bid of the node, one open
    for bids. *)
Lemma lot_details_flags_are_consistent_witness :
  exists details,
    fst (auction.PrepareData loadLots 2 0) = Return (details, None)
    /\ Forall flagsConsistent details
    /\ map auction.Index details = [0; 1].
Proof.
  eexists. split; [reflexivity|].
  destruct (lot_details_flags_are_consistent loadLots 2 0 0 _ eq_refl)
    as [Hall (loaded & Hloaded & Hindex)].
  split; [exact Hall|]. reflexivity.
Defined.

(** The 16 second timeout, on a node that never finishes syncing: the
    wait returns [(false, nil)] at second 20. *)
Lemma beacon_wait_ends_after_timeout_witness :
  services.waitBeaconClientSynced (ret (beaconNode [] syncing, None)) false 16
    (Z.to_nat (16 / 5 + 2)) 0
  = (Some (false, None), 0 + (16 / 5 + 1) * services.beaconClientSyncPollInterval).
Proof.
  refine (beacon_wait_ends_after_timeout [] 16 0 _ _ _).
  - lia.
  - lia.
  - unfold Second. lia.
Defined.

End OnScenarios.
